(** * jina/drivers/dump.py: the sharded dump of [DumpPersistor]

    A shallow embedding of [DumpPersistor.export_dump_streaming],
    [import_vectors], [import_metas] and the three generators behind them,
    with the Python and operating-system calls they make.

    Conventions of the model.
    - A Python [int] is a [Z]; [//] and [%] are [Z.div] and [Z.modulo], which
      round like Python's.
    - A [bytes] object is a [list byte].  The [str] of an id is the list of
      its code points, each a [Z].  A path is kept as the [string] the code
      builds with [os.path.join]; it is never encoded.
    - A float64 array is the list of its elements, each element kept as the
      eight bytes it occupies in memory, which is all that [tobytes] and
      [np.frombuffer] look at.
    - The file system is a finite map from the path string the code builds to
      a directory or a file of bytes.  Text-mode handles go through the
      UTF-8 codec with strict error handling, universal newlines on reading
      and the POSIX line separator on writing.
    - A handle opened for writing keeps what is written in its buffer; the
      buffer reaches the file when the handle is closed.  A handle that is
      never closed has put none of its buffer into the store.
    - [sys.byteorder] is a parameter of every definition that uses it.
    - A generator is a state machine: not started, suspended on an open file,
      or finished; [next] is a step function that returns what the body
      yields or raises. *)

From Stdlib Require Import ZArith List String Ascii Lia DecimalString DecimalZ.
From Stdlib.Strings Require Import Byte.
From stdpp Require Import gmap strings list.

Local Open Scope string_scope.
Local Open Scope list_scope.

(** ** Python values *)

Module Py.

(** The exceptions that the modelled code can raise. *)
Inductive exn : Type :=
| Exception (msg : string)
| ZeroDivisionError
| StopIteration
| OverflowError
| ValueError
| FileNotFoundError
| FileExistsError
| IsADirectoryError
| NotADirectoryError
| UnicodeEncodeError
| UnicodeDecodeError.

Inductive result (A : Type) : Type :=
| Ok (a : A)
| Raise (e : exn).
Arguments Ok {A} a.
Arguments Raise {A} e.

Abbreviation bytes := (list byte).

(** [len(x)] as a Python int. *)
Definition len {A : Type} (l : list A) : Z := Z.of_nat (length l).

Inductive byteorder : Type := little | big.

Definition byte_of_Z (n : Z) : byte :=
  match Byte.of_N (Z.to_N (n mod 256)) with
  | Some b => b
  | None => x00
  end.

Definition Z_of_byte (b : byte) : Z := Z.of_N (Byte.to_N b).

(** The [k] low-order base-256 digits of [n], least significant first. *)
Fixpoint le_digits (k : nat) (n : Z) : bytes :=
  match k with
  | O => []
  | S k' => byte_of_Z n :: le_digits k' (n / 256)
  end.

(** [n.to_bytes(length, byteorder)] for an unsigned conversion. *)
Definition to_bytes (n : Z) (length : nat) (order : byteorder) : result bytes :=
  if (n <? 0)%Z || (256 ^ Z.of_nat length <=? n)%Z then Raise OverflowError
  else match order with
       | little => Ok (le_digits length n)
       | big => Ok (rev (le_digits length n))
       end.

Fixpoint le_value (bs : bytes) : Z :=
  match bs with
  | [] => 0
  | b :: bs' => Z_of_byte b + 256 * le_value bs'
  end.

(** [int.from_bytes(bs, byteorder=order)]; the empty buffer gives 0. *)
Definition from_bytes (bs : bytes) (order : byteorder) : Z :=
  match order with
  | little => le_value bs
  | big => le_value (rev bs)
  end.

(** One float64 element, as its memory image. *)
Inductive float64 : Type :=
| F64 (b0 b1 b2 b3 b4 b5 b6 b7 : byte).

Abbreviation ndarray := (list float64).

Definition float64_bytes (x : float64) : bytes :=
  match x with
  | F64 b0 b1 b2 b3 b4 b5 b6 b7 => [b0; b1; b2; b3; b4; b5; b6; b7]
  end.

(** [vec.tobytes()]. *)
Definition tobytes (vec : ndarray) : bytes := flat_map float64_bytes vec.

(** [np.frombuffer(buf, dtype=np.float64)]: a buffer whose size is not a
    multiple of the element size is refused with [ValueError]. *)
Fixpoint frombuffer (buf : bytes) : result ndarray :=
  match buf with
  | [] => Ok []
  | b0 :: b1 :: b2 :: b3 :: b4 :: b5 :: b6 :: b7 :: rest =>
      match frombuffer rest with
      | Ok v => Ok (F64 b0 b1 b2 b3 b4 b5 b6 b7 :: v)
      | Raise e => Raise e
      end
  | _ => Raise ValueError
  end.

(** [str(n)] for an int, as a path component. *)
Definition str (n : Z) : string := NilZero.string_of_int (Z.to_int n).

(** *** Text *)

(** The [str] of an id: its code points, in [0 .. 0x10FFFF]. *)
Abbreviation text := (list Z).

(** The text of a literal whose characters are below 256. *)
Definition u (s : string) : text :=
  map (fun c => Z.of_N (N_of_ascii c)) (list_ascii_of_string s).

Definition LF : Z := 10.
Definition CR : Z := 13.

(** A code point that has an encoding: any but a surrogate. *)
Definition scalar (c : Z) : Prop :=
  (0 <= c < 0xD800)%Z \/ (0xE000 <= c < 0x110000)%Z.

(** The UTF-8 encoding of one code point; a surrogate is refused. *)
Definition utf8_encode_char (c : Z) : result bytes :=
  if (c <? 0)%Z then Raise UnicodeEncodeError
  else if (c <? 0x80)%Z then Ok [byte_of_Z c]
  else if (c <? 0x800)%Z then
    Ok [byte_of_Z (0xC0 + c / 64); byte_of_Z (0x80 + c mod 64)]
  else if (c <? 0xD800)%Z || ((0xE000 <=? c)%Z && (c <? 0x10000)%Z) then
    Ok [byte_of_Z (0xE0 + c / 4096); byte_of_Z (0x80 + c / 64 mod 64);
        byte_of_Z (0x80 + c mod 64)]
  else if (0x10000 <=? c)%Z && (c <? 0x110000)%Z then
    Ok [byte_of_Z (0xF0 + c / 262144); byte_of_Z (0x80 + c / 4096 mod 64);
        byte_of_Z (0x80 + c / 64 mod 64); byte_of_Z (0x80 + c mod 64)]
  else Raise UnicodeEncodeError.

(** [s.encode('utf-8')], errors being strict. *)
Fixpoint utf8_encode (s : text) : result bytes :=
  match s with
  | [] => Ok []
  | c :: s' =>
      match utf8_encode_char c with
      | Ok a =>
          match utf8_encode s' with
          | Ok b => Ok (a ++ b)
          | Raise e => Raise e
          end
      | Raise e => Raise e
      end
  end.

Definition continuation (x : Z) : bool := (0x80 <=? x)%Z && (x <? 0xC0)%Z.

Definition decoded (c : Z) (r : result text) : result text :=
  match r with
  | Ok s => Ok (c :: s)
  | Raise e => Raise e
  end.

(** [bs.decode('utf-8')], errors being strict: a byte that begins no
    sequence, a sequence that is cut short, an overlong form, a surrogate and
    a value above 0x10FFFF are refused. *)
Fixpoint utf8_decode (bs : bytes) : result text :=
  match bs with
  | [] => Ok []
  | b0 :: r0 =>
      let x0 := Z_of_byte b0 in
      if (x0 <? 0x80)%Z then decoded x0 (utf8_decode r0)
      else if (x0 <? 0xE0)%Z then
        match r0 with
        | b1 :: r1 =>
            let x1 := Z_of_byte b1 in
            let c := ((x0 - 0xC0) * 64 + (x1 - 0x80))%Z in
            if continuation x1 && (0x80 <=? c)%Z
            then decoded c (utf8_decode r1)
            else Raise UnicodeDecodeError
        | _ => Raise UnicodeDecodeError
        end
      else if (x0 <? 0xF0)%Z then
        match r0 with
        | b1 :: b2 :: r2 =>
            let x1 := Z_of_byte b1 in
            let x2 := Z_of_byte b2 in
            let c := ((x0 - 0xE0) * 4096 + (x1 - 0x80) * 64 + (x2 - 0x80))%Z in
            if continuation x1 && continuation x2 && (0x800 <=? c)%Z
               && negb ((0xD800 <=? c)%Z && (c <? 0xE000)%Z)
            then decoded c (utf8_decode r2)
            else Raise UnicodeDecodeError
        | _ => Raise UnicodeDecodeError
        end
      else
        match r0 with
        | b1 :: b2 :: b3 :: r3 =>
            let x1 := Z_of_byte b1 in
            let x2 := Z_of_byte b2 in
            let x3 := Z_of_byte b3 in
            let c := ((x0 - 0xF0) * 262144 + (x1 - 0x80) * 4096
                      + (x2 - 0x80) * 64 + (x3 - 0x80))%Z in
            if continuation x1 && continuation x2 && continuation x3
               && (0x10000 <=? c)%Z && (c <? 0x110000)%Z
            then decoded c (utf8_decode r3)
            else Raise UnicodeDecodeError
        | _ => Raise UnicodeDecodeError
        end
  end.

(** [c.isspace()]: TAB, LF, VT, FF, CR, the four separators FS, GS, RS and
    US, the space, NEL, the no-break space, and the spaces and separators
    above 255. *)
Definition isspace (c : Z) : bool :=
  ((9 <=? c) && (c <=? 13) || (28 <=? c) && (c <=? 32)
   || (c =? 0x85) || (c =? 0xA0) || (c =? 0x1680)
   || (0x2000 <=? c) && (c <=? 0x200A)
   || (c =? 0x2028) || (c =? 0x2029) || (c =? 0x202F) || (c =? 0x205F)
   || (c =? 0x3000))%Z.

Fixpoint lstrip (s : text) : text :=
  match s with
  | [] => []
  | c :: s' => if isspace c then lstrip s' else s
  end.

Fixpoint rstrip (s : text) : text :=
  match s with
  | [] => []
  | c :: s' =>
      match rstrip s' with
      | [] => if isspace c then [] else [c]
      | r => c :: r
      end
  end.

(** [s.strip()]: leading and trailing whitespace removed. *)
Definition strip (s : text) : text := rstrip (lstrip s).

(** Every character of [s] is whitespace. *)
Definition all_space (s : text) : bool := forallb isspace s.

(** The first, and the last, character of [s] is whitespace. *)
Definition space_first (s : text) : bool :=
  match s with
  | [] => false
  | c :: _ => isspace c
  end.

Fixpoint space_last (s : text) : bool :=
  match s with
  | [] => false
  | [c] => isspace c
  | _ :: s' => space_last s'
  end.

(** [c in s] for a character and a text. *)
Definition has (c : Z) (s : text) : bool := existsb (Z.eqb c) s.

(** [c in s] for a character and a path. *)
Fixpoint contains (c : ascii) (s : string) : bool :=
  match s with
  | "" => false
  | String x s' => bool_decide (x = c) || contains c s'
  end.

End Py.

(** ** Operating-system calls

    The file system as the dump sees it: a location is the path string the
    code builds, a file is its bytes; links and permissions are left out. *)

Module OS.

Inductive node : Type :=
| Dir
| File (content : Py.bytes).

(** The store: what is found at each path. *)
Abbreviation FS := (gmap string node).

Definition sep : ascii := "/"%char.

Definition startswith (c : ascii) (s : string) : bool :=
  match s with
  | String x _ => bool_decide (x = c)
  | "" => false
  end.

Fixpoint endswith (c : ascii) (s : string) : bool :=
  match s with
  | "" => false
  | String x "" => bool_decide (x = c)
  | String _ s' => endswith c s'
  end.

(** [os.path.join(a, b)] of posixpath. *)
Definition join (a b : string) : string :=
  if startswith sep b then b
  else if bool_decide (a = "") || endswith sep a then a +:+ b
  else a +:+ String sep b.

(** [os.path.exists(p)]. *)
Definition exists_ (fs : FS) (p : string) : bool :=
  bool_decide (is_Some (fs !! p)).

(** The directories above [p]: every prefix of [p] that a separator
    follows, apart from the empty one and those that end in a separator
    themselves. [parents_go acc s] walks [s] with [acc] already passed. *)
Fixpoint parents_go (acc s : string) : list string :=
  match s with
  | "" => []
  | String c s' =>
      (if bool_decide (c = sep) && negb (bool_decide (acc = ""))
          && negb (endswith sep acc)
       then [acc] else [])
      ++ parents_go (acc +:+ String c "") s'
  end.

Definition parents (p : string) : list string := parents_go "" p.

Definition is_file (fs : FS) (p : string) : bool :=
  match fs !! p with
  | Some (File _) => true
  | _ => false
  end.

Definition is_dir (fs : FS) (p : string) : bool :=
  match fs !! p with
  | Some Dir => true
  | _ => false
  end.

(** What the way down to [p] reports when [p] itself is not there: a regular
    file above [p] gives [NotADirectoryError], a directory that is missing
    gives [FileNotFoundError]. *)
Definition above (fs : FS) (p : string) : option Py.exn :=
  if existsb (is_file fs) (parents p) then Some Py.NotADirectoryError
  else if forallb (is_dir fs) (parents p) then None
  else Some Py.FileNotFoundError.

Definition mkdir_missing (p : string) (fs : FS) : FS :=
  match fs !! p with
  | Some _ => fs
  | None => <[p := Dir]> fs
  end.

(** [os.makedirs(p)]: refuses an existing leaf and a regular file above the
    leaf, creates the leaf and the directories above it that are missing. *)
Definition makedirs (fs : FS) (p : string) : Py.result FS :=
  match fs !! p with
  | Some _ => Py.Raise Py.FileExistsError
  | None =>
      if existsb (is_file fs) (parents p) then Py.Raise Py.NotADirectoryError
      else Py.Ok (<[p := Dir]> (foldr mkdir_missing fs (parents p)))
  end.

(** A handle opened for writing: the file it is open on and the bytes that
    are written and still in its buffer.  The buffer is taken not to fill
    up: what is written reaches the file when the handle is closed, and a
    handle that is never closed leaves its file as the opening made it. *)
Record writer : Type := Writer {
  w_path : string;
  w_pending : Py.bytes
}.

(** [open(p, 'wb')] and [open(p, 'w')]: the file is truncated, or created
    in the directory that holds it. *)
Definition open_w (fs : FS) (p : string) : Py.result (FS * writer) :=
  match fs !! p with
  | Some Dir => Py.Raise Py.IsADirectoryError
  | Some (File _) => Py.Ok (<[p := File []]> fs, Writer p [])
  | None =>
      match above fs p with
      | Some e => Py.Raise e
      | None => Py.Ok (<[p := File []]> fs, Writer p [])
      end
  end.

(** [fh.write(data)] on a binary handle. *)
Definition write (fh : writer) (data : Py.bytes) : writer :=
  Writer (w_path fh) (w_pending fh ++ data).

(** [fh.write(s)] on a text handle: the text is encoded when it is written;
    the line separator is LF. *)
Definition write_text (fh : writer) (s : Py.text) : Py.result writer :=
  match Py.utf8_encode s with
  | Py.Ok data => Py.Ok (write fh data)
  | Py.Raise e => Py.Raise e
  end.

(** [fh.close()]: the buffer is appended to the file. *)
Definition close (fs : FS) (fh : writer) : FS :=
  match fs !! w_path fh with
  | Some (File c) => <[w_path fh := File (c ++ w_pending fh)]> fs
  | _ => fs
  end.

(** [open(p, 'rb')]: the handle is what is left to read. *)
Definition open_rb (fs : FS) (p : string) : Py.result Py.bytes :=
  match fs !! p with
  | Some (File c) => Py.Ok c
  | Some Dir => Py.Raise Py.IsADirectoryError
  | None =>
      match above fs p with
      | Some e => Py.Raise e
      | None => Py.Raise Py.FileNotFoundError
      end
  end.

(** Universal newlines: on reading text, CR LF and a lone CR become LF. *)
Fixpoint universal_newlines (s : Py.text) : Py.text :=
  match s with
  | [] => []
  | c :: s' =>
      if (c =? Py.CR)%Z then
        match s' with
        | c' :: _ =>
            if (c' =? Py.LF)%Z then universal_newlines s'
            else Py.LF :: universal_newlines s'
        | [] => [Py.LF]
        end
      else c :: universal_newlines s'
  end.

(** [open(p, 'r')]: the handle is the text that is left to read.  The file
    is decoded as a whole when it is opened, so that a file that is not
    UTF-8 raises [UnicodeDecodeError] at the first reading. *)
Definition open_r (fs : FS) (p : string) : Py.result Py.text :=
  match open_rb fs p with
  | Py.Ok c =>
      match Py.utf8_decode c with
      | Py.Ok s => Py.Ok (universal_newlines s)
      | Py.Raise e => Py.Raise e
      end
  | Py.Raise e => Py.Raise e
  end.

(** [fh.read(n)]: at most [n] bytes, and the handle after them. *)
Definition read (fh : Py.bytes) (n : Z) : Py.bytes * Py.bytes :=
  (firstn (Z.to_nat n) fh, skipn (Z.to_nat n) fh).

(** The next line of a text handle, with its LF when it has one, and the
    handle after it. *)
Fixpoint readline (fh : Py.text) : Py.text * Py.text :=
  match fh with
  | [] => ([], [])
  | c :: fh' =>
      if (c =? Py.LF)%Z then ([c], fh')
      else let '(l, rest) := readline fh' in (c :: l, rest)
  end.

(** [fh.readlines()], what [for l in fh] goes through: the lines that are
    left, each with its LF.  Every line takes at least one character, so
    the number of characters left is fuel enough. *)
Fixpoint readlines_upto (fuel : nat) (fh : Py.text) : list Py.text :=
  match fuel, fh with
  | O, _ => []
  | _, [] => []
  | S fuel', _ => let '(l, rest) := readline fh in l :: readlines_upto fuel' rest
  end.

Definition readlines (fh : Py.text) : list Py.text :=
  readlines_upto (length fh) fh.

End OS.

(** ** A state and exception monad for the export

    The export threads two things through its loops: the file system and the
    cursor of the data iterator.  An exception leaves the state as it was
    when it was raised. *)

Module Run.

Definition M (S A : Type) : Type := S -> Py.result A * S.

Definition ret {S A} (a : A) : M S A := fun s => (Py.Ok a, s).

Definition raise {S A} (e : Py.exn) : M S A := fun s => (Py.Raise e, s).

Definition bind {S A B} (c : M S A) (k : A -> M S B) : M S B :=
  fun s =>
    match c s with
    | (Py.Ok a, s') => k a s'
    | (Py.Raise e, s') => (Py.Raise e, s')
    end.

(** [for x in l: body x]. *)
Fixpoint for_each {S A} (l : list A) (body : A -> M S unit) : M S unit :=
  match l with
  | [] => ret tt
  | x :: l' => bind (body x) (fun _ => for_each l' body)
  end.

#[global] Instance M_ret {S} : MRet (M S) := fun A => ret.
#[global] Instance M_bind {S} : MBind (M S) := fun A B k c => bind c k.

End Run.

(** ** The dump *)

Module DumpPersistor.

Definition BYTE_PADDING : nat := 4.

(** One entry of the data iterator: [(id_, vec, meta)]. *)
Definition entry : Type := Py.text * Py.ndarray * Py.bytes.

(** A generator object: created by calling the generator function on
    [path], it runs no code before the first [next]. *)
Inductive generator (H : Type) : Type :=
| Unstarted (path : string)
| Suspended (fh : H)
| Finished.
Arguments Unstarted {H} path.
Arguments Suspended {H} fh.
Arguments Finished {H}.

(** [list(g)]: [next] until [StopIteration]; another exception passes to
    the caller.  [fuel] bounds the number of calls of [next]. *)
Fixpoint collect {H A} (next : generator H -> Py.result A * generator H)
    (fuel : nat) (g : generator H) : option (Py.result (list A)) :=
  match fuel with
  | O => None
  | S fuel' =>
      match next g with
      | (Py.Ok a, g') =>
          match collect next fuel' g' with
          | Some (Py.Ok l) => Some (Py.Ok (a :: l))
          | other => other
          end
      | (Py.Raise Py.StopIteration, _) => Some (Py.Ok [])
      | (Py.Raise e, _) => Some (Py.Raise e)
      end
  end.

(** [size_this_shard] of the export: the last shard of the range takes the
    remainder as well. *)
Definition size_this_shard (shard_range : list Z)
    (size_per_shard extra shard_id : Z) : Z :=
  if (shard_id =? List.last shard_range 0)%Z
  then (size_per_shard + extra)%Z else size_per_shard.

(** The three handles of a shard: vectors, metas, ids. *)
Definition handlers : Type := OS.writer * OS.writer * OS.writer.

Section Host.

(** [sys.byteorder] of the process. *)
Variable byteorder : Py.byteorder.

(** The state of an export: the file system and what is left of [data]. *)
Definition state : Type := OS.FS * list entry.

Definition path_exists (p : string) : Run.M state bool :=
  fun s => (Py.Ok (OS.exists_ (fst s) p), s).

Definition floordiv (a b : Z) : Run.M state Z :=
  if (b =? 0)%Z then Run.raise Py.ZeroDivisionError else Run.ret (a / b)%Z.

Definition modulo (a b : Z) : Run.M state Z :=
  if (b =? 0)%Z then Run.raise Py.ZeroDivisionError
  else Run.ret (a mod b)%Z.

Definition lift_fs (f : OS.FS -> Py.result OS.FS) : Run.M state unit :=
  fun s =>
    match f (fst s) with
    | Py.Ok fs' => (Py.Ok tt, (fs', snd s))
    | Py.Raise e => (Py.Raise e, s)
    end.

Definition lift {A} (r : Py.result A) : Run.M state A :=
  fun s => (r, s).

(** [open(p, 'wb')], [open(p, 'w')] and [fh.close()] on the file system of
    the state. *)
Definition open_w (p : string) : Run.M state OS.writer :=
  fun s =>
    match OS.open_w (fst s) p with
    | Py.Ok (fs', fh) => (Py.Ok fh, (fs', snd s))
    | Py.Raise e => (Py.Raise e, s)
    end.

Definition close (fh : OS.writer) : Run.M state unit :=
  fun s => (Py.Ok tt, (OS.close (fst s) fh, snd s)).

(** [next(data)]. *)
Definition next_data : Run.M state entry :=
  fun s =>
    match snd s with
    | [] => (Py.Raise Py.StopIteration, s)
    | e :: rest => (Py.Ok e, (fst s, rest))
    end.

(** [_get_file_handlers(shard_path)]: the three files are opened for
    writing, vectors first. *)
Definition _get_file_handlers (shard_path : string) : Run.M state handlers :=
  vectors_fh ← open_w (OS.join shard_path "vectors") ;
  metas_fh ← open_w (OS.join shard_path "metas") ;
  ids_fh ← open_w (OS.join shard_path "ids") ;
  Run.ret (vectors_fh, metas_fh, ids_fh).

(** One turn of the [while] loop of the export: the three handles as the
    turn finds them and as it leaves them. *)
Definition write_entry (fhs : handlers) : Run.M state handlers :=
  let '(vectors_fh, metas_fh, ids_fh) := fhs in
  '(id_, vec, meta) ← next_data ;
  let vec_bytes := Py.tobytes vec in
  vec_size ← lift (Py.to_bytes (Py.len vec_bytes) BYTE_PADDING byteorder) ;
  let vectors_fh := OS.write vectors_fh (vec_size ++ vec_bytes) in
  meta_size ← lift (Py.to_bytes (Py.len meta) BYTE_PADDING byteorder) ;
  let metas_fh := OS.write metas_fh (meta_size ++ meta) in
  ids_fh ← lift (OS.write_text ids_fh (id_ ++ [Py.LF])) ;
  Run.ret (vectors_fh, metas_fh, ids_fh).

(** [while shard_written < size_this_shard], with [shard_written]
    counting up from 0 by one a turn: [todo] turns are left. *)
Fixpoint write_entries (todo : nat) (fhs : handlers) : Run.M state handlers :=
  match todo with
  | O => Run.ret fhs
  | S todo' => fhs' ← write_entry fhs ; write_entries todo' fhs'
  end.

(** The body of the [for] loop of the export, for one [shard_id]. *)
Definition export_shard (path : string) (shard_range : list Z)
    (size_per_shard extra shard_id : Z) : Run.M state unit :=
  let size_this_shard :=
    size_this_shard shard_range size_per_shard extra shard_id in
  let shard_path := OS.join path (Py.str shard_id) in
  lift_fs (fun fs => OS.makedirs fs shard_path) ;;
  fhs ← _get_file_handlers shard_path ;
  '(vectors_fh, metas_fh, ids_fh) ←
    write_entries (Z.to_nat size_this_shard) fhs ;
  close vectors_fh ;;
  close metas_fh ;;
  close ids_fh.

Definition export_dump_streaming (path : string) (shards size : Z)
  : Run.M state unit :=
  found ← path_exists path ;
  if found : bool then
    Run.raise (Py.Exception
      ("path for dump " +:+ path +:+ " already exists. Not dumping..."))
  else
    size_per_shard ← floordiv size shards ;
    extra ← modulo size shards ;
    let shard_range := seqZ 0 shards in
    Run.for_each shard_range
      (export_shard path shard_range size_per_shard extra).

(** The body of [_ids_gen] from the [for] loop on: the next line of the
    handle, stripped. *)
Definition ids_loop (ids_fh : Py.text)
  : Py.result Py.text * generator Py.text :=
  match ids_fh with
  | [] => (Py.Raise Py.StopIteration, Finished)
  | _ => let '(l, rest) := OS.readline ids_fh in
         (Py.Ok (Py.strip l), Suspended rest)
  end.

(** [next(g)] for a generator [g] of [_ids_gen]. *)
Definition _ids_gen (fs : OS.FS) (g : generator Py.text)
  : Py.result Py.text * generator Py.text :=
  match g with
  | Unstarted path =>
      match OS.open_r fs (OS.join path "ids") with
      | Py.Ok ids_fh => ids_loop ids_fh
      | Py.Raise e => (Py.Raise e, Finished)
      end
  | Suspended ids_fh => ids_loop ids_fh
  | Finished => (Py.Raise Py.StopIteration, Finished)
  end.

(** One turn of the [while True] of [_vecs_gen]. *)
Definition vecs_loop (vectors_fh : Py.bytes)
  : Py.result Py.ndarray * generator Py.bytes :=
  let '(next_size, fh1) := OS.read vectors_fh (Z.of_nat BYTE_PADDING) in
  let next_size := Py.from_bytes next_size byteorder in
  if (next_size =? 0)%Z then (Py.Raise Py.StopIteration, Finished)
  else
    let '(buf, fh2) := OS.read fh1 next_size in
    match Py.frombuffer buf with
    | Py.Ok vec => (Py.Ok vec, Suspended fh2)
    | Py.Raise e => (Py.Raise e, Finished)
    end.

(** [next(g)] for a generator [g] of [_vecs_gen]. *)
Definition _vecs_gen (fs : OS.FS) (g : generator Py.bytes)
  : Py.result Py.ndarray * generator Py.bytes :=
  match g with
  | Unstarted path =>
      match OS.open_rb fs (OS.join path "vectors") with
      | Py.Ok vectors_fh => vecs_loop vectors_fh
      | Py.Raise e => (Py.Raise e, Finished)
      end
  | Suspended vectors_fh => vecs_loop vectors_fh
  | Finished => (Py.Raise Py.StopIteration, Finished)
  end.

(** One turn of the [while True] of [_metas_gen]. *)
Definition metas_loop (metas_fh : Py.bytes)
  : Py.result Py.bytes * generator Py.bytes :=
  let '(next_size, fh1) := OS.read metas_fh (Z.of_nat BYTE_PADDING) in
  let next_size := Py.from_bytes next_size byteorder in
  if (next_size =? 0)%Z then (Py.Raise Py.StopIteration, Finished)
  else
    let '(meta, fh2) := OS.read fh1 next_size in
    (Py.Ok meta, Suspended fh2).

(** [next(g)] for a generator [g] of [_metas_gen]. *)
Definition _metas_gen (fs : OS.FS) (g : generator Py.bytes)
  : Py.result Py.bytes * generator Py.bytes :=
  match g with
  | Unstarted path =>
      match OS.open_rb fs (OS.join path "metas") with
      | Py.Ok metas_fh => metas_loop metas_fh
      | Py.Raise e => (Py.Raise e, Finished)
      end
  | Suspended metas_fh => metas_loop metas_fh
  | Finished => (Py.Raise Py.StopIteration, Finished)
  end.

(** What the export writes to the three handles for one entry when neither
    length overflows the prefix and the id has an encoding: the arguments of
    the three [write] calls of [write_entry], the id line as its bytes. *)
Definition size_prefix (n : Z) : Py.bytes :=
  match Py.to_bytes n BYTE_PADDING byteorder with
  | Py.Ok b => b
  | Py.Raise _ => []
  end.

Definition vec_frame (e : entry) : Py.bytes :=
  let '(_, vec, _) := e in
  size_prefix (Py.len (Py.tobytes vec)) ++ Py.tobytes vec.

Definition meta_frame (e : entry) : Py.bytes :=
  let '(_, _, meta) := e in size_prefix (Py.len meta) ++ meta.

Definition id_line (e : entry) : Py.text :=
  let '(id_, _, _) := e in id_ ++ [Py.LF].

Definition encoded (s : Py.text) : Py.bytes :=
  match Py.utf8_encode s with
  | Py.Ok b => b
  | Py.Raise _ => []
  end.

Definition vectors_image (es : list entry) : Py.bytes :=
  flat_map vec_frame es.

Definition metas_image (es : list entry) : Py.bytes :=
  flat_map meta_frame es.

Definition ids_image (es : list entry) : Py.bytes :=
  flat_map (fun e => encoded (id_line e)) es.

(** The handles after the turn of the loop for [e]. *)
Definition fed (fhs : handlers) (e : entry) : handlers :=
  let '(vectors_fh, metas_fh, ids_fh) := fhs in
  (OS.write vectors_fh (vec_frame e), OS.write metas_fh (meta_frame e),
   OS.write ids_fh (encoded (id_line e))).

End Host.

(** The three fields of an entry. *)
Definition entry_id (e : entry) : Py.text := fst (fst e).
Definition entry_vec (e : entry) : Py.ndarray := snd (fst e).
Definition entry_meta (e : entry) : Py.bytes := snd e.

(** Both lengths of an entry fit the four-byte prefix. *)
Definition fits (e : entry) : Prop :=
  (Py.len (Py.tobytes (entry_vec e)) < 2 ^ 32)%Z
  /\ (Py.len (entry_meta e) < 2 ^ 32)%Z.

(** An entry that the export can write: its lengths fit the prefix and its
    id holds no surrogate. *)
Definition writable (e : entry) : Prop :=
  fits e /\ Forall Py.scalar (entry_id e).

(** [import_vectors(path, pea_id)]: the two generator objects, not
    started. *)
Definition import_vectors (path pea_id : string)
  : generator Py.text * generator Py.bytes :=
  let path := OS.join path pea_id in
  (Unstarted path, Unstarted path).

(** [import_metas(path, pea_id)]. *)
Definition import_metas (path pea_id : string)
  : generator Py.text * generator Py.bytes :=
  let path := OS.join path pea_id in
  (Unstarted path, Unstarted path).

(** The directory of shard [k] and its three files, as the export and the
    imports name them. *)
Definition shard_path (path : string) (k : Z) : string :=
  OS.join path (Py.str k).

Definition vectors_file (path : string) (k : Z) : string :=
  OS.join (shard_path path k) "vectors".

Definition metas_file (path : string) (k : Z) : string :=
  OS.join (shard_path path k) "metas".

Definition ids_file (path : string) (k : Z) : string :=
  OS.join (shard_path path k) "ids".

(** The number of entries planned for shard [k]: [size_this_shard] of the
    export. *)
Definition planned (shards size k : Z) : Z :=
  if (k =? shards - 1)%Z then (size / shards + size mod shards)%Z
  else (size / shards)%Z.

(** Shard [k] of the dump at [path] is on disk and holds the entries [es]:
    its directory, and the three files with what the export writes for
    [es]. *)
Definition shard_holds (byteorder : Py.byteorder) (fs : OS.FS)
    (path : string) (k : Z) (es : list entry) : Prop :=
  fs !! shard_path path k = Some OS.Dir
  /\ fs !! vectors_file path k = Some (OS.File (vectors_image byteorder es))
  /\ fs !! metas_file path k = Some (OS.File (metas_image byteorder es))
  /\ fs !! ids_file path k = Some (OS.File (ids_image es)).

(** A text without a line break. *)
Definition no_line_break (s : Py.text) : Prop :=
  Py.has Py.LF s = false /\ Py.has Py.CR s = false.

(** An id that neither begins nor ends with whitespace and holds no line
    break. *)
Definition plain_id (s : Py.text) : Prop :=
  Py.space_first s = false /\ Py.space_last s = false /\ no_line_break s.

(** An entry that the dump gives back as it was: a plain id without a
    surrogate, a vector and metadata that are not empty, lengths that fit
    the prefix. *)
Definition storable (e : entry) : Prop :=
  plain_id (entry_id e) /\ entry_vec e <> [] /\ entry_meta e <> []
  /\ writable e.

(** A caller that reads the shards [ks] one after the other with [read] and
    concatenates what they give. *)
Fixpoint concat_shards {A : Type} (read : Z -> option (Py.result (list A)))
    (ks : list Z) : option (Py.result (list A)) :=
  match ks with
  | [] => Some (Py.Ok [])
  | k :: ks' =>
      match read k with
      | Some (Py.Ok l) =>
          match concat_shards read ks' with
          | Some (Py.Ok l') => Some (Py.Ok (l ++ l'))
          | other => other
          end
      | other => other
      end
  end.

(** What [os.path.join(a, b)] puts before a relative [b]. *)
Definition dir_prefix (a : string) : string :=
  if bool_decide (a = "") || OS.endswith OS.sep a then a
  else a +:+ String OS.sep "".

(** The four locations of shard [k]. *)
Definition shard_keys (path : string) (k : Z) : list string :=
  [shard_path path k; vectors_file path k; metas_file path k; ids_file path k].

(** Nothing exists at [path], nor at a location below it, and no regular
    file stands above it. *)
Definition fresh (fs : OS.FS) (path : string) : Prop :=
  fs !! path = None
  /\ (forall rel, OS.startswith OS.sep rel = false ->
                  fs !! OS.join path rel = None)
  /\ (forall q, q ∈ OS.parents path -> OS.is_file fs q = false).

(** Nothing is at [p], and no regular file stands above it. *)
Definition not_found (fs : OS.FS) (p : string) : Prop :=
  fs !! p = None /\ forall q, q ∈ OS.parents p -> OS.is_file fs q = false.

End DumpPersistor.

(** * Properties *)

Import DumpPersistor.

(** A location is one of the four of its shard. *)
Ltac in_shard_keys := unfold shard_keys; repeat constructor.

(** Expose the state passing of a monadic definition. *)
Ltac unfold_run := unfold mbind, Run.M_bind, Run.bind.

(** ** The length prefix *)

Section Prefix.

Local Open Scope Z_scope.

Lemma Z_of_byte_of_Z (n : Z) : Py.Z_of_byte (Py.byte_of_Z n) = n mod 256.
Proof.
  unfold Py.Z_of_byte, Py.byte_of_Z.
  pose proof (Z.mod_pos_bound n 256 ltac:(lia)) as Hr.
  destruct (Byte.of_N (Z.to_N (n mod 256))) as [b|] eqn:E.
  - apply Byte.to_of_N in E. rewrite E. lia.
  - apply Byte.of_N_None_iff in E. lia.
Qed.

Lemma length_le_digits (k : nat) (n : Z) : length (Py.le_digits k n) = k.
Proof. revert n. induction k; intros; simpl; auto. Qed.

Lemma le_value_le_digits (k : nat) (n : Z) :
  0 <= n < 256 ^ Z.of_nat k -> Py.le_value (Py.le_digits k n) = n.
Proof.
  revert n. induction k as [|k IH]; intros n Hn.
  - simpl in *. lia.
  - cbn [Py.le_digits Py.le_value]. rewrite Z_of_byte_of_Z.
    rewrite Nat2Z.inj_succ, Z.pow_succ_r in Hn by lia.
    rewrite IH.
    + pose proof (Z.div_mod n 256 ltac:(lia)). lia.
    + split; [apply Z.div_pos; lia | apply Z.div_lt_upper_bound; lia].
Qed.

(** What [to_bytes] returns, [from_bytes] reads back. *)
Lemma to_bytes_from_bytes (n : Z) (k : nat) (order : Py.byteorder) :
  0 <= n < 256 ^ Z.of_nat k ->
  exists bs, Py.to_bytes n k order = Py.Ok bs /\ length bs = k
             /\ Py.from_bytes bs order = n.
Proof.
  intros Hn. unfold Py.to_bytes.
  destruct (n <? 0) eqn:E1; [lia|].
  destruct (256 ^ Z.of_nat k <=? n) eqn:E2; [lia|].
  cbn [orb]. destruct order; eexists; (split; [reflexivity|]).
  - split; [apply length_le_digits | now apply le_value_le_digits].
  - split; [now rewrite length_rev, length_le_digits|].
    cbn [Py.from_bytes]. rewrite rev_involutive.
    now apply le_value_le_digits.
Qed.

Lemma to_bytes_overflow (n : Z) (k : nat) (order : Py.byteorder) :
  256 ^ Z.of_nat k <= n -> Py.to_bytes n k order = Py.Raise Py.OverflowError.
Proof.
  intros Hn. unfold Py.to_bytes.
  destruct (256 ^ Z.of_nat k <=? n) eqn:E2; [|lia].
  now rewrite orb_true_r.
Qed.

End Prefix.

(** ** float64 buffers *)

Lemma length_tobytes (v : Py.ndarray) : length (Py.tobytes v) = 8 * length v.
Proof.
  induction v as [|x v IH]; [reflexivity|].
  change (Py.tobytes (x :: v)) with (Py.float64_bytes x ++ Py.tobytes v).
  rewrite length_app, IH. destruct x; simpl; lia.
Qed.

Lemma frombuffer_tobytes (v : Py.ndarray) : Py.frombuffer (Py.tobytes v) = Py.Ok v.
Proof.
  induction v as [|[] v IH]; [reflexivity|].
  change (Py.tobytes (Py.F64 b0 b1 b2 b3 b4 b5 b6 b7 :: v))
    with (b0 :: b1 :: b2 :: b3 :: b4 :: b5 :: b6 :: b7 :: Py.tobytes v).
  cbn [Py.frombuffer]. now rewrite IH.
Qed.

(** [np.frombuffer] succeeds exactly on the buffers that are the image of an
    array, and fails with [ValueError] on the others. *)
Lemma frombuffer_cases (buf : Py.bytes) :
  (exists v, Py.frombuffer buf = Py.Ok v /\ Py.tobytes v = buf
             /\ length buf mod 8 = 0)
  \/ (Py.frombuffer buf = Py.Raise Py.ValueError /\ length buf mod 8 <> 0).
Proof.
  remember (length buf) as n eqn:Hn. revert buf Hn.
  induction n as [n IH] using lt_wf_ind. intros buf Hn.
  destruct buf as [|b0 [|b1 [|b2 [|b3 [|b4 [|b5 [|b6 [|b7 rest]]]]]]]];
    try (right; subst n; split; [reflexivity | cbn; lia]).
  - left. exists []. subst n. auto.
  - cbn [Py.frombuffer].
    destruct (IH (length rest) ltac:(subst n; simpl; lia) rest eq_refl)
      as [(v & Hv & Hb & Hl) | (Hv & Hl)].
    + left. exists (Py.F64 b0 b1 b2 b3 b4 b5 b6 b7 :: v). rewrite Hv.
      split; [reflexivity|]. split; [unfold Py.tobytes in *; cbn [flat_map Py.float64_bytes app];
               now rewrite Hb|].
      subst n. cbn [length].
      replace (S (S (S (S (S (S (S (S (length rest))))))))) with
        (length rest + 1 * 8) by lia.
      now rewrite Nat.Div0.mod_add.
    + right. rewrite Hv. split; [reflexivity|].
      subst n. cbn [length].
      replace (S (S (S (S (S (S (S (S (length rest))))))))) with
        (length rest + 1 * 8) by lia.
      now rewrite Nat.Div0.mod_add.
Qed.

(** ** Reading frames back *)

Section Frames.

Variable byteorder : Py.byteorder.

Lemma read_app (a b : Py.bytes) :
  OS.read (a ++ b) (Z.of_nat (length a)) = (a, b).
Proof.
  unfold OS.read. rewrite Nat2Z.id.
  now rewrite take_app_length, drop_app_length.
Qed.

Lemma size_prefix_spec (n : Z) :
  (0 <= n < 2 ^ 32)%Z ->
  Py.to_bytes n BYTE_PADDING byteorder = Py.Ok (size_prefix byteorder n)
  /\ length (size_prefix byteorder n) = 4
  /\ Py.from_bytes (size_prefix byteorder n) byteorder = n.
Proof.
  intros Hn. unfold size_prefix.
  destruct (to_bytes_from_bytes n BYTE_PADDING byteorder) as (bs & -> & ? & ?);
    [exact Hn | auto].
Qed.

Lemma len_range {A} (l : list A) : (0 <= Py.len l)%Z.
Proof. unfold Py.len. lia. Qed.

Lemma len_pos {A} (l : list A) : l <> [] -> (0 < Py.len l)%Z.
Proof. destruct l; [congruence|]. unfold Py.len. simpl. lia. Qed.

(** A frame with a payload is read back whole, whatever follows it. *)
Lemma metas_loop_frame (meta rest : Py.bytes) :
  meta <> [] -> (Py.len meta < 2 ^ 32)%Z ->
  metas_loop byteorder (size_prefix byteorder (Py.len meta) ++ meta ++ rest)
  = (Py.Ok meta, Suspended rest).
Proof.
  intros Hne Hlt.
  destruct (size_prefix_spec (Py.len meta)) as (_ & Hl & Hv);
    [pose proof (len_range meta); lia|].
  unfold metas_loop. change (Z.of_nat BYTE_PADDING) with (Z.of_nat 4).
  rewrite <- Hl at 1. rewrite read_app, Hv.
  pose proof (len_pos meta Hne).
  destruct (Py.len meta =? 0)%Z eqn:E; [lia|].
  unfold Py.len. now rewrite read_app.
Qed.

Lemma vecs_loop_frame (vec : Py.ndarray) (rest : Py.bytes) :
  vec <> [] -> (Py.len (Py.tobytes vec) < 2 ^ 32)%Z ->
  vecs_loop byteorder
    (size_prefix byteorder (Py.len (Py.tobytes vec)) ++ Py.tobytes vec ++ rest)
  = (Py.Ok vec, Suspended rest).
Proof.
  intros Hne Hlt.
  destruct (size_prefix_spec (Py.len (Py.tobytes vec))) as (_ & Hl & Hv);
    [pose proof (len_range (Py.tobytes vec)); lia|].
  unfold vecs_loop. change (Z.of_nat BYTE_PADDING) with (Z.of_nat 4).
  rewrite <- Hl at 1. rewrite read_app, Hv.
  assert (Py.tobytes vec <> []) as Hb.
  { intros Hb. apply (f_equal (@length _)) in Hb.
    rewrite length_tobytes in Hb. destruct vec; [congruence | simpl in Hb; lia]. }
  pose proof (len_pos _ Hb).
  destruct (Py.len (Py.tobytes vec) =? 0)%Z eqn:E; [lia|].
  unfold Py.len. now rewrite read_app, frombuffer_tobytes.
Qed.

(** A prefix that decodes to 0 ends the sequence: the empty file, and the
    frame of an empty payload. *)
Lemma metas_loop_nil : metas_loop byteorder [] = (Py.Raise Py.StopIteration, Finished).
Proof. destruct byteorder; reflexivity. Qed.

Lemma vecs_loop_nil : vecs_loop byteorder [] = (Py.Raise Py.StopIteration, Finished).
Proof. destruct byteorder; reflexivity. Qed.

Lemma metas_loop_zero (rest : Py.bytes) :
  metas_loop byteorder (size_prefix byteorder 0 ++ rest)
  = (Py.Raise Py.StopIteration, Finished).
Proof. destruct byteorder; reflexivity. Qed.

Lemma vecs_loop_zero (rest : Py.bytes) :
  vecs_loop byteorder (size_prefix byteorder 0 ++ rest)
  = (Py.Raise Py.StopIteration, Finished).
Proof. destruct byteorder; reflexivity. Qed.

End Frames.

Section Codec.

Variable byteorder : Py.byteorder.

Lemma read_short (fh : Py.bytes) (n : Z) :
  (Py.len fh <= n)%Z -> OS.read fh n = (fh, []).
Proof.
  unfold OS.read, Py.len. intros Hn.
  rewrite take_ge, drop_ge by lia. reflexivity.
Qed.

(** A four-byte prefix that decodes to 0 stops either loop. *)
Lemma loops_stop_on_zero (hdr rest : Py.bytes) :
  length hdr = 4 -> Py.from_bytes hdr byteorder = 0%Z ->
  metas_loop byteorder (hdr ++ rest) = (Py.Raise Py.StopIteration, Finished)
  /\ vecs_loop byteorder (hdr ++ rest) = (Py.Raise Py.StopIteration, Finished).
Proof.
  intros Hl Hv. unfold metas_loop, vecs_loop.
  change (Z.of_nat BYTE_PADDING) with (Z.of_nat 4).
  rewrite <- Hl, read_app, Hv. auto.
Qed.

End Codec.

(** ** The text codec *)

Section Utf8.

Local Open Scope Z_scope.

Local Ltac decide_comparisons :=
  repeat match goal with
         | |- context [(?a <? ?b)%Z] => destruct (Z.ltb_spec a b)
         | |- context [(?a <=? ?b)%Z] => destruct (Z.leb_spec a b)
         | H : context [(?a <? ?b)%Z] |- _ => destruct (Z.ltb_spec a b)
         | H : context [(?a <=? ?b)%Z] |- _ => destruct (Z.leb_spec a b)
         end.

(** A code point has an encoding exactly when it is no surrogate. *)
Lemma utf8_encode_char_scalar (c : Z) :
  Py.scalar c <-> exists a, Py.utf8_encode_char c = Py.Ok a.
Proof.
  unfold Py.scalar, Py.utf8_encode_char. split.
  - intros H. decide_comparisons; cbn [orb andb]; try lia; eauto.
  - intros [a H]. decide_comparisons; cbn [orb andb] in H;
      try discriminate; lia.
Qed.

Lemma utf8_encode_scalar (s : Py.text) :
  Forall Py.scalar s <-> exists b, Py.utf8_encode s = Py.Ok b.
Proof.
  induction s as [|c s IH]; cbn [Py.utf8_encode].
  - split; [eauto | constructor].
  - split.
    + intros [Hc Hs]%Forall_cons.
      apply utf8_encode_char_scalar in Hc as [a ->].
      apply IH in Hs as [b ->]. eauto.
    + intros [b H].
      destruct (Py.utf8_encode_char c) as [a|] eqn:Ec; [|discriminate].
      destruct (Py.utf8_encode s) as [b'|] eqn:Es; [|discriminate].
      constructor; [apply utf8_encode_char_scalar | apply IH]; eauto.
Qed.

Lemma utf8_encode_app (s t : Py.text) :
  Py.utf8_encode (s ++ t)
  = match Py.utf8_encode s with
    | Py.Ok a =>
        match Py.utf8_encode t with
        | Py.Ok b => Py.Ok (a ++ b)
        | Py.Raise e => Py.Raise e
        end
    | Py.Raise e => Py.Raise e
    end.
Proof.
  induction s as [|c s IH]; cbn [app Py.utf8_encode].
  - now destruct (Py.utf8_encode t).
  - destruct (Py.utf8_encode_char c) as [a|]; [|reflexivity]. rewrite IH.
    destruct (Py.utf8_encode s) as [a'|]; [|reflexivity].
    destruct (Py.utf8_encode t) as [b|]; [|reflexivity].
    now rewrite app_assoc.
Qed.

(** What is encoded decodes to what it was. *)
Lemma utf8_decode_encode_char (c : Z) (a rest : Py.bytes) :
  Py.utf8_encode_char c = Py.Ok a ->
  Py.utf8_decode (a ++ rest) = Py.decoded c (Py.utf8_decode rest).
Proof.
  unfold Py.utf8_encode_char. intros H.
  pose proof (Z.mod_pos_bound c 64 ltac:(lia)).
  pose proof (Z.mod_pos_bound (c / 64) 64 ltac:(lia)).
  pose proof (Z.mod_pos_bound (c / 4096) 64 ltac:(lia)).
  pose proof (Z.div_mod c 64 ltac:(lia)).
  pose proof (Z.div_mod (c / 64) 64 ltac:(lia)).
  pose proof (Z.div_mod (c / 4096) 64 ltac:(lia)).
  assert (c / 64 / 64 = c / 4096) as E1
    by (rewrite Z.div_div by lia; reflexivity).
  assert (c / 4096 / 64 = c / 262144) as E2
    by (rewrite Z.div_div by lia; reflexivity).
  rewrite E1 in *. rewrite E2 in *.
  destruct (Z.ltb_spec c 0); [discriminate|].
  destruct (Z.ltb_spec c 0x80).
  { injection H as <-. cbn [app Py.utf8_decode].
    rewrite Z_of_byte_of_Z, Z.mod_small by lia.
    destruct (Z.ltb_spec c 0x80); [reflexivity | lia]. }
  destruct (Z.ltb_spec c 0x800).
  { injection H as <-. cbn [app Py.utf8_decode]. cbn zeta.
    rewrite !Z_of_byte_of_Z.
    rewrite (Z.mod_small (0xC0 + c / 64) 256) by lia.
    rewrite (Z.mod_small (0x80 + c mod 64) 256) by lia.
    unfold Py.continuation.
    decide_comparisons; cbn [andb]; try lia. all: f_equal; lia. }
  destruct ((c <? 0xD800) || (0xE000 <=? c) && (c <? 0x10000)) eqn:E3.
  { injection H as <-. cbn [app Py.utf8_decode]. cbn zeta.
    assert (c < 0xD800 \/ 0xE000 <= c < 0x10000) as Hc
      by (decide_comparisons; cbn in E3; try discriminate; lia).
    clear E3.
    rewrite !Z_of_byte_of_Z.
    rewrite (Z.mod_small (0xE0 + c / 4096) 256) by lia.
    rewrite (Z.mod_small (0x80 + c / 64 mod 64) 256) by lia.
    rewrite (Z.mod_small (0x80 + c mod 64) 256) by lia.
    unfold Py.continuation.
    decide_comparisons; cbn [andb negb]; try lia. all: f_equal; lia. }
  destruct ((0x10000 <=? c) && (c <? 0x110000)) eqn:E4; [|discriminate].
  injection H as <-. cbn [app Py.utf8_decode]. cbn zeta.
  assert (0x10000 <= c < 0x110000) as Hc
    by (decide_comparisons; cbn in E4; try discriminate; lia).
  clear E3 E4.
  rewrite !Z_of_byte_of_Z.
  rewrite (Z.mod_small (0xF0 + c / 262144) 256) by lia.
  rewrite (Z.mod_small (0x80 + c / 4096 mod 64) 256) by lia.
  rewrite (Z.mod_small (0x80 + c / 64 mod 64) 256) by lia.
  rewrite (Z.mod_small (0x80 + c mod 64) 256) by lia.
  unfold Py.continuation.
  decide_comparisons; cbn [andb negb]; try lia. all: f_equal; lia.
Qed.

Lemma utf8_decode_encode (s : Py.text) (b rest : Py.bytes) :
  Py.utf8_encode s = Py.Ok b ->
  Py.utf8_decode (b ++ rest)
  = match Py.utf8_decode rest with
    | Py.Ok t => Py.Ok (s ++ t)
    | Py.Raise e => Py.Raise e
    end.
Proof.
  revert b. induction s as [|c s IH]; intros b H; cbn [Py.utf8_encode] in H.
  - injection H as <-. cbn [app]. now destruct (Py.utf8_decode rest).
  - destruct (Py.utf8_encode_char c) as [a|] eqn:Ec; [|discriminate].
    destruct (Py.utf8_encode s) as [b'|] eqn:Es; [|discriminate].
    injection H as <-. rewrite <- app_assoc.
    rewrite (utf8_decode_encode_char c a _ Ec), (IH b' eq_refl).
    now destruct (Py.utf8_decode rest).
Qed.

End Utf8.

(** The bytes of a text that has an encoding. *)
Lemma encoded_spec (s : Py.text) :
  Forall Py.scalar s -> Py.utf8_encode s = Py.Ok (encoded s).
Proof.
  intros [b H]%utf8_encode_scalar. unfold encoded. now rewrite H.
Qed.

Lemma LF_scalar : Py.scalar Py.LF.
Proof. left. unfold Py.LF. lia. Qed.

Lemma id_line_scalar (e : entry) :
  Forall Py.scalar (entry_id e) -> Forall Py.scalar (id_line e).
Proof.
  destruct e as [[id_ vec] meta]. cbn. intros H.
  apply Forall_app. split; [exact H|]. constructor; [apply LF_scalar | constructor].
Qed.

(** ** One turn of the export loop *)

Section Turn.

Variable byteorder : Py.byteorder.

(** One turn on an entry that can be written: the two frames and the line
    go to the buffers of the handles, nothing goes to the file system. *)
Lemma write_entry_fits (fs : OS.FS) (e : entry) (data : list entry)
    (fhs : handlers) :
  writable e ->
  write_entry byteorder fhs (fs, e :: data)
  = (Py.Ok (fed byteorder fhs e), (fs, data)).
Proof.
  destruct e as [[id_ vec] meta]. destruct fhs as [[hv hm] hi].
  intros [[Hv Hm] Hid].
  unfold entry_vec, entry_meta, entry_id in *. cbn [fst snd] in *.
  destruct (size_prefix_spec byteorder (Py.len (Py.tobytes vec))) as (Ev & _);
    [pose proof (len_range (Py.tobytes vec)); lia|].
  destruct (size_prefix_spec byteorder (Py.len meta)) as (Em & _);
    [pose proof (len_range meta); lia|].
  pose proof (encoded_spec (id_line (id_, vec, meta))
                (id_line_scalar (id_, vec, meta) Hid)) as Ei.
  cbn [id_line] in Ei.
  unfold write_entry, next_data, lift, OS.write_text. unfold_run.
  cbn [fst snd]. rewrite Ev. cbn [fst snd]. rewrite Em. cbn [fst snd].
  rewrite Ei. reflexivity.
Qed.

(** One turn on an entry whose metadata is too long for the prefix: the
    conversion of the length raises, and nothing has reached the file
    system. *)
Lemma write_entry_meta_overflow (fs : OS.FS) (id_ : Py.text)
    (vec : Py.ndarray) (meta : Py.bytes) (data : list entry)
    (fhs : handlers) :
  (Py.len (Py.tobytes vec) < 2 ^ 32)%Z -> (2 ^ 32 <= Py.len meta)%Z ->
  write_entry byteorder fhs (fs, (id_, vec, meta) :: data)
  = (Py.Raise Py.OverflowError, (fs, data)).
Proof.
  intros Hv Hm. destruct fhs as [[hv hm] hi].
  destruct (size_prefix_spec byteorder (Py.len (Py.tobytes vec))) as (Ev & _);
    [pose proof (len_range (Py.tobytes vec)); lia|].
  unfold write_entry, next_data, lift. unfold_run. cbn [fst snd].
  rewrite Ev. cbn [fst snd].
  rewrite to_bytes_overflow by exact Hm. reflexivity.
Qed.

(** One turn on an entry whose lengths fit, whatever its id. *)
Lemma write_entry_frames (fs : OS.FS) (id_ : Py.text) (vec : Py.ndarray)
    (meta : Py.bytes) (data : list entry)
    (vectors_fh metas_fh ids_fh : OS.writer) :
  fits (id_, vec, meta) ->
  write_entry byteorder (vectors_fh, metas_fh, ids_fh)
    (fs, (id_, vec, meta) :: data)
  = match OS.write_text ids_fh (id_ ++ [Py.LF]) with
    | Py.Ok ids_fh' =>
        (Py.Ok (OS.write vectors_fh (vec_frame byteorder (id_, vec, meta)),
                OS.write metas_fh (meta_frame byteorder (id_, vec, meta)),
                ids_fh'),
         (fs, data))
    | Py.Raise e => (Py.Raise e, (fs, data))
    end.
Proof.
  intros [Hv Hm]. unfold entry_vec, entry_meta in *. cbn [fst snd] in *.
  destruct (size_prefix_spec byteorder (Py.len (Py.tobytes vec))) as (Ev & _);
    [pose proof (len_range (Py.tobytes vec)); lia|].
  destruct (size_prefix_spec byteorder (Py.len meta)) as (Em & _);
    [pose proof (len_range meta); lia|].
  unfold write_entry, next_data, lift. unfold_run.
  cbn [fst snd]. rewrite Ev. cbn [fst snd]. rewrite Em. cbn [fst snd].
  now destruct (OS.write_text ids_fh (id_ ++ [Py.LF])).
Qed.

End Turn.

(** ** The binary record codec (C6) *)

(** C6, as stated, fails: a metadata payload of [2^32] bytes has a length
    L > 0, and the export writes no length prefix for it; the conversion of
    its length to four bytes raises [OverflowError] and the metas file stays
    as it was. *)
Lemma C6_counterexample_payload_of_2p32_bytes :
  let vec := [Py.F64 x00 x00 x00 x00 x00 x00 xf0 x3f] in
  let meta := repeat x00 (Z.to_nat (2 ^ 32)) in
  let fs : OS.FS :=
    <["v" := OS.File []]> (<["m" := OS.File []]> (<["i" := OS.File []]> ∅)) in
  let fhs : handlers :=
    (OS.Writer "v" [], OS.Writer "m" [], OS.Writer "i" []) in
  (0 < Py.len meta)%Z
  /\ fst (write_entry Py.little fhs (fs, [(Py.u "a", vec, meta)]))
     = Py.Raise Py.OverflowError
  /\ fst (snd (write_entry Py.little fhs (fs, [(Py.u "a", vec, meta)])))
       !! "m" = Some (OS.File [])
  /\ fst (write_entry Py.big fhs (fs, [(Py.u "a", vec, meta)]))
     = Py.Raise Py.OverflowError.
Proof.
  intros vec meta fs fhs.
  assert (Py.len meta = 2 ^ 32)%Z as Hlen.
  { unfold Py.len, meta. rewrite repeat_length. apply Z2Nat.id. lia. }
  clearbody meta.
  rewrite !write_entry_meta_overflow by (rewrite ?Hlen; reflexivity || lia).
  cbn [fst snd]. split; [lia|]. split; [reflexivity|].
  split; [|reflexivity]. reflexivity.
Qed.

(** C6, amended: for every payload whose length L satisfies
    0 < L < 2^32, the export writes the four-byte unsigned integer L in the
    byte order of the host followed by the L payload bytes (the vector frame,
    the metadata frame, then the id line); a reader positioned on such a
    frame yields its L payload bytes and stays on what follows, the vector
    reader yielding them as an array of L/8 float64 elements and the metadata
    reader as raw bytes; both readers stop on the exhausted file and on a
    four-byte prefix that decodes to 0. *)
Theorem C6_record_codec (byteorder : Py.byteorder) (id_ : Py.text)
    (vec : Py.ndarray) (meta : Py.bytes) (fs : OS.FS) (data : list entry)
    (vectors_fh metas_fh ids_fh : OS.writer) (rest : Py.bytes) :
  vec <> [] -> meta <> [] -> fits (id_, vec, meta) ->
  exists vec_size meta_size,
    Py.to_bytes (Py.len (Py.tobytes vec)) BYTE_PADDING byteorder = Py.Ok vec_size
    /\ Py.to_bytes (Py.len meta) BYTE_PADDING byteorder = Py.Ok meta_size
    /\ length vec_size = 4 /\ length meta_size = 4
    /\ Py.from_bytes vec_size byteorder = Py.len (Py.tobytes vec)
    /\ Py.from_bytes meta_size byteorder = Py.len meta
    /\ write_entry byteorder (vectors_fh, metas_fh, ids_fh)
         (fs, (id_, vec, meta) :: data)
       = match OS.write_text ids_fh (id_ ++ [Py.LF]) with
         | Py.Ok ids_fh' =>
             (Py.Ok (OS.write vectors_fh (vec_size ++ Py.tobytes vec),
                     OS.write metas_fh (meta_size ++ meta),
                     ids_fh'),
              (fs, data))
         | Py.Raise e => (Py.Raise e, (fs, data))
         end
    /\ metas_loop byteorder (meta_size ++ meta ++ rest)
       = (Py.Ok meta, Suspended rest)
    /\ vecs_loop byteorder (vec_size ++ Py.tobytes vec ++ rest)
       = (Py.Ok vec, Suspended rest)
    /\ Py.len vec = (Py.len (Py.tobytes vec) / 8)%Z
    /\ metas_loop byteorder [] = (Py.Raise Py.StopIteration, Finished)
    /\ vecs_loop byteorder [] = (Py.Raise Py.StopIteration, Finished)
    /\ forall hdr : Py.bytes,
         length hdr = 4 -> Py.from_bytes hdr byteorder = 0%Z ->
         metas_loop byteorder (hdr ++ rest)
         = (Py.Raise Py.StopIteration, Finished)
         /\ vecs_loop byteorder (hdr ++ rest)
            = (Py.Raise Py.StopIteration, Finished).
Proof.
  intros Hvec Hmeta Hfit. pose proof Hfit as [Hv Hm].
  unfold entry_vec, entry_meta in Hv, Hm. cbn [fst snd] in Hv, Hm.
  destruct (size_prefix_spec byteorder (Py.len (Py.tobytes vec)))
    as (Ev & Lv & Fv); [pose proof (len_range (Py.tobytes vec)); lia|].
  destruct (size_prefix_spec byteorder (Py.len meta)) as (Em & Lm & Fm);
    [pose proof (len_range meta); lia|].
  exists (size_prefix byteorder (Py.len (Py.tobytes vec))),
    (size_prefix byteorder (Py.len meta)).
  repeat split; try assumption.
  - now rewrite write_entry_frames.
  - now apply metas_loop_frame.
  - now apply vecs_loop_frame.
  - unfold Py.len. rewrite length_tobytes, Nat2Z.inj_mul.
    change (Z.of_nat 8) with 8%Z. now rewrite Z.mul_comm, Z.div_mul.
  - apply metas_loop_nil.
  - apply vecs_loop_nil.
  - now apply loops_stop_on_zero.
  - now apply loops_stop_on_zero.
Qed.

(** The codec on a host with little-endian integers: a vector of a single
    element and a metadata payload of two bytes. *)
Lemma C6_record_codec_witness :
  let vec := [Py.F64 x00 x00 x00 x00 x00 x00 xf0 x3f] in
  let meta := [x61; x62] in
  vec <> [] /\ meta <> [] /\ fits (Py.u "a", vec, meta)
  /\ exists vec_size meta_size,
       Py.to_bytes 8 BYTE_PADDING Py.little = Py.Ok vec_size
       /\ Py.to_bytes 2 BYTE_PADDING Py.little = Py.Ok meta_size
       /\ metas_loop Py.little (meta_size ++ meta ++ [x07])
          = (Py.Ok meta, Suspended [x07])
       /\ vecs_loop Py.little (vec_size ++ Py.tobytes vec ++ [x07])
          = (Py.Ok vec, Suspended [x07]).
Proof.
  intros vec meta.
  assert (vec <> []) as Hvec by discriminate.
  assert (meta <> []) as Hmeta by discriminate.
  assert (fits (Py.u "a", vec, meta)) as Hfit by (split; reflexivity).
  repeat (split; [assumption|]).
  destruct (C6_record_codec Py.little (Py.u "a") vec meta ∅ []
              (OS.Writer "v" []) (OS.Writer "m" []) (OS.Writer "i" []) [x07]
              Hvec Hmeta Hfit)
    as (vec_size & meta_size & Ev & Em & _ & _ & _ & _ & _ & Hm & Hv & _).
  exists vec_size, meta_size. auto.
Defined.

(** ** Truncated frames (C3) *)

(** The generator of a file that is there starts on its content. *)
Lemma metas_gen_unstarted (byteorder : Py.byteorder) (fs : OS.FS)
    (path : string) (c : Py.bytes) :
  fs !! OS.join path "metas" = Some (OS.File c) ->
  _metas_gen byteorder fs (Unstarted path)
  = _metas_gen byteorder fs (Suspended c).
Proof. intros H. unfold _metas_gen, OS.open_rb. now rewrite H. Qed.

Lemma vecs_gen_unstarted (byteorder : Py.byteorder) (fs : OS.FS)
    (path : string) (c : Py.bytes) :
  fs !! OS.join path "vectors" = Some (OS.File c) ->
  _vecs_gen byteorder fs (Unstarted path)
  = _vecs_gen byteorder fs (Suspended c).
Proof. intros H. unfold _vecs_gen, OS.open_rb. now rewrite H. Qed.

(** C3, as stated, fails: a metas frame whose prefix claims 5 bytes with 2
    bytes left is yielded as a 2-byte payload, and a vectors frame whose
    prefix claims 16 bytes with 8 bytes left is yielded as an array of one
    element; neither pull raises. *)
Lemma C3_counterexample_short_payload_yielded :
  let fs : OS.FS :=
    <["dump/0/vectors" :=
        OS.File [x10; x00; x00; x00; x00; x00; x00; x00; x00; x00; xf0; x3f]]>
      (<["dump/0/metas" := OS.File [x05; x00; x00; x00; x61; x62]]> ∅) in
  fst (_metas_gen Py.little fs (snd (import_metas "dump" "0")))
  = Py.Ok [x61; x62]
  /\ fst (_vecs_gen Py.little fs (snd (import_vectors "dump" "0")))
     = Py.Ok [Py.F64 x00 x00 x00 x00 x00 x00 xf0 x3f].
Proof. split; vm_compute; reflexivity. Qed.

(** C3, amended: when a frame's four-byte prefix claims L > 0 payload bytes
    and fewer than L bytes remain in the file, the pull of the metadata
    sequence at that frame never fails: it yields the bytes that remain.
    The pull of the vector sequence fails, with the [ValueError] of the
    float64 conversion, exactly when the number of bytes that remain is not a
    multiple of 8; when it is a multiple of 8 the pull yields the shorter
    array made of those bytes. *)
Theorem C3_truncated_frame (byteorder : Py.byteorder) (fs : OS.FS)
    (path : string) (hdr remain : Py.bytes) (L : Z) :
  length hdr = 4 -> Py.from_bytes hdr byteorder = L ->
  (0 < L)%Z -> (Py.len remain < L)%Z ->
  (forall g,
      g = Suspended (hdr ++ remain)
      \/ (g = Unstarted path
          /\ fs !! OS.join path "metas" = Some (OS.File (hdr ++ remain))) ->
      _metas_gen byteorder fs g = (Py.Ok remain, Suspended []))
  /\ (forall g,
      g = Suspended (hdr ++ remain)
      \/ (g = Unstarted path
          /\ fs !! OS.join path "vectors" = Some (OS.File (hdr ++ remain))) ->
      (length remain mod 8 = 0 ->
       exists vec, _vecs_gen byteorder fs g = (Py.Ok vec, Suspended [])
                   /\ Py.tobytes vec = remain)
      /\ (length remain mod 8 <> 0 ->
          _vecs_gen byteorder fs g = (Py.Raise Py.ValueError, Finished))).
Proof.
  intros Hl Hv HL Hshort.
  assert (metas_loop byteorder (hdr ++ remain) = (Py.Ok remain, Suspended []))
    as Hmetas.
  { unfold metas_loop. change (Z.of_nat BYTE_PADDING) with (Z.of_nat 4).
    rewrite <- Hl, read_app, Hv.
    destruct (L =? 0)%Z eqn:E; [lia|]. now rewrite read_short by lia. }
  assert (vecs_loop byteorder (hdr ++ remain)
          = match Py.frombuffer remain with
            | Py.Ok vec => (Py.Ok vec, Suspended [])
            | Py.Raise e => (Py.Raise e, Finished)
            end) as Hvecs.
  { unfold vecs_loop. change (Z.of_nat BYTE_PADDING) with (Z.of_nat 4).
    rewrite <- Hl, read_app, Hv.
    destruct (L =? 0)%Z eqn:E; [lia|]. now rewrite read_short by lia. }
  split.
  - intros g [-> | [-> Hfile]].
    + exact Hmetas.
    + rewrite (metas_gen_unstarted _ _ _ _ Hfile). exact Hmetas.
  - intros g Hg.
    assert (_vecs_gen byteorder fs g = vecs_loop byteorder (hdr ++ remain))
      as ->.
    { destruct Hg as [-> | [-> Hfile]]; [reflexivity|].
      now rewrite (vecs_gen_unstarted _ _ _ _ Hfile). }
    rewrite Hvecs.
    destruct (frombuffer_cases remain) as [(v & -> & Hb & Hm) | (-> & Hm)].
    + split; [intros _; now exists v | intros Hn; contradiction].
    + split; [intros Hz; contradiction | reflexivity].
Qed.

(** A metas frame that claims 5 bytes with 2 left, and a vectors frame that
    claims 16 bytes with 3 left, on a little-endian host. *)
Lemma C3_truncated_frame_witness :
  let fs : OS.FS :=
    <["dump/0/vectors" := OS.File [x10; x00; x00; x00; x61; x62; x63]]> ∅ in
  length [x10; x00; x00; x00] = 4
  /\ Py.from_bytes [x10; x00; x00; x00] Py.little = 16%Z
  /\ (0 < 16)%Z /\ (Py.len [x61; x62; x63] < 16)%Z
  /\ _metas_gen Py.little fs (Suspended [x10; x00; x00; x00; x61; x62; x63])
     = (Py.Ok [x61; x62; x63], Suspended [])
  /\ _vecs_gen Py.little fs (Unstarted "dump/0")
     = (Py.Raise Py.ValueError, Finished).
Proof.
  intros fs.
  assert (length [x10; x00; x00; x00] = 4) as Hl by reflexivity.
  assert (Py.from_bytes [x10; x00; x00; x00] Py.little = 16%Z) as Hv
    by reflexivity.
  assert (0 < 16)%Z as HL by lia.
  assert (Py.len [x61; x62; x63] < 16)%Z as Hs by (vm_compute; reflexivity).
  repeat (split; [assumption|]).
  destruct (C3_truncated_frame Py.little fs "dump/0" [x10; x00; x00; x00]
              [x61; x62; x63] 16 Hl Hv HL Hs) as [Hm Hvec].
  split.
  - apply Hm. now left.
  - apply (Hvec (Unstarted "dump/0")).
    + right. split; [reflexivity | vm_compute; reflexivity].
    + vm_compute. discriminate.
Defined.

(** ** Stripping *)

Lemma append_cons (c : ascii) (s t : string) :
  String c s +:+ t = String c (s +:+ t).
Proof. reflexivity. Qed.

Lemma append_nil_l (t : string) : "" +:+ t = t.
Proof. reflexivity. Qed.

Lemma lstrip_spec (s : Py.text) :
  exists pre, s = pre ++ Py.lstrip s /\ Py.all_space pre = true
              /\ Py.space_first (Py.lstrip s) = false.
Proof.
  induction s as [|c s (pre & Hs & Hpre & Hf)].
  - exists []. auto.
  - cbn [Py.lstrip]. destruct (Py.isspace c) eqn:E.
    + exists (c :: pre). unfold Py.all_space in *. cbn [forallb app].
      rewrite E, Hpre, <- Hs. auto.
    + exists []. cbn [Py.space_first app]. rewrite E. auto.
Qed.

Lemma rstrip_spec (s : Py.text) :
  exists post, s = Py.rstrip s ++ post /\ Py.all_space post = true
               /\ Py.space_last (Py.rstrip s) = false
               /\ (Py.space_first s = false ->
                   Py.space_first (Py.rstrip s) = false).
Proof.
  induction s as [|c s (post & Hs & Hpost & Hl & Hf)].
  - exists []. auto.
  - cbn [Py.rstrip]. destruct (Py.rstrip s) as [|d r] eqn:Er.
    + cbn [app] in Hs. subst post.
      destruct (Py.isspace c) eqn:E.
      * exists (c :: s). unfold Py.all_space in *. cbn [forallb app].
        rewrite E, Hpost. auto.
      * exists s. cbn [Py.space_last Py.space_first app].
        rewrite E. auto.
    + exists post. cbn [app] in Hs |- *. rewrite <- Hs.
      repeat split; auto.
Qed.

(** What [strip] returns: the text without the whitespace around it. *)
Lemma strip_spec (s : Py.text) :
  exists pre post,
    s = pre ++ Py.strip s ++ post
    /\ Py.all_space pre = true /\ Py.all_space post = true
    /\ Py.space_first (Py.strip s) = false
    /\ Py.space_last (Py.strip s) = false.
Proof.
  destruct (lstrip_spec s) as (pre & Hs & Hpre & Hf).
  destruct (rstrip_spec (Py.lstrip s)) as (post & Ht & Hpost & Hl & Hk).
  exists pre, post. unfold Py.strip. rewrite <- Ht, <- Hs.
  repeat split; auto.
Qed.

(** ** The ids sequence (C7) *)

(** The generator of an ids file that is there and decodes starts on its
    text. *)
Lemma ids_gen_unstarted (fs : OS.FS) (path : string) (c : Py.bytes)
    (t : Py.text) :
  fs !! OS.join path "ids" = Some (OS.File c) ->
  Py.utf8_decode c = Py.Ok t ->
  _ids_gen fs (Unstarted path)
  = _ids_gen fs (Suspended (OS.universal_newlines t)).
Proof.
  intros H Ht. unfold _ids_gen, OS.open_r, OS.open_rb. now rewrite H, Ht.
Qed.

(** C7, as stated, fails: the line " a" followed by a newline is yielded as
    "a"; the space that begins the stored text is not kept. *)
Lemma C7_counterexample_leading_space_lost :
  let fs : OS.FS := <["dump/0/ids" := OS.File [x20; x61; x0a]]> ∅ in
  fst (_ids_gen fs (fst (import_vectors "dump" "0"))) = Py.Ok (Py.u "a")
  /\ fst (_ids_gen fs (fst (import_metas "dump" "0"))) = Py.Ok (Py.u "a")
  /\ Py.u "a" <> Py.u " a".
Proof. repeat split; vm_compute; (reflexivity || discriminate). Qed.

(** C7, amended: for every line of a shard's ids file whose bytes are
    well-formed UTF-8, the id sequence returned by [import_vectors] /
    [import_metas] yields that line with all the whitespace that begins it
    and all the whitespace that ends it removed, the newline included: the
    line is the yielded id between two runs of whitespace, and the yielded
    id neither begins nor ends with whitespace.  The sequence stops at the
    end of the file. *)
Theorem C7_ids_are_stripped_lines (fs : OS.FS) (path pea_id : string)
    (g : generator Py.text) (text : Py.text) :
  g = Suspended text
  \/ ((g = fst (import_vectors path pea_id)
       \/ g = fst (import_metas path pea_id))
      /\ exists c t,
           fs !! OS.join (OS.join path pea_id) "ids" = Some (OS.File c)
           /\ Py.utf8_decode c = Py.Ok t
           /\ text = OS.universal_newlines t) ->
  (text = [] -> _ids_gen fs g = (Py.Raise Py.StopIteration, Finished))
  /\ (text <> [] ->
      exists id_ pre post,
        _ids_gen fs g = (Py.Ok id_, Suspended (snd (OS.readline text)))
        /\ fst (OS.readline text) = pre ++ id_ ++ post
        /\ Py.all_space pre = true /\ Py.all_space post = true
        /\ Py.space_first id_ = false /\ Py.space_last id_ = false).
Proof.
  intros Hg.
  assert (_ids_gen fs g = ids_loop text) as ->.
  { destruct Hg as [-> | ([-> | ->] & c & t & Hc & Ht & ->)]; [reflexivity| |];
      cbn [import_vectors import_metas fst];
      now rewrite (ids_gen_unstarted fs _ c t Hc Ht). }
  split.
  - intros ->. reflexivity.
  - intros Hne. destruct text as [|c text]; [congruence|].
    unfold ids_loop. destruct (OS.readline (c :: text)) as [l rest].
    cbn [fst snd].
    destruct (strip_spec l) as (pre & post & Hl & Hpre & Hpost & Hf & Hk).
    exists (Py.strip l), pre, post. repeat split; auto.
Qed.

(** The ids file that holds the two lines " é" and "b". *)
Lemma C7_ids_are_stripped_lines_witness :
  let fs : OS.FS :=
    <["dump/0/ids" := OS.File [x20; xc3; xa9; x0a; x62; x0a]]> ∅ in
  exists id_ pre post,
    _ids_gen fs (fst (import_vectors "dump" "0"))
    = (Py.Ok id_, Suspended [98; 10]%Z)
    /\ [32; 233; 10]%Z = pre ++ id_ ++ post
    /\ Py.all_space pre = true /\ Py.all_space post = true.
Proof.
  intros fs.
  destruct (C7_ids_are_stripped_lines fs "dump" "0"
              (fst (import_vectors "dump" "0")) [32; 233; 10; 98; 10]%Z)
    as [_ H].
  - right. split; [now left|].
    exists [x20; xc3; xa9; x0a; x62; x0a], [32; 233; 10; 98; 10]%Z.
    repeat split; vm_compute; reflexivity.
  - destruct H as (id_ & pre & post & Hy & Hl & Hpre & Hpost & _);
      [discriminate|].
    exists id_, pre, post. auto.
Defined.

(** ** The conflict guard (C4) *)

(** C4: when something exists at [path], be it a file, a directory with
    entries or an empty directory, the export raises, and it returns the
    file system and the data iterator as it received them: nothing is
    created, nothing is written, no entry is pulled. *)
Theorem C4_conflict_guard (byteorder : Py.byteorder) (fs : OS.FS)
    (path : string) (shards size : Z) (data : list entry) :
  is_Some (fs !! path) ->
  export_dump_streaming byteorder path shards size (fs, data)
  = (Py.Raise (Py.Exception
       ("path for dump " +:+ path +:+ " already exists. Not dumping...")),
     (fs, data)).
Proof.
  intros Hex. unfold export_dump_streaming, path_exists, OS.exists_. unfold_run. cbn [fst snd].
  now rewrite bool_decide_eq_true_2.
Qed.

(** An export onto an empty directory. *)
Lemma C4_conflict_guard_witness :
  let fs : OS.FS := <["dump" := OS.Dir]> ∅ in
  let data : list entry := [(Py.u "a", [Py.F64 x00 x00 x00 x00 x00 x00 xf0 x3f], [x61])] in
  is_Some (fs !! "dump")
  /\ export_dump_streaming Py.little "dump" 1 1 (fs, data)
     = (Py.Raise (Py.Exception
          "path for dump dump already exists. Not dumping..."), (fs, data)).
Proof.
  intros fs data.
  assert (is_Some (fs !! "dump")) as Hex by (exists OS.Dir; reflexivity).
  split; [exact Hex|].
  exact (C4_conflict_guard Py.little fs "dump" 1 1 data Hex).
Defined.

(** ** Deferred not-found errors (C10) *)

Lemma ids_loop_found (fh : Py.text) :
  (forall e, fst (ids_loop fh) = Py.Raise e -> e = Py.StopIteration)
  /\ forall p, snd (ids_loop fh) <> Unstarted p.
Proof.
  unfold ids_loop. destruct fh as [|c fh]; [split; cbn; congruence|].
  destruct (OS.readline (c :: fh)). split; cbn; congruence.
Qed.

Lemma metas_loop_found (byteorder : Py.byteorder) (fh : Py.bytes) :
  (forall e, fst (metas_loop byteorder fh) = Py.Raise e ->
             e = Py.StopIteration)
  /\ forall p, snd (metas_loop byteorder fh) <> Unstarted p.
Proof.
  unfold metas_loop. destruct (OS.read fh (Z.of_nat BYTE_PADDING)) as [a b].
  destruct (Py.from_bytes a byteorder =? 0)%Z; [split; cbn; congruence|].
  destruct (OS.read b (Py.from_bytes a byteorder)). split; cbn; congruence.
Qed.

Lemma vecs_loop_found (byteorder : Py.byteorder) (fh : Py.bytes) :
  (forall e, fst (vecs_loop byteorder fh) = Py.Raise e ->
             e = Py.StopIteration \/ e = Py.ValueError)
  /\ forall p, snd (vecs_loop byteorder fh) <> Unstarted p.
Proof.
  unfold vecs_loop. destruct (OS.read fh (Z.of_nat BYTE_PADDING)) as [a b].
  destruct (Py.from_bytes a byteorder =? 0)%Z;
    [split; cbn; [intros e [= <-]; now left | congruence]|].
  destruct (OS.read b (Py.from_bytes a byteorder)) as [buf fh2].
  destruct (frombuffer_cases buf) as [(v & -> & _) | (-> & _)];
    split; cbn; try congruence. intros e [= <-]. now right.
Qed.

(** No regular file among the locations [l]. *)
Lemma no_file_among (fs : OS.FS) (l : list string) :
  existsb (OS.is_file fs) l = false
  <-> forall q, q ∈ l -> OS.is_file fs q = false.
Proof.
  induction l as [|p l IH]; cbn [existsb].
  - split; [intros _ q Hq; now apply elem_of_nil in Hq | reflexivity].
  - rewrite orb_false_iff, IH. split.
    + intros [Hp Hl] q [-> | Hq]%elem_of_cons; auto.
    + intros H. split; [apply H; now left | intros q Hq; apply H; now right].
Qed.

Lemma a_file_among (fs : OS.FS) (l : list string) :
  existsb (OS.is_file fs) l = true
  <-> exists q, q ∈ l /\ OS.is_file fs q = true.
Proof.
  induction l as [|p l IH]; cbn [existsb].
  - split; [discriminate | intros (q & Hq & _); now apply elem_of_nil in Hq].
  - rewrite orb_true_iff, IH. split.
    + intros [Hp | (q & Hq & Hf)]; [exists p | exists q]; split; auto;
        [now left | now right].
    + intros (q & [-> | Hq]%elem_of_cons & Hf); [now left|].
      right. now exists q.
Qed.

(** What [open(p, 'rb')] returns depends on the store through [p] and the
    directories above it. *)
Lemma open_rb_ext (fs fs' : OS.FS) (p : string) :
  fs' !! p = fs !! p ->
  (forall q, q ∈ OS.parents p -> fs' !! q = fs !! q) ->
  OS.open_rb fs' p = OS.open_rb fs p.
Proof.
  intros Hp Hq. unfold OS.open_rb, OS.above. rewrite Hp.
  assert (forall l, (forall q, q ∈ l -> fs' !! q = fs !! q) ->
                    existsb (OS.is_file fs') l = existsb (OS.is_file fs) l
                    /\ forallb (OS.is_dir fs') l = forallb (OS.is_dir fs) l)
    as Hl.
  { induction l as [|x l IH]; intros H; [auto|].
    cbn [existsb forallb]. unfold OS.is_file at 1 3, OS.is_dir at 1 3.
    rewrite (H x) by now left.
    destruct IH as [-> ->]; [intros q Hin; apply H; now right | auto]. }
  now destruct (Hl _ Hq) as [-> ->].
Qed.

(** [open(p, 'rb')] raises [FileNotFoundError] exactly when nothing is at
    [p] and no regular file stands above it, and [NotADirectoryError]
    exactly when nothing is at [p] and a regular file stands above it. *)
Lemma open_rb_not_found (fs : OS.FS) (p : string) :
  OS.open_rb fs p = Py.Raise Py.FileNotFoundError <-> not_found fs p.
Proof.
  unfold OS.open_rb, OS.above, not_found. rewrite <- no_file_among.
  destruct (fs !! p) as [[|c]|].
  - split; [discriminate | now intros [? _]].
  - split; [discriminate | now intros [? _]].
  - destruct (existsb (OS.is_file fs) (OS.parents p)).
    + split; [discriminate | now intros [_ ?]].
    + destruct (forallb (OS.is_dir fs) (OS.parents p)); split; auto.
Qed.

Lemma open_rb_not_a_directory (fs : OS.FS) (p : string) :
  OS.open_rb fs p = Py.Raise Py.NotADirectoryError
  <-> fs !! p = None
      /\ exists q, q ∈ OS.parents p /\ OS.is_file fs q = true.
Proof.
  unfold OS.open_rb, OS.above. rewrite <- a_file_among.
  destruct (fs !! p) as [[|c]|].
  - split; [discriminate | now intros [? _]].
  - split; [discriminate | now intros [? _]].
  - destruct (existsb (OS.is_file fs) (OS.parents p)).
    + split; auto.
    + destruct (forallb (OS.is_dir fs) (OS.parents p));
        (split; [discriminate | now intros [_ ?]]).
Qed.

Lemma open_r_raises (fs : OS.FS) (p : string) (e : Py.exn) :
  e <> Py.UnicodeDecodeError ->
  OS.open_r fs p = Py.Raise e <-> OS.open_rb fs p = Py.Raise e.
Proof.
  intros He. unfold OS.open_r. destruct (OS.open_rb fs p) as [c|e'].
  - assert (forall t, Py.utf8_decode c = Py.Raise t ->
                      t = Py.UnicodeDecodeError) as Hd.
    { clear. intros t.
      remember (length c) as n eqn:Hn. revert c Hn.
      induction n as [n IH] using lt_wf_ind. intros c Hn.
      assert (forall x r, length r < n ->
                          Py.decoded x (Py.utf8_decode r) = Py.Raise t ->
                          t = Py.UnicodeDecodeError) as Hrec.
      { intros x r Hr H.
        destruct (Py.utf8_decode r) as [s|t'] eqn:E; [discriminate|].
        cbn in H. injection H as <-. exact (IH _ Hr r eq_refl E). }
      destruct c as [|b0 r0]; [discriminate|]. cbn [Py.utf8_decode]. cbn zeta.
      subst n. cbn [length] in Hrec.
      repeat match goal with
             | |- context [if ?b then _ else _] => destruct b
             | |- context [match ?l with [] => _ | _ :: _ => _ end] =>
                 destruct l; cbn [length] in Hrec
             end;
        try (intros [= <-]; reflexivity);
        apply Hrec; lia. }
    destruct (Py.utf8_decode c) as [t|t] eqn:E.
    + split; discriminate.
    + rewrite (Hd t eq_refl). split; [congruence | discriminate].
  - split; intros [= ->]; reflexivity.
Qed.

(** C10: [import_vectors] and [import_metas] take no file system: whatever
    is on disk, they return the same pair of generators, neither started.  A
    pull raises [FileNotFoundError] exactly when the generator is not started
    yet and its own file is not found: nothing is at the path of the file,
    and no regular file stands above it (when one does, that first pull
    raises [NotADirectoryError]).  A generator that was pulled once is never
    in the not-started state again, so the error can only come from the
    first pull.  What a pull returns depends on the file system only through
    the generator's own file and the directories above it, so with the shard
    directory as it is the two generators of a pair fail or succeed
    independently of each other. *)
Theorem C10_deferred_not_found (byteorder : Py.byteorder) (fs : OS.FS)
    (path pea_id : string) :
  let dir := OS.join path pea_id in
  import_vectors path pea_id = (Unstarted dir, Unstarted dir)
  /\ import_metas path pea_id = (Unstarted dir, Unstarted dir)
  /\ (forall g : generator Py.text,
        fst (_ids_gen fs g) = Py.Raise Py.FileNotFoundError
        <-> exists p, g = Unstarted p /\ not_found fs (OS.join p "ids"))
  /\ (forall g : generator Py.bytes,
        fst (_vecs_gen byteorder fs g) = Py.Raise Py.FileNotFoundError
        <-> exists p, g = Unstarted p /\ not_found fs (OS.join p "vectors"))
  /\ (forall g : generator Py.bytes,
        fst (_metas_gen byteorder fs g) = Py.Raise Py.FileNotFoundError
        <-> exists p, g = Unstarted p /\ not_found fs (OS.join p "metas"))
  /\ (forall (g : generator Py.text) (g' : generator Py.bytes) p,
        snd (_ids_gen fs g) <> Unstarted p
        /\ snd (_vecs_gen byteorder fs g') <> Unstarted p
        /\ snd (_metas_gen byteorder fs g') <> Unstarted p)
  /\ (forall p q,
        fs !! OS.join p "ids" = None ->
        q ∈ OS.parents (OS.join p "ids") -> OS.is_file fs q = true ->
        fst (_ids_gen fs (Unstarted p)) = Py.Raise Py.NotADirectoryError)
  /\ (forall p q,
        fs !! OS.join p "vectors" = None ->
        q ∈ OS.parents (OS.join p "vectors") -> OS.is_file fs q = true ->
        fst (_vecs_gen byteorder fs (Unstarted p))
        = Py.Raise Py.NotADirectoryError)
  /\ (forall p q,
        fs !! OS.join p "metas" = None ->
        q ∈ OS.parents (OS.join p "metas") -> OS.is_file fs q = true ->
        fst (_metas_gen byteorder fs (Unstarted p))
        = Py.Raise Py.NotADirectoryError)
  /\ (forall (fs' : OS.FS) (g : generator Py.text),
        (forall p, g = Unstarted p ->
                   fs' !! OS.join p "ids" = fs !! OS.join p "ids"
                   /\ forall q, q ∈ OS.parents (OS.join p "ids") ->
                                fs' !! q = fs !! q) ->
        _ids_gen fs' g = _ids_gen fs g)
  /\ (forall (fs' : OS.FS) (g : generator Py.bytes),
        (forall p, g = Unstarted p ->
                   fs' !! OS.join p "vectors" = fs !! OS.join p "vectors"
                   /\ forall q, q ∈ OS.parents (OS.join p "vectors") ->
                                fs' !! q = fs !! q) ->
        _vecs_gen byteorder fs' g = _vecs_gen byteorder fs g)
  /\ (forall (fs' : OS.FS) (g : generator Py.bytes),
        (forall p, g = Unstarted p ->
                   fs' !! OS.join p "metas" = fs !! OS.join p "metas"
                   /\ forall q, q ∈ OS.parents (OS.join p "metas") ->
                                fs' !! q = fs !! q) ->
        _metas_gen byteorder fs' g = _metas_gen byteorder fs g).
Proof.
  intros dir. split; [reflexivity|]. split; [reflexivity|].
  split; [|split; [|split; [|split; [|split; [|split; [|split;
    [|split; [|split]]]]]]]].
  - intros g. split.
    + destruct g as [p|fh|]; cbn [_ids_gen].
      * destruct (OS.open_r fs (OS.join p "ids")) as [t|e] eqn:E.
        -- intros H. now apply ids_loop_found in H.
        -- cbn [fst]. intros [= ->]. exists p. split; [reflexivity|].
           apply open_rb_not_found.
           now apply (open_r_raises fs _ Py.FileNotFoundError).
      * intros H. now apply ids_loop_found in H.
      * cbn. congruence.
    + intros (p & -> & H). apply open_rb_not_found in H.
      apply (open_r_raises fs _ Py.FileNotFoundError) in H; [|discriminate].
      cbn [_ids_gen]. now rewrite H.
  - intros g. split.
    + destruct g as [p|fh|]; cbn [_vecs_gen].
      * destruct (OS.open_rb fs (OS.join p "vectors")) as [t|e] eqn:E.
        -- intros H. apply vecs_loop_found in H as [H | H]; discriminate.
        -- cbn [fst]. intros [= ->]. exists p. split; [reflexivity|].
           now apply open_rb_not_found.
      * intros H. apply vecs_loop_found in H as [H | H]; discriminate.
      * cbn. congruence.
    + intros (p & -> & H). apply open_rb_not_found in H.
      cbn [_vecs_gen]. now rewrite H.
  - intros g. split.
    + destruct g as [p|fh|]; cbn [_metas_gen].
      * destruct (OS.open_rb fs (OS.join p "metas")) as [t|e] eqn:E.
        -- intros H. now apply metas_loop_found in H.
        -- cbn [fst]. intros [= ->]. exists p. split; [reflexivity|].
           now apply open_rb_not_found.
      * intros H. now apply metas_loop_found in H.
      * cbn. congruence.
    + intros (p & -> & H). apply open_rb_not_found in H.
      cbn [_metas_gen]. now rewrite H.
  - intros g g' p. repeat split.
    + destruct g as [q|fh|]; cbn [_ids_gen]; [| apply ids_loop_found | cbn; congruence].
      destruct (OS.open_r fs (OS.join q "ids")); [apply ids_loop_found | cbn; congruence].
    + destruct g' as [q|fh|]; cbn [_vecs_gen]; [| apply vecs_loop_found | cbn; congruence].
      destruct (OS.open_rb fs (OS.join q "vectors")); [apply vecs_loop_found | cbn; congruence].
    + destruct g' as [q|fh|]; cbn [_metas_gen]; [| apply metas_loop_found | cbn; congruence].
      destruct (OS.open_rb fs (OS.join q "metas")); [apply metas_loop_found | cbn; congruence].
  - intros p q Hp Hq Hf.
    assert (OS.open_rb fs (OS.join p "ids") = Py.Raise Py.NotADirectoryError)
      as H by (apply open_rb_not_a_directory; eauto).
    apply (open_r_raises fs _ Py.NotADirectoryError) in H; [|discriminate].
    cbn [_ids_gen]. now rewrite H.
  - intros p q Hp Hq Hf.
    assert (OS.open_rb fs (OS.join p "vectors")
            = Py.Raise Py.NotADirectoryError)
      as H by (apply open_rb_not_a_directory; eauto).
    cbn [_vecs_gen]. now rewrite H.
  - intros p q Hp Hq Hf.
    assert (OS.open_rb fs (OS.join p "metas")
            = Py.Raise Py.NotADirectoryError)
      as H by (apply open_rb_not_a_directory; eauto).
    cbn [_metas_gen]. now rewrite H.
  - intros fs' [p|fh|] H; cbn [_ids_gen]; try reflexivity.
    destruct (H p eq_refl) as [Hf Hq]. unfold OS.open_r.
    now rewrite (open_rb_ext fs fs' _ Hf Hq).
  - intros fs' [p|fh|] H; cbn [_vecs_gen]; try reflexivity.
    destruct (H p eq_refl) as [Hf Hq].
    now rewrite (open_rb_ext fs fs' _ Hf Hq).
  - intros fs' [p|fh|] H; cbn [_metas_gen]; try reflexivity.
    destruct (H p eq_refl) as [Hf Hq].
    now rewrite (open_rb_ext fs fs' _ Hf Hq).
Qed.

(** ** Path strings *)

Lemma append_assoc (a b c : string) : (a +:+ b) +:+ c = a +:+ (b +:+ c).
Proof.
  induction a as [|x a IH]; [reflexivity|].
  now rewrite !append_cons, IH.
Qed.

Lemma append_nil_r (a : string) : a +:+ "" = a.
Proof. induction a as [|x a IH]; [reflexivity|]. now rewrite append_cons, IH. Qed.

Lemma contains_append (c : ascii) (a b : string) :
  Py.contains c (a +:+ b) = Py.contains c a || Py.contains c b.
Proof.
  induction a as [|x a IH]; [reflexivity|].
  rewrite append_cons. cbn [Py.contains]. rewrite IH. now rewrite orb_assoc.
Qed.

Lemma endswith_contains (c : ascii) (s : string) :
  OS.endswith c s = true -> Py.contains c s = true.
Proof.
  induction s as [|x s IH]; [discriminate|].
  cbn [OS.endswith Py.contains]. destruct s as [|y s].
  - intros ->. reflexivity.
  - intros H. rewrite (IH H). apply orb_true_r.
Qed.

Lemma endswith_append (c : ascii) (a b : string) :
  b <> "" -> OS.endswith c (a +:+ b) = OS.endswith c b.
Proof.
  intros Hb. induction a as [|x a IH]; [reflexivity|].
  rewrite append_cons. cbn [OS.endswith].
  destruct (a +:+ b) as [|y r] eqn:E; [|exact IH].
  destruct a; [rewrite append_nil_l in E; congruence | discriminate].
Qed.

Lemma startswith_contains (c : ascii) (s : string) :
  Py.contains c s = false -> OS.startswith c s = false.
Proof.
  destruct s as [|x s]; [reflexivity|]. cbn [Py.contains OS.startswith].
  now intros [H _]%orb_false_elim.
Qed.

(** Two strings that agree up to the first separator of each agree before
    and after it. *)
Lemma append_sep_inj (c : ascii) (a a' b b' : string) :
  Py.contains c a = false -> Py.contains c a' = false ->
  a +:+ String c b = a' +:+ String c b' -> a = a' /\ b = b'.
Proof.
  revert a'. induction a as [|x a IH]; intros [|x' a'] Ha Ha' E.
  - rewrite !append_nil_l in E. now inversion E.
  - rewrite append_nil_l, append_cons in E. inversion E; subst.
    cbn [Py.contains] in Ha'. rewrite bool_decide_eq_true_2 in Ha'; [|reflexivity].
    discriminate.
  - rewrite append_nil_l, append_cons in E. inversion E; subst.
    cbn [Py.contains] in Ha. rewrite bool_decide_eq_true_2 in Ha; [|reflexivity].
    discriminate.
  - rewrite !append_cons in E. inversion E; subst.
    cbn [Py.contains] in Ha, Ha'.
    apply orb_false_elim in Ha as [_ Ha]. apply orb_false_elim in Ha' as [_ Ha'].
    destruct (IH a' Ha Ha' H1) as [-> ->]. auto.
Qed.

(** The decimal digits of an int hold no separator. *)
Lemma uint_no_sep (d : Decimal.uint) :
  Py.contains OS.sep (NilEmpty.string_of_uint d) = false.
Proof. induction d; cbn; auto. Qed.

Lemma str_no_sep (k : Z) : (0 <= k)%Z -> Py.contains OS.sep (Py.str k) = false.
Proof.
  intros Hk. unfold Py.str. destruct k as [|p|p]; [reflexivity| |lia].
  cbn [Z.to_int NilZero.string_of_int].
  destruct (Pos.to_uint p) eqn:E; try apply uint_no_sep. reflexivity.
Qed.

Lemma str_nonempty (k : Z) : Py.str k <> "".
Proof.
  unfold Py.str. destruct k as [|p|p]; cbn [Z.to_int NilZero.string_of_int];
    try discriminate.
  destruct (Pos.to_uint p) eqn:E; discriminate.
Qed.

Lemma str_inj (j k : Z) : Py.str j = Py.str k -> j = k.
Proof.
  unfold Py.str. intros E. apply DecimalZ.to_int_inj.
  assert (forall z, NilZero.int_of_string (NilZero.string_of_int (Z.to_int z))
                    = Some (Z.to_int z)) as Hr.
  { intros z. apply NilZero.isi.
    - destruct z as [|p|p]; cbn; try discriminate.
      intros H. injection H as H.
      now apply (DecimalPos.Unsigned.to_uint_nonnil p).
    - destruct z as [|p|p]; cbn; try discriminate.
      intros H. injection H as H.
      now apply (DecimalPos.Unsigned.to_uint_nonnil p). }
  pose proof (Hr j) as Hj. rewrite E, Hr in Hj. congruence.
Qed.

Lemma join_relative (a b : string) :
  OS.startswith OS.sep b = false -> OS.join a b = dir_prefix a +:+ b.
Proof.
  intros Hb. unfold OS.join, dir_prefix. rewrite Hb.
  destruct (bool_decide (a = "") || OS.endswith OS.sep a); [reflexivity|].
  now rewrite append_assoc, append_cons, append_nil_l.
Qed.

Lemma shard_path_form (path : string) (k : Z) :
  (0 <= k)%Z -> shard_path path k = dir_prefix path +:+ Py.str k.
Proof.
  intros Hk. unfold shard_path. apply join_relative.
  apply startswith_contains. now apply str_no_sep.
Qed.

Lemma dir_prefix_shard_path (path : string) (k : Z) :
  (0 <= k)%Z ->
  dir_prefix (shard_path path k)
  = dir_prefix path +:+ Py.str k +:+ String OS.sep "".
Proof.
  intros Hk. rewrite shard_path_form by exact Hk. unfold dir_prefix at 1.
  rewrite endswith_append by apply str_nonempty.
  destruct (OS.endswith OS.sep (Py.str k)) eqn:E.
  { apply endswith_contains in E. rewrite str_no_sep in E by exact Hk.
    discriminate. }
  rewrite orb_false_r, bool_decide_eq_false_2.
  - now rewrite append_assoc.
  - intros H. apply (f_equal String.length) in H.
    pose proof (str_nonempty k) as Hne.
    destruct (dir_prefix path); [now rewrite append_nil_l in H; destruct (Py.str k) | discriminate].
Qed.

(** A file of a shard, seen from the shard and from the root of the dump. *)
Lemma shard_file_form (path : string) (k : Z) (f : string) :
  (0 <= k)%Z -> OS.startswith OS.sep f = false ->
  OS.join (shard_path path k) f
  = dir_prefix path +:+ Py.str k +:+ String OS.sep f
  /\ OS.join (shard_path path k) f
     = OS.join path (Py.str k +:+ String OS.sep f).
Proof.
  intros Hk Hf.
  assert (OS.join (shard_path path k) f
          = dir_prefix path +:+ Py.str k +:+ String OS.sep f) as E.
  { rewrite join_relative by exact Hf.
    rewrite dir_prefix_shard_path by exact Hk.
    now rewrite !append_assoc, append_cons, append_nil_l. }
  split; [exact E|]. rewrite E. symmetry. apply join_relative.
  pose proof (str_nonempty k) as Hne. pose proof (str_no_sep k Hk) as Hs.
  destruct (Py.str k) as [|c r]; [congruence|].
  rewrite append_cons. cbn [Py.contains OS.startswith] in *.
  now apply orb_false_elim in Hs as [-> _].
Qed.

(** Every location of a shard is the prefix of the dump, the digits of the
    shard, and nothing or a separator and a file name. *)
Lemma shard_keys_form (path : string) (k : Z) (x : string) :
  (0 <= k)%Z -> x ∈ shard_keys path k ->
  exists suffix, x = dir_prefix path +:+ Py.str k +:+ suffix
                 /\ (suffix = "" \/ exists f, suffix = String OS.sep f).
Proof.
  intros Hk Hx. unfold shard_keys in Hx.
  rewrite !elem_of_cons, elem_of_nil in Hx.
  destruct Hx as [-> | [-> | [-> | [-> | []]]]].
  - exists "". rewrite append_nil_r. split; [now apply shard_path_form | now left].
  - eexists. split; [now apply shard_file_form | right; now eexists].
  - eexists. split; [now apply shard_file_form | right; now eexists].
  - eexists. split; [now apply shard_file_form | right; now eexists].
Qed.

Lemma shard_key_inj (pre : string) (j k : Z) (s1 s2 : string) :
  (0 <= j)%Z -> (0 <= k)%Z ->
  (s1 = "" \/ exists f, s1 = String OS.sep f) ->
  (s2 = "" \/ exists f, s2 = String OS.sep f) ->
  pre +:+ Py.str j +:+ s1 = pre +:+ Py.str k +:+ s2 -> j = k /\ s1 = s2.
Proof.
  intros Hj Hk H1 H2 E. apply String.app_inj in E.
  pose proof (str_no_sep j Hj) as Nj. pose proof (str_no_sep k Hk) as Nk.
  destruct H1 as [-> | [f1 ->]], H2 as [-> | [f2 ->]].
  - rewrite !append_nil_r in E. split; [now apply str_inj | reflexivity].
  - rewrite append_nil_r in E. rewrite E, contains_append in Nj.
    cbn [Py.contains] in Nj. rewrite bool_decide_eq_true_2 in Nj by reflexivity.
    rewrite orb_true_r in Nj. discriminate.
  - rewrite append_nil_r in E. rewrite <- E, contains_append in Nk.
    cbn [Py.contains] in Nk. rewrite bool_decide_eq_true_2 in Nk by reflexivity.
    rewrite orb_true_r in Nk. discriminate.
  - destruct (append_sep_inj _ _ _ _ _ Nj Nk E) as [E1 ->].
    split; [now apply str_inj | reflexivity].
Qed.

(** The locations of two different shards are different. *)
Lemma shard_keys_disjoint (path : string) (j k : Z) (x : string) :
  (0 <= j)%Z -> (0 <= k)%Z -> j <> k ->
  x ∈ shard_keys path j -> x ∈ shard_keys path k -> False.
Proof.
  intros Hj Hk Hne Hxj Hxk.
  destruct (shard_keys_form path j x Hj Hxj) as (s1 & E1 & H1).
  destruct (shard_keys_form path k x Hk Hxk) as (s2 & E2 & H2).
  rewrite E1 in E2.
  now destruct (shard_key_inj _ _ _ _ _ Hj Hk H1 H2 E2).
Qed.

(** The four locations of one shard are different. *)
Lemma shard_keys_distinct (path : string) (k : Z) :
  (0 <= k)%Z ->
  shard_path path k <> vectors_file path k
  /\ shard_path path k <> metas_file path k
  /\ shard_path path k <> ids_file path k
  /\ vectors_file path k <> metas_file path k
  /\ vectors_file path k <> ids_file path k
  /\ metas_file path k <> ids_file path k.
Proof.
  intros Hk.
  assert (forall f g, OS.startswith OS.sep f = false ->
                      OS.startswith OS.sep g = false -> f <> g ->
                      OS.join (shard_path path k) f
                      <> OS.join (shard_path path k) g) as Hfiles.
  { intros f g Hf Hg Hfg E.
    destruct (shard_file_form path k f Hk Hf) as [Ef _].
    destruct (shard_file_form path k g Hk Hg) as [Eg _].
    rewrite Ef, Eg in E. do 2 apply String.app_inj in E. congruence. }
  assert (forall f, OS.startswith OS.sep f = false ->
                    shard_path path k <> OS.join (shard_path path k) f)
    as Hdir.
  { intros f Hf E. destruct (shard_file_form path k f Hk Hf) as [Ef _].
    rewrite Ef, shard_path_form in E by exact Hk.
    rewrite <- (append_nil_r (dir_prefix path +:+ Py.str k)) in E at 1.
    rewrite append_assoc in E.
    do 2 apply String.app_inj in E. discriminate. }
  unfold vectors_file, metas_file, ids_file.
  repeat split; (apply Hdir || apply Hfiles); (reflexivity || discriminate).
Qed.

Lemma parents_go_form (acc s q : string) :
  q ∈ OS.parents_go acc s ->
  exists s1 s2, s = s1 +:+ String OS.sep s2 /\ q = acc +:+ s1.
Proof.
  revert acc. induction s as [|c s IH]; intros acc Hq.
  - cbn in Hq. now apply elem_of_nil in Hq.
  - cbn [OS.parents_go] in Hq. apply elem_of_app in Hq as [Hq | Hq].
    + destruct (bool_decide (c = OS.sep)) eqn:Ec; cbn [andb] in Hq;
        [|now apply elem_of_nil in Hq].
      apply bool_decide_eq_true_1 in Ec. subst c.
      destruct (negb (bool_decide (acc = "")) && negb (OS.endswith OS.sep acc));
        [|now apply elem_of_nil in Hq].
      apply list_elem_of_singleton in Hq. subst q.
      exists "", s. now rewrite append_nil_l, append_nil_r.
    + destruct (IH _ Hq) as (s1 & s2 & -> & ->).
      exists (String c s1), s2.
      now rewrite append_cons, append_assoc, append_cons, append_nil_l.
Qed.

(** No directory above a shard is a location of a shard. *)
Lemma parents_not_shard_keys (path : string) (j k : Z) (q : string) :
  (0 <= j)%Z -> (0 <= k)%Z ->
  q ∈ OS.parents (shard_path path k) -> q ∈ shard_keys path j -> False.
Proof.
  intros Hj Hk Hq Hkey.
  destruct (parents_go_form _ _ _ Hq) as (s1 & s2 & E & Eq).
  rewrite append_nil_l in Eq. subst q.
  destruct (shard_keys_form path j s1 Hj Hkey) as (suffix & -> & _).
  rewrite shard_path_form in E by exact Hk. rewrite !append_assoc in E.
  apply String.app_inj in E.
  pose proof (str_no_sep k Hk) as Nk.
  rewrite E, !contains_append in Nk. cbn [Py.contains] in Nk.
  rewrite bool_decide_eq_true_2 in Nk by reflexivity.
  rewrite !orb_true_r in Nk. discriminate.
Qed.

Lemma parents_go_no_sep (acc t : string) :
  Py.contains OS.sep t = false -> OS.parents_go acc t = [].
Proof.
  revert acc. induction t as [|c t IH]; intros acc H; [reflexivity|].
  cbn [Py.contains] in H. apply orb_false_elim in H as [Hc Ht].
  cbn [OS.parents_go]. rewrite Hc. cbn [andb app]. now apply IH.
Qed.

Lemma parents_go_app_no_sep (acc a t : string) :
  Py.contains OS.sep t = false ->
  OS.parents_go acc (a +:+ t) = OS.parents_go acc a.
Proof.
  intros Ht. revert acc. induction a as [|c a IH]; intros acc.
  - rewrite append_nil_l. now apply parents_go_no_sep.
  - rewrite append_cons. cbn [OS.parents_go]. now rewrite IH.
Qed.

(** The directories above a shard are the same for every shard. *)
Lemma parents_shard_path (path : string) (j k : Z) :
  (0 <= j)%Z -> (0 <= k)%Z ->
  OS.parents (shard_path path j) = OS.parents (shard_path path k).
Proof.
  intros Hj Hk. unfold OS.parents. rewrite !shard_path_form by assumption.
  now rewrite !parents_go_app_no_sep by now apply str_no_sep.
Qed.

Lemma parents_go_mem (a acc b : string) :
  acc +:+ a <> "" -> OS.endswith OS.sep (acc +:+ a) = false ->
  acc +:+ a ∈ OS.parents_go acc (a +:+ String OS.sep b).
Proof.
  revert acc. induction a as [|c a IH]; intros acc Hne Hend.
  - rewrite append_nil_r in *. rewrite append_nil_l. cbn [OS.parents_go].
    rewrite bool_decide_eq_true_2 by reflexivity.
    rewrite bool_decide_eq_false_2 by exact Hne. rewrite Hend.
    cbn [andb negb app]. now left.
  - rewrite append_cons. cbn [OS.parents_go]. apply elem_of_app. right.
    replace (acc +:+ String c a) with ((acc +:+ String c "") +:+ a) in *
      by now rewrite append_assoc, append_cons, append_nil_l.
    now apply IH.
Qed.

(** A path that is not empty and does not end in a separator is one of the
    directories above its shards. *)
Lemma path_in_parents (path : string) (k : Z) :
  (0 <= k)%Z -> path <> "" -> OS.endswith OS.sep path = false ->
  path ∈ OS.parents (shard_path path k).
Proof.
  intros Hk Hne Hend. rewrite shard_path_form by exact Hk.
  unfold dir_prefix. rewrite Hend, bool_decide_eq_false_2 by exact Hne.
  cbn [orb]. rewrite append_assoc, append_cons, append_nil_l.
  unfold OS.parents. rewrite <- (append_nil_l path) at 1.
  apply parents_go_mem; now rewrite append_nil_l.
Qed.

Lemma parents_go_app (acc a b : string) :
  OS.parents_go acc (a +:+ b)
  = OS.parents_go acc a ++ OS.parents_go (acc +:+ a) b.
Proof.
  revert acc. induction a as [|c a IH]; intros acc.
  - now rewrite append_nil_l, append_nil_r.
  - rewrite append_cons. cbn [OS.parents_go]. rewrite IH, <- app_assoc.
    now rewrite append_assoc, append_cons, append_nil_l.
Qed.

(** The directories above a path that ends on a separator-free name. *)
Lemma parents_dir_prefix (path : string) (q : string) :
  q ∈ OS.parents (dir_prefix path) -> q ∈ OS.parents path \/ q = path.
Proof.
  unfold dir_prefix.
  destruct (bool_decide (path = "") || OS.endswith OS.sep path); [now left|].
  unfold OS.parents. rewrite parents_go_app, append_nil_l.
  intros [H | H]%elem_of_app; [now left|]. cbn [OS.parents_go] in H.
  apply elem_of_app in H as [H | H]; [|now apply elem_of_nil in H].
  destruct (bool_decide (OS.sep = OS.sep) && negb (bool_decide (path = ""))
            && negb (OS.endswith OS.sep path));
    [|now apply elem_of_nil in H].
  apply list_elem_of_singleton in H. now right.
Qed.

(** A directory above a shard is a directory above the path of the dump, or
    that path. *)
Lemma parents_shard_path_sub (path : string) (k : Z) (q : string) :
  (0 <= k)%Z -> q ∈ OS.parents (shard_path path k) ->
  q ∈ OS.parents path \/ q = path.
Proof.
  intros Hk. unfold OS.parents at 1. rewrite shard_path_form by exact Hk.
  rewrite parents_go_app_no_sep by now apply str_no_sep.
  apply parents_dir_prefix.
Qed.

(** The directories above a file of a shard: those above the shard, and the
    shard. *)
Lemma parents_shard_file (path : string) (k : Z) (f : string) :
  (0 <= k)%Z -> Py.contains OS.sep f = false ->
  OS.parents (OS.join (shard_path path k) f)
  = OS.parents (shard_path path k) ++ [shard_path path k].
Proof.
  intros Hk Hf.
  destruct (shard_file_form path k f Hk (startswith_contains _ _ Hf)) as [-> _].
  rewrite <- append_assoc, <- shard_path_form by exact Hk.
  unfold OS.parents. rewrite parents_go_app, append_nil_l. f_equal.
  cbn [OS.parents_go].
  rewrite bool_decide_eq_true_2 by reflexivity.
  rewrite (parents_go_no_sep _ f Hf), app_nil_r.
  assert (shard_path path k <> "") as Hne.
  { rewrite shard_path_form by exact Hk. intros E.
    pose proof (str_nonempty k) as Hs.
    destruct (dir_prefix path); [now rewrite append_nil_l in E|].
    rewrite append_cons in E. discriminate. }
  assert (OS.endswith OS.sep (shard_path path k) = false) as Hend.
  { rewrite shard_path_form by exact Hk.
    rewrite endswith_append by apply str_nonempty.
    destruct (OS.endswith OS.sep (Py.str k)) eqn:E; [|reflexivity].
    apply endswith_contains in E. rewrite str_no_sep in E by exact Hk.
    discriminate. }
  rewrite bool_decide_eq_false_2 by exact Hne. now rewrite Hend.
Qed.

(** ** Steps of the export *)

Lemma bind_Ok {S A B : Type} (c : Run.M S A) (k : A -> Run.M S B)
    (s s1 : S) (a : A) :
  c s = (Py.Ok a, s1) -> (c ≫= k) s = k a s1.
Proof. intros H. unfold_run. now rewrite H. Qed.

Lemma bind_Raise {S A B : Type} (c : Run.M S A) (k : A -> Run.M S B)
    (s s1 : S) (e : Py.exn) :
  c s = (Py.Raise e, s1) -> (c ≫= k) s = (Py.Raise e, s1).
Proof. intros H. unfold_run. now rewrite H. Qed.

Lemma bind_Ok_inv {S A B : Type} (c : Run.M S A) (k : A -> Run.M S B)
    (s s' : S) (b : B) :
  (c ≫= k) s = (Py.Ok b, s') ->
  exists a s1, c s = (Py.Ok a, s1) /\ k a s1 = (Py.Ok b, s').
Proof.
  unfold_run. destruct (c s) as [[a|e] s1]; [|discriminate].
  intros H. now exists a, s1.
Qed.

Lemma lift_fs_Ok (f : OS.FS -> Py.result OS.FS) (s : state) (fs' : OS.FS) :
  f (fst s) = Py.Ok fs' -> lift_fs f s = (Py.Ok tt, (fs', snd s)).
Proof. intros H. unfold lift_fs. now rewrite H. Qed.

Lemma lift_fs_Ok_inv (f : OS.FS -> Py.result OS.FS) (s s' : state) (u : unit) :
  lift_fs f s = (Py.Ok u, s') ->
  exists fs', f (fst s) = Py.Ok fs' /\ s' = (fs', snd s).
Proof.
  unfold lift_fs. destruct (f (fst s)) as [fs'|e]; [|discriminate].
  intros H. exists fs'. split; [reflexivity | congruence].
Qed.

Lemma lookup_mkdirs_Some (fs : OS.FS) (l : list string) (key : string)
    (v : OS.node) :
  fs !! key = Some v -> foldr OS.mkdir_missing fs l !! key = Some v.
Proof.
  intros H. induction l as [|p l IH]; [exact H|].
  cbn [foldr]. unfold OS.mkdir_missing at 1.
  destruct (foldr OS.mkdir_missing fs l !! p) eqn:E; [exact IH|].
  rewrite lookup_insert_ne; [exact IH | congruence].
Qed.

Lemma lookup_mkdirs_other (fs : OS.FS) (l : list string) (key : string) :
  key ∉ l -> foldr OS.mkdir_missing fs l !! key = fs !! key.
Proof.
  induction l as [|p l IH]; [reflexivity|]. intros Hn.
  apply not_elem_of_cons in Hn as [Hp Hl].
  cbn [foldr]. unfold OS.mkdir_missing at 1.
  destruct (foldr OS.mkdir_missing fs l !! p); [now apply IH|].
  rewrite lookup_insert_ne by congruence. now apply IH.
Qed.

Lemma lookup_mkdirs_elem (fs : OS.FS) (l : list string) (key : string) :
  key ∈ l ->
  foldr OS.mkdir_missing fs l !! key = Some (default OS.Dir (fs !! key)).
Proof.
  induction l as [|p l IH]; intros Hin; [now apply elem_of_nil in Hin|].
  cbn [foldr]. unfold OS.mkdir_missing at 1.
  destruct (decide (key = p)) as [-> | Hne].
  - destruct (decide (p ∈ l)) as [Hp | Hp].
    + rewrite (IH Hp). exact (IH Hp).
    + rewrite (lookup_mkdirs_other fs l p Hp).
      destruct (fs !! p) as [v|] eqn:E.
      * now rewrite (lookup_mkdirs_other fs l p Hp).
      * apply lookup_insert_eq.
  - apply elem_of_cons in Hin as [? | Hin]; [congruence|].
    destruct (foldr OS.mkdir_missing fs l !! p); [now apply IH|].
    rewrite lookup_insert_ne by congruence. now apply IH.
Qed.

Lemma not_a_file (fs : OS.FS) (q : string) :
  OS.is_file fs q = false -> default OS.Dir (fs !! q) = OS.Dir.
Proof. unfold OS.is_file. now destruct (fs !! q) as [[|c]|]. Qed.

Lemma a_directory (fs : OS.FS) (q : string) :
  fs !! q = Some OS.Dir -> OS.is_dir fs q = true /\ OS.is_file fs q = false.
Proof. unfold OS.is_dir, OS.is_file. now intros ->. Qed.

(** [os.makedirs] where nothing is at the leaf and no regular file stands
    above it. *)
Lemma makedirs_Ok (fs : OS.FS) (p : string) :
  fs !! p = None ->
  (forall q, q ∈ OS.parents p -> OS.is_file fs q = false) ->
  exists fs', OS.makedirs fs p = Py.Ok fs'
    /\ fs' !! p = Some OS.Dir
    /\ (forall q, q ∈ OS.parents p -> fs' !! q = Some OS.Dir)
    /\ (forall key v, fs !! key = Some v -> fs' !! key = Some v)
    /\ (forall key, key <> p -> key ∉ OS.parents p -> fs' !! key = fs !! key).
Proof.
  intros H Hq. unfold OS.makedirs. rewrite H.
  rewrite (proj2 (no_file_among fs (OS.parents p)) Hq).
  eexists. split; [reflexivity|].
  split; [apply lookup_insert_eq|]. split; [|split].
  - intros q Hin. destruct (decide (q = p)) as [-> | Hne];
      [apply lookup_insert_eq|].
    rewrite lookup_insert_ne by congruence.
    rewrite lookup_mkdirs_elem by exact Hin. f_equal.
    apply not_a_file. now apply Hq.
  - intros key v Hv. rewrite lookup_insert_ne by congruence.
    now apply lookup_mkdirs_Some.
  - intros key Hne Hp. rewrite lookup_insert_ne by congruence.
    now apply lookup_mkdirs_other.
Qed.

Lemma makedirs_Ok_inv (fs fs' : OS.FS) (p : string) :
  OS.makedirs fs p = Py.Ok fs' ->
  fs !! p = None /\ forall q, q ∈ OS.parents p -> OS.is_file fs q = false.
Proof.
  unfold OS.makedirs. destruct (fs !! p); [discriminate|].
  destruct (existsb (OS.is_file fs) (OS.parents p)) eqn:E; [discriminate|].
  intros _. split; [reflexivity | now apply no_file_among].
Qed.

(** [open] for writing where the directories above the file are in place. *)
Lemma open_w_Ok (fs : OS.FS) (p : string) :
  fs !! p <> Some OS.Dir ->
  (forall q, q ∈ OS.parents p -> fs !! q = Some OS.Dir) ->
  OS.open_w fs p = Py.Ok (<[p := OS.File []]> fs, OS.Writer p []).
Proof.
  intros Hp Hq. unfold OS.open_w, OS.above.
  destruct (fs !! p) as [[|c]|]; [congruence | reflexivity |].
  rewrite (proj2 (no_file_among fs (OS.parents p)))
    by (intros q Hin; now apply a_directory, Hq).
  rewrite (proj2 (forallb_forall _ _)); [reflexivity|].
  intros q Hin. apply a_directory, Hq. now apply list_elem_of_In.
Qed.

Lemma open_w_Ok_inv (fs fs' : OS.FS) (p : string) (fh : OS.writer) :
  OS.open_w fs p = Py.Ok (fs', fh) ->
  fs !! p <> Some OS.Dir /\ fs' = <[p := OS.File []]> fs
  /\ fh = OS.Writer p [].
Proof.
  unfold OS.open_w. destruct (fs !! p) as [[|c]|]; [discriminate| |].
  - intros [= <- <-]. repeat split; congruence.
  - destruct (OS.above fs p); [discriminate|].
    intros [= <- <-]. repeat split; congruence.
Qed.

Lemma open_w_run_Ok (s : state) (p : string) :
  fst s !! p <> Some OS.Dir ->
  (forall q, q ∈ OS.parents p -> fst s !! q = Some OS.Dir) ->
  open_w p s = (Py.Ok (OS.Writer p []), (<[p := OS.File []]> (fst s), snd s)).
Proof. intros Hp Hq. unfold open_w. now rewrite open_w_Ok. Qed.

Lemma open_w_run_Ok_inv (s s' : state) (p : string) (fh : OS.writer) :
  open_w p s = (Py.Ok fh, s') ->
  fst s !! p <> Some OS.Dir /\ s' = (<[p := OS.File []]> (fst s), snd s)
  /\ fh = OS.Writer p [].
Proof.
  unfold open_w. destruct (OS.open_w (fst s) p) as [[fs' fh']|e] eqn:E;
    [|discriminate].
  intros [= <- <-]. apply open_w_Ok_inv in E as (? & -> & ->). auto.
Qed.

(** [close] on a handle whose file is in the store. *)
Lemma close_file (fs : OS.FS) (p : string) (c data : Py.bytes) :
  fs !! p = Some (OS.File c) ->
  OS.close fs (OS.Writer p data) = <[p := OS.File (c ++ data)]> fs.
Proof. intros H. unfold OS.close. cbn [OS.w_path OS.w_pending]. now rewrite H. Qed.

Section Entries.

Variable byteorder : Py.byteorder.

Lemma write_nil (fh : OS.writer) : OS.write fh [] = fh.
Proof. destruct fh. unfold OS.write. cbn. now rewrite app_nil_r. Qed.

Lemma write_write (fh : OS.writer) (a b : Py.bytes) :
  OS.write (OS.write fh a) b = OS.write fh (a ++ b).
Proof. unfold OS.write. cbn. now rewrite app_assoc. Qed.

(** The handles after the turns for the entries [es]. *)
Lemma fed_all (es : list entry) (vectors_fh metas_fh ids_fh : OS.writer) :
  foldl (fed byteorder) (vectors_fh, metas_fh, ids_fh) es
  = (OS.write vectors_fh (vectors_image byteorder es),
     OS.write metas_fh (metas_image byteorder es),
     OS.write ids_fh (ids_image es)).
Proof.
  revert vectors_fh metas_fh ids_fh.
  induction es as [|e es IH]; intros hv hm hi.
  - cbn. now rewrite !write_nil.
  - cbn [foldl fed]. rewrite IH, !write_write. reflexivity.
Qed.

(** The [while] loop on entries that can be written: every entry is pulled
    and goes to the buffers of the handles; the file system is as it was. *)
Lemma write_entries_Ok (es rest : list entry) :
  Forall writable es ->
  forall (fs : OS.FS) (fhs : handlers),
    write_entries byteorder (length es) fhs (fs, es ++ rest)
    = (Py.Ok (foldl (fed byteorder) fhs es), (fs, rest)).
Proof.
  induction 1 as [|e es He Hes IH]; intros fs fhs; [reflexivity|].
  cbn [length write_entries app foldl].
  erewrite bind_Ok; [apply IH | now apply write_entry_fits].
Qed.

Lemma to_bytes_Ok_inv (n : Z) (k : nat) (bs : Py.bytes) :
  Py.to_bytes n k byteorder = Py.Ok bs -> (0 <= n < 256 ^ Z.of_nat k)%Z.
Proof.
  unfold Py.to_bytes. destruct (n <? 0)%Z eqn:E1; [discriminate|].
  destruct (256 ^ Z.of_nat k <=? n)%Z eqn:E2; [discriminate|]. lia.
Qed.

Lemma write_entry_Ok_inv (fhs fhs' : handlers) (s s' : state) :
  write_entry byteorder fhs s = (Py.Ok fhs', s') ->
  exists e, snd s = e :: snd s' /\ writable e /\ fst s' = fst s
            /\ fhs' = fed byteorder fhs e.
Proof.
  destruct s as [fs [|[[id_ vec] meta] data]]; destruct fhs as [[hv hm] hi].
  - discriminate.
  - intros H.
    assert (writable (id_, vec, meta)) as Hw.
    { revert H. unfold write_entry, next_data, lift, OS.write_text.
      unfold_run. cbn [fst snd].
      destruct (Py.to_bytes (Py.len (Py.tobytes vec)) BYTE_PADDING byteorder)
        as [bv|] eqn:Ev; [|discriminate]. cbn [fst snd].
      destruct (Py.to_bytes (Py.len meta) BYTE_PADDING byteorder)
        as [bm|] eqn:Em; [|discriminate]. cbn [fst snd].
      destruct (Py.utf8_encode (id_ ++ [Py.LF])) as [bi|] eqn:Ei;
        [|discriminate].
      intros _. apply to_bytes_Ok_inv in Ev, Em.
      change (256 ^ Z.of_nat BYTE_PADDING)%Z with (2 ^ 32)%Z in Ev, Em.
      split; [split; [apply Ev | apply Em]|].
      unfold entry_id. cbn [fst].
      assert (Forall Py.scalar (id_ ++ [Py.LF])) as Hs
        by (apply utf8_encode_scalar; eauto).
      now apply Forall_app in Hs as [? _]. }
    rewrite write_entry_fits in H by exact Hw. injection H as <- <-.
    exists (id_, vec, meta). auto.
Qed.

(** The [while] loop that ends without an exception has pulled entries that
    can be written, one a turn. *)
Lemma write_entries_Ok_inv (n : nat) :
  forall (fhs fhs' : handlers) (s s' : state),
    write_entries byteorder n fhs s = (Py.Ok fhs', s') ->
    exists es, snd s = es ++ snd s' /\ length es = n /\ Forall writable es
               /\ fst s' = fst s /\ fhs' = foldl (fed byteorder) fhs es.
Proof.
  induction n as [|n IH]; intros fhs fhs' s s' H.
  - cbn in H. injection H as <- <-. now exists [].
  - cbn [write_entries] in H.
    apply bind_Ok_inv in H as (fhs1 & s1 & H1 & H2).
    apply write_entry_Ok_inv in H1 as (e & E1 & He & Ef1 & ->).
    apply IH in H2 as (es & E2 & Hl & Hes & Ef2 & ->).
    exists (e :: es). rewrite E1, E2. cbn [length app foldl].
    repeat split; [now f_equal | now constructor | congruence].
Qed.

Lemma write_entries_add (a b : nat) (fhs : handlers) (s : state) :
  write_entries byteorder (a + b) fhs s
  = match write_entries byteorder a fhs s with
    | (Py.Ok fhs1, s1) => write_entries byteorder b fhs1 s1
    | (Py.Raise e, s1) => (Py.Raise e, s1)
    end.
Proof.
  revert fhs s. induction a as [|a IH]; intros fhs s; [reflexivity|].
  cbn [Nat.add write_entries]. unfold_run.
  destruct (write_entry byteorder fhs s) as [[fhs1|e] s1];
    [apply IH | reflexivity].
Qed.

(** The [while] loop on a source that holds fewer entries than it is to
    pull: the entries there are go to the buffers, then [next] raises, and
    nothing has reached the file system. *)
Lemma write_entries_underrun (es : list entry) (n : nat) (fs : OS.FS)
    (fhs : handlers) :
  Forall writable es -> length es < n ->
  write_entries byteorder n fhs (fs, es)
  = (Py.Raise Py.StopIteration, (fs, [])).
Proof.
  intros Hes Hn.
  replace n with (length es + S (n - length es - 1)) by lia.
  rewrite write_entries_add.
  rewrite <- (app_nil_r es) at 2. rewrite write_entries_Ok by exact Hes.
  cbn [write_entries]. destruct (foldl (fed byteorder) fhs es) as [[hv hm] hi].
  reflexivity.
Qed.

End Entries.

Section Shard.

Variable byteorder : Py.byteorder.

(** The store after a shard was made and its three files were opened. *)
Lemma get_file_handlers_Ok (path : string) (k : Z) (fs : OS.FS)
    (data : list entry) :
  let V := vectors_file path k in
  let M := metas_file path k in
  let I := ids_file path k in
  (0 <= k)%Z ->
  fs !! shard_path path k = Some OS.Dir ->
  (forall q, q ∈ OS.parents (shard_path path k) -> fs !! q = Some OS.Dir) ->
  fs !! V <> Some OS.Dir -> fs !! M <> Some OS.Dir -> fs !! I <> Some OS.Dir ->
  _get_file_handlers (shard_path path k) (fs, data)
  = (Py.Ok (OS.Writer V [], OS.Writer M [], OS.Writer I []),
     (<[I := OS.File []]> (<[M := OS.File []]> (<[V := OS.File []]> fs)), data)).
Proof.
  intros V M I Hk HD Hq HV HM HI.
  destruct (shard_keys_distinct path k Hk) as (DV & DM & DI & VM & VI & MI).
  fold V M I in DV, DM, DI, VM, VI, MI.
  assert (forall f x, Py.contains OS.sep f = false ->
            x ∈ OS.parents (OS.join (shard_path path k) f) ->
            fs !! x = Some OS.Dir /\ x ∉ shard_keys path k
            \/ x = shard_path path k) as Hpar.
  { intros f x Hf Hx. rewrite parents_shard_file in Hx by assumption.
    apply elem_of_app in Hx as [Hx | Hx%list_elem_of_singleton]; [left | now right].
    split; [now apply Hq|].
    intros Hin. exact (parents_not_shard_keys path k k x Hk Hk Hx Hin). }
  assert (forall (fs' : OS.FS) f,
            Py.contains OS.sep f = false ->
            fs' !! shard_path path k = Some OS.Dir ->
            (forall x, x ∉ shard_keys path k -> fs' !! x = fs !! x) ->
            forall x, x ∈ OS.parents (OS.join (shard_path path k) f) ->
                      fs' !! x = Some OS.Dir) as Hdirs.
  { intros fs' f Hf HD' Hsame x Hx.
    destruct (Hpar f x Hf Hx) as [[Hd Hn] | ->]; [|exact HD'].
    now rewrite Hsame. }
  assert (forall x, x ∉ shard_keys path k -> x <> V /\ x <> M /\ x <> I)
    as Hout.
  { intros x Hx. repeat split; intros ->; apply Hx; in_shard_keys. }
  unfold _get_file_handlers.
  change (OS.join (shard_path path k) "vectors") with V.
  change (OS.join (shard_path path k) "metas") with M.
  change (OS.join (shard_path path k) "ids") with I.
  erewrite bind_Ok.
  2:{ apply open_w_run_Ok; cbn [fst]; [exact HV|].
      apply (Hdirs fs "vectors"); auto. }
  erewrite bind_Ok.
  2:{ apply open_w_run_Ok; cbn [fst].
      - now rewrite lookup_insert_ne.
      - apply (Hdirs _ "metas"); [reflexivity | |].
        + now rewrite lookup_insert_ne.
        + intros x Hx. destruct (Hout x Hx) as (? & ? & ?).
          now rewrite lookup_insert_ne. }
  erewrite bind_Ok.
  2:{ apply open_w_run_Ok; cbn [fst].
      - now rewrite !lookup_insert_ne.
      - apply (Hdirs _ "ids"); [reflexivity | |].
        + now rewrite !lookup_insert_ne.
        + intros x Hx. destruct (Hout x Hx) as (? & ? & ?).
          now rewrite !lookup_insert_ne. }
  reflexivity.
Qed.

Lemma get_file_handlers_Ok_inv (path : string) (k : Z) (s s' : state)
    (fhs : handlers) :
  let V := vectors_file path k in
  let M := metas_file path k in
  let I := ids_file path k in
  (0 <= k)%Z ->
  _get_file_handlers (shard_path path k) s = (Py.Ok fhs, s') ->
  fst s !! V <> Some OS.Dir /\ fst s !! M <> Some OS.Dir
  /\ fst s !! I <> Some OS.Dir
  /\ fhs = (OS.Writer V [], OS.Writer M [], OS.Writer I [])
  /\ s' = (<[I := OS.File []]>
             (<[M := OS.File []]> (<[V := OS.File []]> (fst s))), snd s).
Proof.
  intros V M I Hk H.
  destruct (shard_keys_distinct path k Hk) as (DV & DM & DI & VM & VI & MI).
  fold V M I in DV, DM, DI, VM, VI, MI.
  unfold _get_file_handlers in H.
  change (OS.join (shard_path path k) "vectors") with V in H.
  change (OS.join (shard_path path k) "metas") with M in H.
  change (OS.join (shard_path path k) "ids") with I in H.
  apply bind_Ok_inv in H as (h1 & s1 & H1 & H).
  apply bind_Ok_inv in H as (h2 & s2 & H2 & H).
  apply bind_Ok_inv in H as (h3 & s3 & H3 & H).
  apply open_w_run_Ok_inv in H1 as (N1 & -> & ->).
  apply open_w_run_Ok_inv in H2 as (N2 & -> & ->).
  apply open_w_run_Ok_inv in H3 as (N3 & -> & ->).
  cbn [fst snd] in *. cbn in H. injection H as <- <-.
  rewrite lookup_insert_ne in N2 by congruence.
  rewrite !lookup_insert_ne in N3 by congruence. auto.
Qed.

(** The three handles of a shard are closed: what they hold reaches the
    three files, which were empty. *)
Lemma close_handlers (path : string) (k : Z) (fs : OS.FS) (data : list entry)
    (bv bm bi : Py.bytes) :
  let V := vectors_file path k in
  let M := metas_file path k in
  let I := ids_file path k in
  (0 <= k)%Z ->
  fs !! V = Some (OS.File []) -> fs !! M = Some (OS.File []) ->
  fs !! I = Some (OS.File []) ->
  (close (OS.Writer V bv) ;; close (OS.Writer M bm) ;; close (OS.Writer I bi))
    (fs, data)
  = (Py.Ok tt,
     (<[I := OS.File bi]> (<[M := OS.File bm]> (<[V := OS.File bv]> fs)),
      data)).
Proof.
  intros V M I Hk HV HM HI.
  destruct (shard_keys_distinct path k Hk) as (DV & DM & DI & VM & VI & MI).
  fold V M I in DV, DM, DI, VM, VI, MI.
  unfold close. unfold_run. cbn [fst snd].
  rewrite (close_file fs V [] bv HV).
  rewrite (close_file _ M [] bm) by now rewrite lookup_insert_ne.
  rewrite (close_file _ I [] bi) by now rewrite !lookup_insert_ne.
  reflexivity.
Qed.

(** One shard, when nothing is in its way and its entries can be written:
    the directory is made with the directories above it, the three files
    hold the images of the entries, every other location that existed is as
    it was. *)
Lemma export_shard_Ok (path : string) (range : list Z) (q r k : Z)
    (fs : OS.FS) (es rest : list entry) :
  (0 <= k)%Z ->
  fs !! shard_path path k = None ->
  (forall x, x ∈ OS.parents (shard_path path k) -> OS.is_file fs x = false) ->
  fs !! vectors_file path k <> Some OS.Dir ->
  fs !! metas_file path k <> Some OS.Dir ->
  fs !! ids_file path k <> Some OS.Dir ->
  length es = Z.to_nat (size_this_shard range q r k) ->
  Forall writable es ->
  exists fs',
    export_shard byteorder path range q r k (fs, es ++ rest)
    = (Py.Ok tt, (fs', rest))
    /\ shard_holds byteorder fs' path k es
    /\ (forall x, x ∈ OS.parents (shard_path path k) ->
                  fs' !! x = Some OS.Dir)
    /\ (forall key v, key ∉ shard_keys path k ->
                      fs !! key = Some v -> fs' !! key = Some v)
    /\ (forall key, key ∉ shard_keys path k ->
                    key ∉ OS.parents (shard_path path k) ->
                    fs' !! key = fs !! key).
Proof.
  intros Hk HD Hpar HV HM HI Hlen Hfit.
  destruct (shard_keys_distinct path k Hk) as (DV & DM & DI & VM & VI & MI).
  assert (forall x, x ∈ shard_keys path k ->
                    x ∉ OS.parents (shard_path path k)) as Hnp.
  { intros x Hx Hp. exact (parents_not_shard_keys path k k x Hk Hk Hp Hx). }
  assert (vectors_file path k ∈ shard_keys path k) as KV
    by (in_shard_keys).
  assert (metas_file path k ∈ shard_keys path k) as KM
    by (in_shard_keys).
  assert (ids_file path k ∈ shard_keys path k) as KI
    by (in_shard_keys).
  destruct (makedirs_Ok fs (shard_path path k) HD Hpar)
    as (fs1 & Hmk & H1D & H1par & H1mono & H1other).
  set (fs2 := <[ids_file path k := OS.File []]>
                (<[metas_file path k := OS.File []]>
                   (<[vectors_file path k := OS.File []]> fs1))).
  set (fs' := <[ids_file path k := OS.File (ids_image es)]>
                (<[metas_file path k := OS.File (metas_image byteorder es)]>
                   (<[vectors_file path k
                      := OS.File (vectors_image byteorder es)]> fs2))).
  assert (forall key, key ∉ shard_keys path k ->
                      fs' !! key = fs1 !! key) as H'other.
  { intros key Hkey. unfold shard_keys in Hkey.
    rewrite !not_elem_of_cons in Hkey. destruct Hkey as (? & ? & ? & ? & _).
    unfold fs', fs2. now rewrite !lookup_insert_ne by congruence. }
  exists fs'. split; [|split; [|split; [|split]]].
  - unfold export_shard.
    change (OS.join path (Py.str k)) with (shard_path path k).
    erewrite bind_Ok; [|apply lift_fs_Ok; cbn [fst]; exact Hmk].
    erewrite bind_Ok.
    2:{ apply get_file_handlers_Ok; try assumption;
        rewrite H1other by (auto; congruence); assumption. }
    cbn [snd]. rewrite <- Hlen.
    erewrite bind_Ok; [|now apply write_entries_Ok].
    rewrite fed_all. cbn [OS.write OS.w_path OS.w_pending app].
    apply (close_handlers path k fs2 rest); [exact Hk | | |]; unfold fs2.
    + rewrite !lookup_insert_ne by congruence. apply lookup_insert_eq.
    + rewrite lookup_insert_ne by congruence. apply lookup_insert_eq.
    + apply lookup_insert_eq.
  - unfold shard_holds. split; [|split; [|split]].
    + unfold fs', fs2. now rewrite !lookup_insert_ne by congruence.
    + unfold fs'. rewrite !lookup_insert_ne by congruence.
      apply lookup_insert_eq.
    + unfold fs'. rewrite lookup_insert_ne by congruence.
      apply lookup_insert_eq.
    + unfold fs'. apply lookup_insert_eq.
  - intros x Hx. rewrite H'other; [now apply H1par|].
    intros Hin. exact (Hnp x Hin Hx).
  - intros key v Hkey Hv. rewrite H'other by exact Hkey. now apply H1mono.
  - intros key Hkey Hp. rewrite H'other by exact Hkey.
    apply H1other; [|exact Hp]. intros ->. apply Hkey. in_shard_keys.
Qed.

(** One shard that ends without an exception found nothing in its way and
    pulled as many entries as planned, all of which can be written. *)
Lemma export_shard_Ok_inv (path : string) (range : list Z) (q r k : Z)
    (s s' : state) (u : unit) :
  (0 <= k)%Z ->
  export_shard byteorder path range q r k s = (Py.Ok u, s') ->
  fst s !! shard_path path k = None
  /\ (forall x, x ∈ OS.parents (shard_path path k) ->
                OS.is_file (fst s) x = false)
  /\ fst s !! vectors_file path k <> Some OS.Dir
  /\ fst s !! metas_file path k <> Some OS.Dir
  /\ fst s !! ids_file path k <> Some OS.Dir
  /\ exists es, snd s = es ++ snd s'
       /\ length es = Z.to_nat (size_this_shard range q r k)
       /\ Forall writable es.
Proof.
  intros Hk H.
  assert (forall x, x ∈ shard_keys path k ->
                    x ∉ OS.parents (shard_path path k)) as Hnp.
  { intros x Hx Hp. exact (parents_not_shard_keys path k k x Hk Hk Hp Hx). }
  destruct (shard_keys_distinct path k Hk) as (DV & DM & DI & VM & VI & MI).
  unfold export_shard in H.
  change (OS.join path (Py.str k)) with (shard_path path k) in H.
  apply bind_Ok_inv in H as (u1 & s1 & H1 & H).
  apply bind_Ok_inv in H as (fhs & s2 & H2 & H).
  apply bind_Ok_inv in H as (fhs' & s3 & H3 & H).
  assert (snd s' = snd s3) as Es'.
  { destruct fhs' as [[hv hm] hi]. unfold close, mbind, Run.M_bind, Run.bind in H.
    cbn [fst snd] in H. injection H as _ H. now subst s'. }
  apply lift_fs_Ok_inv in H1 as (fs1 & H1 & ->).
  pose proof (makedirs_Ok_inv _ _ _ H1) as [HD Hpar].
  destruct (makedirs_Ok _ _ HD Hpar) as (fs1' & Hmk & _ & _ & _ & H1other).
  rewrite H1 in Hmk. injection Hmk as Hmk. subst fs1'.
  apply get_file_handlers_Ok_inv in H2 as (NV & NM & NI & -> & ->);
    [|exact Hk].
  cbn [fst snd] in NV, NM, NI.
  rewrite H1other in NV, NM, NI
    by (try congruence; apply Hnp; in_shard_keys).
  apply write_entries_Ok_inv in H3 as (es & E & Hl & Hes & _ & _).
  cbn [snd] in E. rewrite <- Es' in E.
  repeat split; try assumption.
  exists es. auto.
Qed.

(** One shard for which the source holds too few entries: the directory and
    the three files are made, the loop raises [StopIteration], and the files
    are empty. *)
Lemma export_shard_underrun (path : string) (range : list Z) (q r k : Z)
    (fs : OS.FS) (es : list entry) :
  (0 <= k)%Z ->
  fs !! shard_path path k = None ->
  (forall x, x ∈ OS.parents (shard_path path k) -> OS.is_file fs x = false) ->
  fs !! vectors_file path k <> Some OS.Dir ->
  fs !! metas_file path k <> Some OS.Dir ->
  fs !! ids_file path k <> Some OS.Dir ->
  length es < Z.to_nat (size_this_shard range q r k) ->
  Forall writable es ->
  exists fs',
    export_shard byteorder path range q r k (fs, es)
    = (Py.Raise Py.StopIteration, (fs', []))
    /\ shard_holds byteorder fs' path k []
    /\ (forall key v, key ∉ shard_keys path k ->
                      fs !! key = Some v -> fs' !! key = Some v)
    /\ (forall key, key ∉ shard_keys path k ->
                    key ∉ OS.parents (shard_path path k) ->
                    fs' !! key = fs !! key).
Proof.
  intros Hk HD Hpar HV HM HI Hlen Hfit.
  destruct (shard_keys_distinct path k Hk) as (DV & DM & DI & VM & VI & MI).
  assert (forall x, x ∈ shard_keys path k ->
                    x ∉ OS.parents (shard_path path k)) as Hnp.
  { intros x Hx Hp. exact (parents_not_shard_keys path k k x Hk Hk Hp Hx). }
  assert (vectors_file path k ∈ shard_keys path k) as KV
    by (in_shard_keys).
  assert (metas_file path k ∈ shard_keys path k) as KM
    by (in_shard_keys).
  assert (ids_file path k ∈ shard_keys path k) as KI
    by (in_shard_keys).
  destruct (makedirs_Ok fs (shard_path path k) HD Hpar)
    as (fs1 & Hmk & H1D & H1par & H1mono & H1other).
  set (fs2 := <[ids_file path k := OS.File []]>
                (<[metas_file path k := OS.File []]>
                   (<[vectors_file path k := OS.File []]> fs1))).
  assert (forall key, key ∉ shard_keys path k ->
                      fs2 !! key = fs1 !! key) as H2other.
  { intros key Hkey. unfold shard_keys in Hkey.
    rewrite !not_elem_of_cons in Hkey. destruct Hkey as (? & ? & ? & ? & _).
    unfold fs2. now rewrite !lookup_insert_ne by congruence. }
  exists fs2. split; [|split; [|split]].
  - unfold export_shard.
    change (OS.join path (Py.str k)) with (shard_path path k).
    erewrite bind_Ok; [|apply lift_fs_Ok; cbn [fst]; exact Hmk].
    erewrite bind_Ok.
    2:{ apply get_file_handlers_Ok; try assumption;
        rewrite H1other by (auto; congruence); assumption. }
    cbn [snd]. apply bind_Raise. now apply write_entries_underrun.
  - unfold shard_holds. cbn. split; [|split; [|split]].
    + unfold fs2. now rewrite !lookup_insert_ne by congruence.
    + unfold fs2. rewrite !lookup_insert_ne by congruence.
      apply lookup_insert_eq.
    + unfold fs2. rewrite lookup_insert_ne by congruence.
      apply lookup_insert_eq.
    + unfold fs2. apply lookup_insert_eq.
  - intros key v Hkey Hv. rewrite H2other by exact Hkey. now apply H1mono.
  - intros key Hkey Hp. rewrite H2other by exact Hkey.
    apply H1other; [|exact Hp]. intros ->. apply Hkey. in_shard_keys.
Qed.

End Shard.

(** ** The loop over the shards *)

Section Shards.

Variable byteorder : Py.byteorder.
Variables (path : string) (range : list Z) (q r : Z).

(** The shards that end without an exception: the entries pulled are the
    concatenation of one chunk a shard, of the planned size; every shard is
    on disk and holds its chunk; the directories above the shards are in
    place, none of them having been a regular file; what existed elsewhere
    is unchanged, and nothing else came to be. *)
Lemma for_each_shard_Ok_inv (ks : list Z) :
  NoDup ks -> Forall (fun k => 0 <= k)%Z ks ->
  forall (s s' : state) (u : unit),
    Run.for_each ks (export_shard byteorder path range q r) s = (Py.Ok u, s') ->
    exists chunks : list (list entry),
      snd s = concat chunks ++ snd s'
      /\ Forall2 (fun k es =>
                    length es = Z.to_nat (size_this_shard range q r k)
                    /\ Forall writable es
                    /\ shard_holds byteorder (fst s') path k es)
           ks chunks
      /\ (forall key v, (forall k, k ∈ ks -> key ∉ shard_keys path k) ->
                        fst s !! key = Some v -> fst s' !! key = Some v)
      /\ (forall key, (forall k, k ∈ ks -> key ∉ shard_keys path k) ->
                      (forall k, k ∈ ks ->
                                 key ∉ OS.parents (shard_path path k)) ->
                      fst s' !! key = fst s !! key)
      /\ (forall k x, k ∈ ks -> x ∈ OS.parents (shard_path path k) ->
                      OS.is_file (fst s) x = false
                      /\ fst s' !! x = Some OS.Dir).
Proof.
  intros Hnd Hpos. induction ks as [|k ks IH]; intros s s' u H.
  - cbn in H. injection H as H. subst s'. exists []. cbn.
    split; [reflexivity|]. split; [constructor|]. split; [auto|].
    split; [auto|]. intros k0 x0 Hk0. now apply elem_of_nil in Hk0.
  - cbn [Run.for_each] in H.
    change (Run.bind ?c ?f) with (c ≫= f) in H.
    apply bind_Ok_inv in H as (u1 & s1 & H1 & H2).
    apply NoDup_cons in Hnd as [Hk Hnd]. apply Forall_cons in Hpos as [Hk0 Hpos].
    assert (forall k', k' ∈ ks -> (0 <= k')%Z) as Hpos'.
    { rewrite Forall_forall in Hpos. exact Hpos. }
    pose proof (export_shard_Ok_inv byteorder _ _ _ _ _ _ _ _ Hk0 H1)
      as (HD & Hpar & HV & HM & HI & es & Es & Hl & Hes).
    destruct (export_shard_Ok byteorder path range q r k (fst s) es (snd s1)
                Hk0 HD Hpar HV HM HI Hl Hes)
      as (fs1 & Hrun & Hh1 & H1par & H1mono & H1other).
    rewrite <- Es, <- surjective_pairing, H1 in Hrun.
    injection Hrun as Hu Hs1.
    assert (fst s1 = fs1) as Ef by now rewrite Hs1.
    destruct (IH Hnd Hpos s1 s' u H2)
      as (chunks & Ec & Hall & Hmono & Hother & Hdirs).
    assert (forall x v, x ∈ shard_keys path k ->
                        fst s1 !! x = Some v -> fst s' !! x = Some v) as Hkeep.
    { intros x v Hx Hv. apply Hmono; [|exact Hv].
      intros k' Hk' Hx'.
      apply (shard_keys_disjoint path k k' x); auto.
      intros ->. contradiction. }
    exists (es :: chunks). split; [|split; [|split; [|split]]].
    + cbn [concat]. now rewrite <- app_assoc, <- Ec.
    + constructor; [|exact Hall].
      split; [exact Hl|]. split; [exact Hes|].
      destruct Hh1 as (H1D & H1V & H1M & H1I). unfold shard_holds.
      repeat split;
        (apply Hkeep; [in_shard_keys | rewrite Ef]);
        assumption.
    + intros key v Hkey Hv. apply Hmono.
      * intros k' Hk'. apply Hkey. now right.
      * rewrite Ef. apply H1mono; [|exact Hv]. apply Hkey. now left.
    + intros key Hkey Hnp. rewrite Hother.
      * rewrite Ef. apply H1other; [apply Hkey | apply Hnp]; now left.
      * intros k' Hk'. apply Hkey. now right.
      * intros k' Hk'. apply Hnp. now right.
    + intros k' x [-> | Hk']%elem_of_cons Hx.
      * split; [now apply Hpar|]. apply Hmono.
        -- intros k' Hk' Hin.
           exact (parents_not_shard_keys path k' k x (Hpos' k' Hk') Hk0 Hx Hin).
        -- rewrite Ef. now apply H1par.
      * split; [|now apply (Hdirs k')]. apply Hpar.
        now rewrite (parents_shard_path path k k') by auto.
Qed.

(** The shards whose locations are all free and above which no regular file
    stands, on data that holds a chunk of the planned size for each with
    entries that can be written, end without an exception. *)
Lemma for_each_shard_Ok (ks : list Z) :
  NoDup ks -> Forall (fun k => 0 <= k)%Z ks ->
  forall (chunks : list (list entry)) (fs : OS.FS) (rest : list entry),
    Forall2 (fun k es => length es = Z.to_nat (size_this_shard range q r k) /\ Forall writable es) ks chunks ->
    (forall k x, k ∈ ks -> x ∈ shard_keys path k -> fs !! x = None) ->
    (forall k x, k ∈ ks -> x ∈ OS.parents (shard_path path k) ->
                 OS.is_file fs x = false) ->
    exists fs',
      Run.for_each ks (export_shard byteorder path range q r)
        (fs, concat chunks ++ rest)
      = (Py.Ok tt, (fs', rest)).
Proof.
  intros Hnd Hpos chunks fs rest Hall. revert fs Hnd Hpos.
  induction Hall as [|k es ks chunks [Hl Hes] Hall IH];
    intros fs Hnd Hpos Hfree Hnf.
  - exists fs. reflexivity.
  - apply NoDup_cons in Hnd as [Hk Hnd]. apply Forall_cons in Hpos as [Hk0 Hpos].
    assert (forall k', k' ∈ ks -> (0 <= k')%Z) as Hpos'.
    { rewrite Forall_forall in Hpos. exact Hpos. }
    assert (forall x, x ∈ shard_keys path k -> fs !! x = None) as Hfk.
    { intros x Hx. apply (Hfree k x); [now left | exact Hx]. }
    destruct (export_shard_Ok byteorder path range q r k fs es
                (concat chunks ++ rest) Hk0)
      as (fs1 & Hrun & _ & H1par & _ & H1other); try assumption.
    { apply Hfk. in_shard_keys. }
    { intros x Hx. apply (Hnf k x); [now left | exact Hx]. }
    { rewrite Hfk; [discriminate | in_shard_keys]. }
    { rewrite Hfk; [discriminate | in_shard_keys]. }
    { rewrite Hfk; [discriminate | in_shard_keys]. }
    destruct (IH fs1 Hnd Hpos) as (fs' & Hrest).
    { intros k' x Hk' Hx. rewrite H1other.
      - apply (Hfree k' x); [now right | exact Hx].
      - intros Hx'. apply (shard_keys_disjoint path k k' x); auto.
        intros ->. contradiction.
      - intros Hp. apply (parents_not_shard_keys path k' k x); auto. }
    { intros k' x Hk' Hx. apply a_directory, H1par.
      now rewrite (parents_shard_path path k k') by auto. }
    exists fs'. cbn [Run.for_each concat]. rewrite <- app_assoc.
    change (Run.bind ?c ?f) with (c ≫= f).
    erewrite bind_Ok; [exact Hrest | exact Hrun].
Qed.

(** The shards whose locations are all free, on a source of entries that
    can be written and that holds fewer entries than the shards are to
    receive: the loop ends with the [StopIteration] of [next], the source
    used up.  The shards before the one at which the source ran out hold a
    chunk of the planned size each; that one has its directory and its three
    files, which are empty; the shards after it are not there. *)
Lemma for_each_shard_underrun (ks : list Z) :
  NoDup ks -> Forall (fun k => 0 <= k)%Z ks ->
  forall (fs : OS.FS) (data : list entry),
    Forall writable data ->
    length data
    < sum_list ((fun k => Z.to_nat (size_this_shard range q r k)) <$> ks) ->
    (forall k x, k ∈ ks -> x ∈ shard_keys path k -> fs !! x = None) ->
    (forall k x, k ∈ ks -> x ∈ OS.parents (shard_path path k) ->
                 OS.is_file fs x = false) ->
    exists (fs' : OS.FS) (done : list Z) (j : Z) (todo : list Z)
           (chunks : list (list entry)) (last : list entry),
      Run.for_each ks (export_shard byteorder path range q r) (fs, data)
      = (Py.Raise Py.StopIteration, (fs', []))
      /\ ks = done ++ j :: todo
      /\ data = concat chunks ++ last
      /\ Forall2 (fun k es =>
                    length es = Z.to_nat (size_this_shard range q r k)
                    /\ shard_holds byteorder fs' path k es) done chunks
      /\ length last < Z.to_nat (size_this_shard range q r j)
      /\ shard_holds byteorder fs' path j []
      /\ (forall k x, k ∈ todo -> x ∈ shard_keys path k -> fs' !! x = None)
      /\ (forall key v, (forall k, k ∈ ks -> key ∉ shard_keys path k) ->
                        fs !! key = Some v -> fs' !! key = Some v).
Proof.
  intros Hnd Hpos. induction ks as [|k ks IH];
    intros fs data Hfit Hlen Hfree Hnf.
  - cbn in Hlen. lia.
  - apply NoDup_cons in Hnd as [Hk Hnd]. apply Forall_cons in Hpos as [Hk0 Hpos].
    cbn [fmap list_fmap sum_list_with id] in Hlen.
    assert (forall x, x ∈ shard_keys path k -> fs !! x = None) as Hfk.
    { intros x Hx. apply (Hfree k x); [now left | exact Hx]. }
    assert (forall x, x ∈ OS.parents (shard_path path k) ->
                      OS.is_file fs x = false) as Hnk.
    { intros x Hx. apply (Hnf k x); [now left | exact Hx]. }
    assert (forall k', k' ∈ ks -> (0 <= k')%Z) as Hpos'.
    { rewrite Forall_forall in Hpos. exact Hpos. }
    assert (forall k' x, k' ∈ ks -> x ∈ shard_keys path k' ->
                         x ∉ shard_keys path k) as Hdisj.
    { intros k' x Hk' Hx Hx'.
      apply (shard_keys_disjoint path k k' x); auto.
      intros ->. contradiction. }
    cbn [Run.for_each]. change (Run.bind ?c ?f) with (c ≫= f).
    destruct (decide (length data < Z.to_nat (size_this_shard range q r k)))
      as [Hshort | Hlong].
    + destruct (export_shard_underrun byteorder path range q r k fs data Hk0)
        as (fs' & Hrun & Hh & Hmono & Hother); try assumption.
      { apply Hfk. in_shard_keys. }
      { rewrite Hfk; [discriminate | in_shard_keys]. }
      { rewrite Hfk; [discriminate | in_shard_keys]. }
      { rewrite Hfk; [discriminate | in_shard_keys]. }
      exists fs', [], k, ks, [], data.
      split; [now apply bind_Raise|].
      repeat split; try assumption; try apply Hh; try constructor.
      * intros k' x Hk' Hx. rewrite Hother.
        -- apply (Hfree k' x); [now right | exact Hx].
        -- now apply (Hdisj k').
        -- intros Hp. apply (parents_not_shard_keys path k' k x); auto.
      * intros key v Hkey Hv. apply Hmono; [|exact Hv]. apply Hkey. now left.
    + set (n := Z.to_nat (size_this_shard range q r k)) in *.
      rewrite <- (take_drop n data) in Hfit.
      apply Forall_app in Hfit as [Hfit1 Hfit2].
      destruct (export_shard_Ok byteorder path range q r k fs (take n data)
                  (drop n data) Hk0)
        as (fs1 & Hrun & Hh1 & H1par & H1mono & H1other);
        try assumption.
      { apply Hfk. in_shard_keys. }
      { rewrite Hfk; [discriminate | in_shard_keys]. }
      { rewrite Hfk; [discriminate | in_shard_keys]. }
      { rewrite Hfk; [discriminate | in_shard_keys]. }
      { rewrite length_take. unfold n. lia. }
      rewrite take_drop in Hrun.
      destruct (IH Hnd Hpos fs1 (drop n data) Hfit2)
        as (fs' & done & j & todo & chunks & last & Hrest & Eks & Edata
            & Hall & Hlast & Hhj & Htodo & Hmono).
      { rewrite length_drop. lia. }
      { intros k' x Hk' Hx. rewrite H1other.
        - apply (Hfree k' x); [now right | exact Hx].
        - now apply (Hdisj k').
        - intros Hp. apply (parents_not_shard_keys path k' k x); auto. }
      { intros k' x Hk' Hx. apply a_directory, H1par.
        now rewrite (parents_shard_path path k k') by auto. }
      assert (forall x v, x ∈ shard_keys path k ->
                          fs1 !! x = Some v -> fs' !! x = Some v) as Hkeep.
      { intros x v Hx Hv. apply Hmono; [|exact Hv].
        intros k' Hk' Hx'. exact (Hdisj k' x Hk' Hx' Hx). }
      exists fs', (k :: done), j, todo, (take n data :: chunks), last.
      split; [erewrite bind_Ok; [exact Hrest | exact Hrun]|].
      split; [now rewrite Eks|].
      split; [cbn [concat]; now rewrite <- app_assoc, <- Edata, take_drop|].
      split.
      { constructor; [|exact Hall]. split; [rewrite length_take; lia|].
        destruct Hh1 as (H1D & H1V & H1M & H1I). unfold shard_holds.
        repeat split; (apply Hkeep; [in_shard_keys | assumption]). }
      repeat split; try assumption; try apply Hhj.
      intros key v Hkey Hv. apply Hmono.
      * intros k' Hk'. apply Hkey. now right.
      * apply H1mono; [|exact Hv]. apply Hkey. now left.
Qed.

End Shards.

(** ** The plan of the shards *)

Lemma seqZ_snoc (shards : Z) :
  (1 <= shards)%Z -> seqZ 0 shards = seqZ 0 (shards - 1) ++ [(shards - 1)%Z].
Proof.
  intros H. replace shards with ((shards - 1) + 1)%Z at 1 by lia.
  rewrite seqZ_app by lia. rewrite (seqZ_cons _ 1) by lia.
  now rewrite (seqZ_nil _ (Z.pred 1)) by lia.
Qed.

Lemma last_seqZ (shards : Z) :
  (1 <= shards)%Z -> List.last (seqZ 0 shards) 0%Z = (shards - 1)%Z.
Proof. intros H. rewrite seqZ_snoc by exact H. now rewrite last_last. Qed.

Lemma size_this_shard_planned (shards size k : Z) :
  (1 <= shards)%Z ->
  size_this_shard (seqZ 0 shards) (size / shards) (size mod shards) k
  = planned shards size k.
Proof.
  intros H. unfold size_this_shard, planned. now rewrite last_seqZ.
Qed.

Lemma planned_nonneg (shards size k : Z) :
  (1 <= shards)%Z -> (0 <= size)%Z -> (0 <= planned shards size k)%Z.
Proof.
  intros Hs Hz. unfold planned.
  pose proof (Z.div_pos size shards Hz ltac:(lia)).
  pose proof (Z.mod_pos_bound size shards ltac:(lia)).
  destruct (k =? shards - 1)%Z; lia.
Qed.

(** The planned sizes add up to [size]. *)
Lemma sum_planned (shards size : Z) :
  (1 <= shards)%Z -> (0 <= size)%Z ->
  sum_list ((fun k => Z.to_nat (planned shards size k)) <$> seqZ 0 shards)
  = Z.to_nat size.
Proof.
  intros Hs Hz.
  pose proof (Z.div_pos size shards Hz ltac:(lia)) as Hq.
  pose proof (Z.mod_pos_bound size shards ltac:(lia)) as Hr.
  pose proof (Z.div_mod size shards ltac:(lia)) as Hdm.
  rewrite seqZ_snoc by exact Hs. rewrite fmap_app, sum_list_with_app.
  rewrite (sum_list_fmap_same (Z.to_nat (size / shards))).
  - rewrite length_seqZ. cbn [fmap list_fmap sum_list_with id].
    unfold planned. rewrite Z.eqb_refl. nia.
  - apply Forall_seqZ. intros k Hk. unfold planned.
    destruct (k =? shards - 1)%Z eqn:E; [lia | reflexivity].
Qed.

(** Data cut into chunks of given sizes. *)
Lemma split_chunks {A : Type} (sizes : list nat) :
  forall data : list A,
    sum_list sizes <= length data ->
    exists chunks : list (list A),
      take (sum_list sizes) data = concat chunks
      /\ Forall2 (fun n es => length es = n) sizes chunks.
Proof.
  induction sizes as [|n sizes IH]; intros data Hlen.
  - exists []. split; [now rewrite take_0 | constructor].
  - cbn [sum_list_with id] in *.
    destruct (IH (drop n data)) as (chunks & Ec & Hall).
    { rewrite length_drop. lia. }
    exists (take n data :: chunks). split.
    + cbn [concat]. rewrite <- Ec. symmetry. apply take_take_drop.
    + constructor; [|exact Hall]. rewrite length_take. lia.
Qed.

Lemma sum_lengths {A : Type} (chunks : list (list A)) :
  foldr (fun es acc => Py.len es + acc)%Z 0%Z chunks = Py.len (concat chunks).
Proof.
  induction chunks as [|es chunks IH]; [reflexivity|].
  cbn [foldr concat]. rewrite IH. unfold Py.len. rewrite length_app. lia.
Qed.

(** ** The export as a whole *)

Lemma fresh_shard_keys (fs : OS.FS) (path : string) (k : Z) (x : string) :
  fresh fs path -> (0 <= k)%Z -> x ∈ shard_keys path k -> fs !! x = None.
Proof.
  intros (_ & Hbelow & _) Hk Hx. unfold shard_keys in Hx.
  assert (OS.startswith OS.sep (Py.str k) = false) as Hrel
    by (apply startswith_contains; now apply str_no_sep).
  assert (forall f, OS.startswith OS.sep f = false ->
                    fs !! OS.join (shard_path path k) f = None) as Hfile.
  { intros f Hf. destruct (shard_file_form path k f Hk Hf) as [_ ->].
    apply Hbelow. destruct (Py.str k) as [|c r] eqn:E;
      [now apply str_nonempty in E | exact Hrel]. }
  rewrite !elem_of_cons, elem_of_nil in Hx.
  destruct Hx as [-> | [-> | [-> | [-> | []]]]].
  - now apply Hbelow.
  - now apply Hfile.
  - now apply Hfile.
  - now apply Hfile.
Qed.

Lemma fresh_no_file_above (fs : OS.FS) (path : string) (k : Z) (x : string) :
  fresh fs path -> (0 <= k)%Z -> x ∈ OS.parents (shard_path path k) ->
  OS.is_file fs x = false.
Proof.
  intros (Hpath & _ & Habove) Hk Hx.
  apply parents_shard_path_sub in Hx as [Hx | ->]; [now apply Habove | | exact Hk].
  unfold OS.is_file. now rewrite Hpath.
Qed.

Lemma Forall2_and_r {A B : Type} (P : A -> B -> Prop) (Q : B -> Prop)
    (l : list A) (k : list B) :
  Forall2 P l k -> Forall Q k -> Forall2 (fun a b => P a b /\ Q b) l k.
Proof.
  induction 1 as [|a b l k Hab Hlk IH]; intros HQ; [constructor|].
  apply Forall_cons in HQ as [Hb HQ]. constructor; auto.
Qed.

Section Dump.

Variable byteorder : Py.byteorder.

Lemma export_Ok_inv (path : string) (shards size : Z) (s s' : state)
    (u : unit) :
  export_dump_streaming byteorder path shards size s = (Py.Ok u, s') ->
  fst s !! path = None /\ shards <> 0%Z
  /\ Run.for_each (seqZ 0 shards)
       (export_shard byteorder path (seqZ 0 shards) (size / shards)
          (size mod shards)) s
     = (Py.Ok u, s').
Proof.
  unfold export_dump_streaming, path_exists, OS.exists_, floordiv, modulo.
  unfold_run. cbn [fst snd].
  destruct (fst s !! path) as [v|] eqn:E.
  - rewrite bool_decide_eq_true_2 by (now exists v). discriminate.
  - rewrite bool_decide_eq_false_2 by (intros [? ?]; discriminate).
    destruct (shards =? 0)%Z eqn:E0; [discriminate|].
    cbn. intros H. split; [reflexivity|]. split; [lia | exact H].
Qed.

Lemma export_guard_passed (path : string) (shards size : Z) (s : state) :
  fst s !! path = None -> shards <> 0%Z ->
  export_dump_streaming byteorder path shards size s
  = Run.for_each (seqZ 0 shards)
      (export_shard byteorder path (seqZ 0 shards) (size / shards)
         (size mod shards)) s.
Proof.
  intros E H0.
  unfold export_dump_streaming, path_exists, OS.exists_, floordiv, modulo.
  unfold_run. cbn [fst snd]. rewrite E.
  rewrite bool_decide_eq_false_2 by (intros [? ?]; discriminate).
  destruct (shards =? 0)%Z eqn:E0; [lia|]. reflexivity.
Qed.

(** An export that ends without an exception, whatever it started from: the
    data it pulled is one chunk a shard, in the order of the shards, and every
    shard is on disk and holds its chunk. *)
Lemma export_Ok_holds (path : string) (shards size : Z) (s s' : state)
    (u : unit) :
  export_dump_streaming byteorder path shards size s = (Py.Ok u, s') ->
  exists chunks : list (list entry),
    snd s = concat chunks ++ snd s'
    /\ Forall2 (fun k es =>
                  length es
                  = Z.to_nat (size_this_shard (seqZ 0 shards) (size / shards)
                                (size mod shards) k)
                  /\ Forall writable es
                  /\ shard_holds byteorder (fst s') path k es)
         (seqZ 0 shards) chunks
    /\ (forall key v,
          (forall k, k ∈ seqZ 0 shards -> key ∉ shard_keys path k) ->
          fst s !! key = Some v -> fst s' !! key = Some v).
Proof.
  intros H. apply export_Ok_inv in H as (_ & _ & H).
  destruct (for_each_shard_Ok_inv byteorder path _ _ _ (seqZ 0 shards)
              (NoDup_seqZ 0 shards)
              ltac:(apply Forall_seqZ; intros; lia) s s' u H)
    as (chunks & Ec & Hall & Hmono & _).
  now exists chunks.
Qed.

(** An export onto a fresh path, with at least one shard and data that holds
    [size] entries that can be written, ends without an exception, having
    pulled exactly the first [size] entries. *)
Lemma export_fresh_Ok (path : string) (shards size : Z) (fs : OS.FS)
    (data : list entry) :
  fresh fs path -> (1 <= shards)%Z -> (0 <= size <= Py.len data)%Z ->
  Forall writable (take (Z.to_nat size) data) ->
  exists fs' (chunks : list (list entry)),
    export_dump_streaming byteorder path shards size (fs, data)
    = (Py.Ok tt, (fs', drop (Z.to_nat size) data))
    /\ take (Z.to_nat size) data = concat chunks
    /\ Forall2 (fun k es =>
                  Py.len es = planned shards size k /\ Forall writable es
                  /\ shard_holds byteorder fs' path k es)
         (seqZ 0 shards) chunks
    /\ (forall key v, fs !! key = Some v -> fs' !! key = Some v).
Proof.
  intros Hfresh Hs Hz Hfit.
  pose proof (sum_planned shards size Hs ltac:(lia)) as Hsum.
  destruct (split_chunks
              ((fun k => Z.to_nat (planned shards size k)) <$> seqZ 0 shards)
              data) as (chunks0 & Ec0 & Hall0).
  { rewrite Hsum. unfold Py.len in Hz. lia. }
  rewrite Hsum in Ec0.
  apply Forall2_fmap_l in Hall0.
  assert (Forall (Forall writable) chunks0) as Hfit0.
  { rewrite Ec0 in Hfit. clear -Hfit.
    induction chunks0 as [|es chunks0 IH]; [constructor|].
    cbn [concat] in Hfit. apply Forall_app in Hfit as [H1 H2].
    constructor; auto. }
  pose proof (Forall2_and_r _ _ _ _ Hall0 Hfit0) as Hall1.
  destruct (for_each_shard_Ok byteorder path (seqZ 0 shards) (size / shards)
              (size mod shards) (seqZ 0 shards) (NoDup_seqZ 0 shards)
              ltac:(apply Forall_seqZ; intros; lia)
              chunks0 fs (drop (Z.to_nat size) data))
    as (fs' & Hrun).
  { eapply Forall2_impl; [exact Hall1|]. cbn. intros k es [Hl Hf].
    rewrite size_this_shard_planned by exact Hs. auto. }
  { intros k x Hk Hx. apply elem_of_seqZ in Hk.
    apply (fresh_shard_keys fs path k x Hfresh); [lia | exact Hx]. }
  { intros k x Hk Hx. apply elem_of_seqZ in Hk.
    apply (fresh_no_file_above fs path k x Hfresh); [lia | exact Hx]. }
  rewrite <- Ec0, take_drop in Hrun.
  rewrite <- export_guard_passed in Hrun; [|apply Hfresh | lia].
  destruct (export_Ok_holds _ _ _ _ _ _ Hrun) as (chunks & Ec & Hall & Hmono).
  cbn [fst snd] in Ec, Hall, Hmono.
  exists fs', chunks. split; [exact Hrun|]. split; [|split].
  - rewrite <- (take_drop (Z.to_nat size) data) in Ec at 1.
    now apply app_inv_tail in Ec.
  - eapply Forall2_impl; [exact Hall|]. cbn. intros k es (Hl & Hf & Hh).
    rewrite size_this_shard_planned in Hl by exact Hs.
    split; [|auto]. unfold Py.len. rewrite Hl.
    apply Z2Nat.id. apply planned_nonneg; lia.
  - intros key v Hv. apply Hmono; [|exact Hv].
    intros k Hk Hkey. apply elem_of_seqZ in Hk.
    rewrite (fresh_shard_keys fs path k key Hfresh) in Hv; [discriminate | lia | exact Hkey].
Qed.

End Dump.

(** A store with nothing in it is fresh at every path. *)
Lemma fresh_empty (path : string) : fresh ∅ path.
Proof.
  split; [apply lookup_empty|]. split; [intros; apply lookup_empty|].
  intros q _. unfold OS.is_file. now rewrite lookup_empty.
Qed.

(** An id whose characters are ASCII has an encoding. *)
Lemma ascii_scalar (s : Py.text) :
  forallb (fun c => (0 <=? c)%Z && (c <? 128)%Z) s = true ->
  Forall Py.scalar s.
Proof.
  intros H. apply Forall_forall. intros c Hc%list_elem_of_In.
  rewrite forallb_forall in H. specialize (H c Hc).
  apply andb_true_iff in H as [H1%Z.leb_le H2%Z.ltb_lt]. left. lia.
Qed.

(** ** The size of the shards (C2) *)

Lemma length_concat_sizes {A : Type} (f : Z -> nat) (ks : list Z)
    (chunks : list (list A)) :
  Forall2 (fun k es => length es = f k) ks chunks ->
  length (concat chunks) = sum_list (f <$> ks).
Proof.
  induction 1 as [|k es ks chunks Hk _ IH]; [reflexivity|].
  cbn [concat fmap list_fmap sum_list_with id]. rewrite length_app, Hk.
  now rewrite IH.
Qed.

(** C2: for all [size >= 0] and [shards >= 1], every export that ends
    without an exception has pulled its entries as one chunk a shard of
    [0 .. shards - 1], in the order of the shards; every shard is on disk
    with the entries of its chunk; every shard but the last received
    [size div shards] entries, the last one
    [size div shards + size mod shards]; and the numbers of entries of the
    shards add up to [size].  The export does end without an exception when
    the path is fresh, with no regular file above it, and the source holds
    at least [size] entries whose lengths fit the prefix and whose ids have
    an encoding, and it has then pulled the first [size] entries. *)
Theorem C2_size_distribution (byteorder : Py.byteorder) (path : string)
    (shards size : Z) :
  (1 <= shards)%Z -> (0 <= size)%Z ->
  (forall (fs fs' : OS.FS) (data data' : list entry),
      export_dump_streaming byteorder path shards size (fs, data)
      = (Py.Ok tt, (fs', data')) ->
      exists chunks : list (list entry),
        data = concat chunks ++ data'
        /\ Forall2 (fun k es =>
                      shard_holds byteorder fs' path k es
                      /\ Py.len es
                         = if (k =? shards - 1)%Z
                           then (size / shards + size mod shards)%Z
                           else (size / shards)%Z)
             (seqZ 0 shards) chunks
        /\ foldr (fun es acc => Py.len es + acc)%Z 0%Z chunks = size)
  /\ (forall (fs : OS.FS) (data : list entry),
        fresh fs path -> (size <= Py.len data)%Z ->
        Forall writable (take (Z.to_nat size) data) ->
        exists fs',
          export_dump_streaming byteorder path shards size (fs, data)
          = (Py.Ok tt, (fs', drop (Z.to_nat size) data))).
Proof.
  intros Hs Hz. split.
  - intros fs fs' data data' H.
    destruct (export_Ok_holds byteorder _ _ _ _ _ _ H)
      as (chunks & Ec & Hall & _).
    cbn [fst snd] in Ec, Hall.
    assert (Forall2 (fun k es =>
              length es = Z.to_nat (planned shards size k)
              /\ shard_holds byteorder fs' path k es)
              (seqZ 0 shards) chunks) as Hall'.
    { eapply Forall2_impl; [exact Hall|]. cbn. intros k es (Hl & _ & Hh).
      rewrite size_this_shard_planned in Hl by exact Hs. auto. }
    exists chunks. split; [exact Ec|]. split.
    + eapply Forall2_impl; [exact Hall'|]. cbn. intros k es (Hl & Hh).
      split; [exact Hh|]. unfold Py.len. rewrite Hl.
      apply Z2Nat.id. now apply planned_nonneg.
    + rewrite sum_lengths. unfold Py.len.
      rewrite (length_concat_sizes
                 (fun k => Z.to_nat (planned shards size k)) (seqZ 0 shards)).
      * rewrite sum_planned by assumption. lia.
      * eapply Forall2_impl; [exact Hall'|]. cbn. now intros k es (Hl & _).
  - intros fs data Hfresh Hle Hfit.
    destruct (export_fresh_Ok byteorder path shards size fs data Hfresh Hs
                ltac:(lia) Hfit)
      as (fs' & chunks & Hrun & _).
    now exists fs'.
Qed.

(** Five entries on two shards: two entries for shard 0, three for
    shard 1. *)
Lemma C2_size_distribution_witness :
  let e : entry :=
    (Py.u "a", [Py.F64 x00 x00 x00 x00 x00 x00 xf0 x3f], [x61]) in
  let data := [e; e; e; e; e] in
  let run := export_dump_streaming Py.little "dump" 2 5 (∅, data) in
  (1 <= 2)%Z /\ (0 <= 5)%Z
  /\ run = (Py.Ok tt, (fst (snd run), []))
  /\ exists chunks : list (list entry),
       data = concat chunks ++ []
       /\ Forall2 (fun k es =>
                     shard_holds Py.little (fst (snd run)) "dump" k es
                     /\ Py.len es = if (k =? 2 - 1)%Z then (5 / 2 + 5 mod 2)%Z
                                    else (5 / 2)%Z)
            (seqZ 0 2) chunks
       /\ foldr (fun es acc => Py.len es + acc)%Z 0%Z chunks = 5%Z.
Proof.
  intros e data run.
  assert (1 <= 2)%Z as Hs by lia.
  assert (0 <= 5)%Z as Hz by lia.
  assert (run = (Py.Ok tt, (fst (snd run), []))) as Hrun
    by (vm_compute; reflexivity).
  repeat (split; [assumption|]).
  destruct (C2_size_distribution Py.little "dump" 2 5 Hs Hz) as [Hdist _].
  exact (Hdist ∅ (fst (snd run)) data [] Hrun).
Defined.

(** ** Reading a shard back *)

Lemma collect_Ok {H A : Type} (next : generator H -> Py.result A * generator H)
    (fuel : nat) (g g' : generator H) (a : A) :
  next g = (Py.Ok a, g') ->
  collect next (S fuel) g
  = match collect next fuel g' with
    | Some (Py.Ok l) => Some (Py.Ok (a :: l))
    | other => other
    end.
Proof. intros E. cbn [collect]. now rewrite E. Qed.

Lemma collect_stop {H A : Type}
    (next : generator H -> Py.result A * generator H)
    (fuel : nat) (g g' : generator H) :
  next g = (Py.Raise Py.StopIteration, g') ->
  collect next (S fuel) g = Some (Py.Ok []).
Proof. intros E. cbn [collect]. now rewrite E. Qed.

Section Readers.

Variable byteorder : Py.byteorder.
Variable fs : OS.FS.

(** The metadata sequence on the frames of entries with metadata: the
    payloads, then what the rest of the file gives. *)
Lemma collect_metas_frames (es : list entry) (tail : Py.bytes) :
  Forall (fun e => entry_meta e <> [] /\ fits e) es ->
  forall fuel,
    collect (_metas_gen byteorder fs) (length es + fuel)
      (Suspended (metas_image byteorder es ++ tail))
    = match collect (_metas_gen byteorder fs) fuel (Suspended tail) with
      | Some (Py.Ok l) => Some (Py.Ok ((entry_meta <$> es) ++ l))
      | other => other
      end.
Proof.
  induction 1 as [|[[id_ vec] meta] es [Hne [_ Hfit]] Hes IH]; intros fuel.
  - cbn [length Nat.add metas_image flat_map app fmap list_fmap].
    destruct (collect (_metas_gen byteorder fs) fuel (Suspended tail))
      as [[l|e]|]; reflexivity.
  - unfold entry_meta in Hne, Hfit. cbn [fst snd] in Hne, Hfit.
    cbn [length Nat.add]. erewrite collect_Ok.
    2:{ cbn [_metas_gen metas_image flat_map meta_frame].
        rewrite <- !app_assoc. now apply metas_loop_frame. }
    fold (metas_image byteorder es). rewrite IH.
    destruct (collect (_metas_gen byteorder fs) fuel (Suspended tail))
      as [[l|e]|]; reflexivity.
Qed.

Lemma collect_vecs_frames (es : list entry) (tail : Py.bytes) :
  Forall (fun e => entry_vec e <> [] /\ fits e) es ->
  forall fuel,
    collect (_vecs_gen byteorder fs) (length es + fuel)
      (Suspended (vectors_image byteorder es ++ tail))
    = match collect (_vecs_gen byteorder fs) fuel (Suspended tail) with
      | Some (Py.Ok l) => Some (Py.Ok ((entry_vec <$> es) ++ l))
      | other => other
      end.
Proof.
  induction 1 as [|[[id_ vec] meta] es [Hne [Hfit _]] Hes IH]; intros fuel.
  - cbn [length Nat.add vectors_image flat_map app fmap list_fmap].
    destruct (collect (_vecs_gen byteorder fs) fuel (Suspended tail))
      as [[l|e]|]; reflexivity.
  - unfold entry_vec in Hne, Hfit. cbn [fst snd] in Hne, Hfit.
    cbn [length Nat.add]. erewrite collect_Ok.
    2:{ cbn [_vecs_gen vectors_image flat_map vec_frame].
        rewrite <- !app_assoc. now apply vecs_loop_frame. }
    fold (vectors_image byteorder es). rewrite IH.
    destruct (collect (_vecs_gen byteorder fs) fuel (Suspended tail))
      as [[l|e]|]; reflexivity.
Qed.

End Readers.

(** ** Reading the ids back *)

(** The text of the ids file of the entries [es]. *)
Lemma decode_ids_image (es : list entry) :
  Forall writable es ->
  Py.utf8_decode (ids_image es) = Py.Ok (flat_map id_line es).
Proof.
  induction 1 as [|e es [_ He] Hes IH]; [reflexivity|].
  unfold ids_image in *. cbn [flat_map].
  rewrite (utf8_decode_encode (id_line e) (encoded (id_line e)));
    [now rewrite IH|].
  apply encoded_spec. now apply id_line_scalar.
Qed.

Lemma has_app (c : Z) (a b : Py.text) :
  Py.has c (a ++ b) = Py.has c a || Py.has c b.
Proof. apply existsb_app. Qed.

Lemma has_cons (c x : Z) (s : Py.text) :
  Py.has c (x :: s) = (c =? x)%Z || Py.has c s.
Proof. reflexivity. Qed.

Lemma universal_newlines_plain (s : Py.text) :
  Py.has Py.CR s = false -> OS.universal_newlines s = s.
Proof.
  induction s as [|c s IH]; [reflexivity|].
  rewrite has_cons. cbn [OS.universal_newlines].
  intros [Hc Hs]%orb_false_elim. rewrite Z.eqb_sym in Hc. rewrite Hc.
  now rewrite IH.
Qed.

Lemma ids_text_no_CR (es : list entry) :
  Forall (fun e => no_line_break (entry_id e)) es ->
  Py.has Py.CR (flat_map id_line es) = false.
Proof.
  induction 1 as [|[[id_ vec] meta] es (_ & Hcr) Hes IH]; [reflexivity|].
  cbn [flat_map id_line]. unfold entry_id in Hcr. cbn [fst] in Hcr.
  rewrite !has_app, Hcr, IH. reflexivity.
Qed.

Lemma readline_line (id_ rest : Py.text) :
  Py.has Py.LF id_ = false ->
  OS.readline (id_ ++ Py.LF :: rest) = (id_ ++ [Py.LF], rest).
Proof.
  induction id_ as [|c s IH]; intros H.
  - reflexivity.
  - rewrite has_cons in H. apply orb_false_elim in H as [Hc Hs].
    rewrite Z.eqb_sym in Hc. cbn [app OS.readline]. rewrite Hc.
    now rewrite IH.
Qed.

Lemma rstrip_plain (s : Py.text) : Py.space_last s = false -> Py.rstrip s = s.
Proof.
  induction s as [|c s IH]; [reflexivity|]. cbn [Py.space_last Py.rstrip].
  destruct s as [|d s].
  - intros ->. reflexivity.
  - intros H. now rewrite (IH H).
Qed.

Lemma rstrip_newline (s : Py.text) :
  Py.rstrip (s ++ [Py.LF]) = Py.rstrip s.
Proof.
  induction s as [|c s IH]; [reflexivity|].
  cbn [app Py.rstrip]. now rewrite IH.
Qed.

(** A plain id comes back from its line. *)
Lemma strip_line (id_ : Py.text) :
  Py.space_first id_ = false -> Py.space_last id_ = false ->
  Py.strip (id_ ++ [Py.LF]) = id_.
Proof.
  intros Hf Hl. unfold Py.strip. destruct id_ as [|c s]; [reflexivity|].
  cbn [Py.space_first] in Hf. cbn [app Py.lstrip].
  rewrite Hf. change (c :: s ++ [Py.LF]) with ((c :: s) ++ [Py.LF]).
  rewrite rstrip_newline. now apply rstrip_plain.
Qed.

Lemma collect_ids_lines (fs : OS.FS) (es : list entry) :
  Forall (fun e => plain_id (entry_id e)) es ->
  forall fuel,
    collect (_ids_gen fs) (length es + S fuel)
      (Suspended (flat_map id_line es))
    = Some (Py.Ok (entry_id <$> es)).
Proof.
  induction 1 as [|[[id_ vec] meta] es (Hf & Hl & Hlf & _) Hes IH];
    intros fuel.
  - reflexivity.
  - unfold entry_id in Hf, Hl, Hlf. cbn [fst] in Hf, Hl, Hlf.
    cbn [length Nat.add]. erewrite collect_Ok; [rewrite IH; reflexivity|].
    cbn [_ids_gen flat_map id_line]. unfold ids_loop.
    rewrite <- app_assoc. cbn [app].
    rewrite readline_line by exact Hlf. rewrite strip_line by assumption.
    destruct id_; reflexivity.
Qed.

(** A generator that is not started behaves as one suspended at the
    beginning of its file. *)
Lemma collect_same_first {H A : Type}
    (next : generator H -> Py.result A * generator H)
    (fuel : nat) (g1 g2 : generator H) :
  next g1 = next g2 -> collect next fuel g1 = collect next fuel g2.
Proof. intros E. destruct fuel; [reflexivity|]. cbn [collect]. now rewrite E. Qed.

(** The ids generator of a shard that holds [es] starts on the lines of
    [es]. *)
Lemma ids_gen_shard (byteorder : Py.byteorder) (fs : OS.FS) (path : string)
    (k : Z) (es : list entry) :
  shard_holds byteorder fs path k es -> Forall writable es ->
  Forall (fun e => no_line_break (entry_id e)) es ->
  _ids_gen fs (Unstarted (shard_path path k))
  = _ids_gen fs (Suspended (flat_map id_line es)).
Proof.
  intros (_ & _ & _ & HI) Hw Hnl.
  rewrite (ids_gen_unstarted fs _ _ _ HI (decode_ids_image es Hw)).
  now rewrite universal_newlines_plain by now apply ids_text_no_CR.
Qed.

(** A shard that is on disk with storable entries gives them back. *)
Lemma read_shard (byteorder : Py.byteorder) (fs : OS.FS) (path : string)
    (k : Z) (es : list entry) (fuel : nat) :
  shard_holds byteorder fs path k es -> Forall storable es ->
  length es < fuel ->
  collect (_ids_gen fs) fuel (fst (import_vectors path (Py.str k)))
  = Some (Py.Ok (entry_id <$> es))
  /\ collect (_vecs_gen byteorder fs) fuel (snd (import_vectors path (Py.str k)))
     = Some (Py.Ok (entry_vec <$> es))
  /\ collect (_ids_gen fs) fuel (fst (import_metas path (Py.str k)))
     = Some (Py.Ok (entry_id <$> es))
  /\ collect (_metas_gen byteorder fs) fuel (snd (import_metas path (Py.str k)))
     = Some (Py.Ok (entry_meta <$> es)).
Proof.
  intros Hh Hes Hfuel. pose proof Hh as (_ & HV & HM & HI).
  replace fuel with (length es + S (fuel - length es - 1)) by lia.
  assert (Forall (fun e => plain_id (entry_id e)) es) as Hids
    by (eapply Forall_impl; [exact Hes | now intros e (? & _)]).
  assert (Forall writable es) as Hw
    by (eapply Forall_impl; [exact Hes | now intros e (_ & _ & _ & ?)]).
  assert (collect (_ids_gen fs) (length es + S (fuel - length es - 1))
            (Unstarted (shard_path path k))
          = Some (Py.Ok (entry_id <$> es))) as Hi.
  { erewrite collect_same_first.
    - now apply collect_ids_lines.
    - apply (ids_gen_shard byteorder); [exact Hh | exact Hw |].
      eapply Forall_impl; [exact Hids | now intros e (_ & _ & ?)]. }
  cbn [import_vectors import_metas fst snd].
  change (OS.join path (Py.str k)) with (shard_path path k).
  repeat split; try exact Hi.
  - erewrite collect_same_first; [|apply vecs_gen_unstarted; exact HV].
    rewrite <- (app_nil_r (vectors_image byteorder es)).
    rewrite collect_vecs_frames.
    + cbn [collect _vecs_gen]. rewrite vecs_loop_nil. now rewrite app_nil_r.
    + eapply Forall_impl; [exact Hes | now intros e (_ & ? & _ & ? & _)].
  - erewrite collect_same_first; [|apply metas_gen_unstarted; exact HM].
    rewrite <- (app_nil_r (metas_image byteorder es)).
    rewrite collect_metas_frames.
    + cbn [collect _metas_gen]. rewrite metas_loop_nil. now rewrite app_nil_r.
    + eapply Forall_impl; [exact Hes | now intros e (_ & _ & ? & ? & _)].
Qed.

Lemma concat_shards_chunks {A B : Type} (f : B -> A)
    (read : Z -> option (Py.result (list A))) (ks : list Z)
    (chunks : list (list B)) :
  Forall2 (fun k es => read k = Some (Py.Ok (f <$> es))) ks chunks ->
  concat_shards read ks = Some (Py.Ok (f <$> concat chunks)).
Proof.
  induction 1 as [|k es ks chunks Hk Hall IH]; [reflexivity|].
  cbn [concat_shards concat]. rewrite Hk, IH. now rewrite fmap_app.
Qed.

Lemma Forall_concat_chunks {A : Type} (P : A -> Prop)
    (chunks : list (list A)) :
  Forall P (concat chunks) ->
  Forall (fun es => Forall P es /\ length es <= length (concat chunks)) chunks.
Proof.
  induction chunks as [|es chunks IH]; [constructor|].
  cbn [concat]. intros [H1 H2]%Forall_app. rewrite length_app. constructor.
  - split; [exact H1 | lia].
  - eapply Forall_impl; [exact (IH H2)|]. cbn. intros x [? ?]. split; [auto | lia].
Qed.

(** Tactics for the entries of the examples: an id given by its code points
    has an encoding, an entry is storable. *)
Ltac scalar_ids :=
  first [ apply ascii_scalar; reflexivity
        | repeat (constructor; [unfold Py.scalar; lia|]); constructor ].

Ltac storable_entry :=
  repeat match goal with
         | |- storable _ => split; [|split; [|split]]
         | |- plain_id _ => repeat split; reflexivity
         | |- writable _ => split
         | |- fits _ => split; reflexivity
         | |- Forall Py.scalar _ => scalar_ids
         | |- _ <> _ => discriminate
         end.

(** ** The round trip (C1) *)

(** C1, as stated, fails: the single entry with the id " a" and empty
    metadata is exported without an exception, and the import gives the id
    "a" and no metadata at all. *)
Lemma C1_counterexample_id_and_metadata_not_reproduced :
  let data : list entry :=
    [(Py.u " a", [Py.F64 x00 x00 x00 x00 x00 x00 xf0 x3f], [])] in
  let run := export_dump_streaming Py.little "dump" 1 1 (∅, data) in
  let fs' := fst (snd run) in
  fst run = Py.Ok tt
  /\ collect (_ids_gen fs') 5 (fst (import_vectors "dump" "0"))
     = Some (Py.Ok [Py.u "a"])
  /\ collect (_metas_gen Py.little fs') 5 (snd (import_metas "dump" "0"))
     = Some (Py.Ok [])
  /\ entry_id <$> data = [Py.u " a"]
  /\ entry_meta <$> data = [[]].
Proof. repeat split; vm_compute; reflexivity. Qed.

(** C1, amended: for every [shards >= 1] and every list of entries each of
    which has an id that neither begins nor ends with whitespace and holds no
    line break and no surrogate, a vector that is not empty, metadata that
    is not empty, and lengths below 2^32 bytes, the export of the list with
    its length as [size] onto a fresh path, above which no regular file
    stands, ends without an exception having pulled all the entries, and a
    caller that then reads the shards in ascending order,
    consuming [import_vectors] and [import_metas] of each and concatenating,
    obtains the original ids, the original vectors element for element and
    the original metadata byte for byte. *)
Theorem C1_round_trip (byteorder : Py.byteorder) (path : string)
    (shards : Z) (fs : OS.FS) (data : list entry) (fuel : nat) :
  fresh fs path -> (1 <= shards)%Z -> Forall storable data ->
  length data < fuel ->
  exists fs',
    export_dump_streaming byteorder path shards (Py.len data) (fs, data)
    = (Py.Ok tt, (fs', []))
    /\ concat_shards
         (fun k => collect (_ids_gen fs') fuel
                     (fst (import_vectors path (Py.str k))))
         (seqZ 0 shards)
       = Some (Py.Ok (entry_id <$> data))
    /\ concat_shards
         (fun k => collect (_vecs_gen byteorder fs') fuel
                     (snd (import_vectors path (Py.str k))))
         (seqZ 0 shards)
       = Some (Py.Ok (entry_vec <$> data))
    /\ concat_shards
         (fun k => collect (_ids_gen fs') fuel
                     (fst (import_metas path (Py.str k))))
         (seqZ 0 shards)
       = Some (Py.Ok (entry_id <$> data))
    /\ concat_shards
         (fun k => collect (_metas_gen byteorder fs') fuel
                     (snd (import_metas path (Py.str k))))
         (seqZ 0 shards)
       = Some (Py.Ok (entry_meta <$> data)).
Proof.
  intros Hfresh Hs Hdata Hfuel.
  assert (Z.to_nat (Py.len data) = length data) as Hlen
    by (unfold Py.len; lia).
  destruct (export_fresh_Ok byteorder path shards (Py.len data) fs data
              Hfresh Hs)
    as (fs' & chunks & Hrun & Ec & Hall & _).
  { pose proof (len_range data). lia. }
  { rewrite Hlen, firstn_all.
    eapply Forall_impl; [exact Hdata | now intros e (_ & _ & _ & ?)]. }
  rewrite Hlen, firstn_all in Ec. rewrite Hlen, drop_all in Hrun.
  exists fs'. split; [exact Hrun|].
  assert (Forall2 (fun k es =>
            shard_holds byteorder fs' path k es /\ Forall storable es
            /\ length es < fuel) (seqZ 0 shards) chunks) as Hread.
  { rewrite Ec in Hdata. apply Forall_concat_chunks in Hdata.
    rewrite <- Ec in Hdata.
    pose proof (Forall2_and_r _ _ _ _ Hall Hdata) as H.
    eapply Forall2_impl; [exact H|]. cbn.
    intros k es ((_ & _ & Hh) & Hst & Hle).
    split; [exact Hh|]. split; [exact Hst | lia]. }
  rewrite Ec.
  repeat split; apply concat_shards_chunks;
    (eapply Forall2_impl; [exact Hread|]); cbn;
    intros k es (Hh & Hst & Hf);
    apply (read_shard byteorder fs' path k es fuel Hh Hst Hf).
Qed.

(** Three storable entries on two shards; the id of the second one is
    "b", e with an acute accent, and the euro sign. *)
Lemma C1_round_trip_witness :
  let e1 : entry := (Py.u "a", [Py.F64 x00 x00 x00 x00 x00 x00 xf0 x3f], [x61]) in
  let e2 : entry :=
    ([98; 0xE9; 0x20AC]%Z, [Py.F64 x00 x00 x00 x00 x00 x00 x00 x40],
     [x62; x00]) in
  let data := [e1; e2; e1] in
  fresh ∅ "dump" /\ (1 <= 2)%Z /\ Forall storable data /\ length data < 4
  /\ exists fs',
       export_dump_streaming Py.little "dump" 2 (Py.len data) (∅, data)
       = (Py.Ok tt, (fs', []))
       /\ concat_shards
            (fun k => collect (_ids_gen fs') 4
                        (fst (import_vectors "dump" (Py.str k))))
            (seqZ 0 2)
          = Some (Py.Ok [Py.u "a"; [98; 0xE9; 0x20AC]%Z; Py.u "a"])
       /\ concat_shards
            (fun k => collect (_metas_gen Py.little fs') 4
                        (snd (import_metas "dump" (Py.str k))))
            (seqZ 0 2)
          = Some (Py.Ok [[x61]; [x62; x00]; [x61]]).
Proof.
  intros e1 e2 data.
  assert (fresh ∅ "dump") as Hfresh by apply fresh_empty.
  assert (1 <= 2)%Z as Hs by lia.
  assert (Forall storable data) as Hdata by (repeat (constructor; [storable_entry|]); constructor).
  assert (length data < 4) as Hfuel by (cbn; lia).
  repeat (split; [assumption|]).
  destruct (C1_round_trip Py.little "dump" 2 ∅ data 4 Hfresh Hs Hdata Hfuel)
    as (fs' & Hrun & Hids & _ & _ & Hmetas).
  exists fs'. auto.
Defined.

(** ** Shards without entries (C5) *)

Lemma concat_nils {A : Type} (chunks : list (list A)) :
  Forall (fun es => es = []) chunks -> concat chunks = [].
Proof. induction 1 as [|es chunks -> _ IH]; [reflexivity | exact IH]. Qed.

(** C5, as stated, fails: with one entry and two shards, shard 1, whose
    index is not below [size], is not empty: it holds the entry, as the last
    shard, and the empty shard is shard 0. *)
Lemma C5_counterexample_last_shard_holds_the_entries :
  let data : list entry :=
    [(Py.u "a", [Py.F64 x00 x00 x00 x00 x00 x00 xf0 x3f], [x61])] in
  let run := export_dump_streaming Py.little "dump" 2 1 (∅, data) in
  let fs' := fst (snd run) in
  fst run = Py.Ok tt
  /\ (1 <= 1 < 2)%Z
  /\ fs' !! ids_file "dump" 1 = Some (OS.File [x61; x0a])
  /\ collect (_ids_gen fs') 5 (fst (import_vectors "dump" "1"))
     = Some (Py.Ok [Py.u "a"])
  /\ fs' !! ids_file "dump" 0 = Some (OS.File []).
Proof. repeat split; vm_compute; reflexivity || discriminate. Qed.

(** C5, amended: for every [size >= 0] and [shards > size], the export (onto
    a fresh path above which no regular file stands, with at least [size]
    entries whose lengths fit and whose ids have an encoding) creates every
    shard but the last, that is every shard of index below [shards - 1],
    with empty ids, vectors and metas files (zero bytes each, no terminator
    frame), and importing such a shard yields empty id, vector and metadata
    sequences; the last shard holds all the [size] entries. *)
Theorem C5_zero_size_shards (byteorder : Py.byteorder) (path : string)
    (shards size : Z) (fs : OS.FS) (data : list entry) :
  fresh fs path -> (0 <= size)%Z -> (size < shards)%Z ->
  (size <= Py.len data)%Z -> Forall writable (take (Z.to_nat size) data) ->
  exists fs',
    export_dump_streaming byteorder path shards size (fs, data)
    = (Py.Ok tt, (fs', drop (Z.to_nat size) data))
    /\ (forall k, (0 <= k < shards - 1)%Z ->
          fs' !! shard_path path k = Some OS.Dir
          /\ fs' !! ids_file path k = Some (OS.File [])
          /\ fs' !! vectors_file path k = Some (OS.File [])
          /\ fs' !! metas_file path k = Some (OS.File [])
          /\ forall fuel, 0 < fuel ->
               collect (_ids_gen fs') fuel
                 (fst (import_vectors path (Py.str k))) = Some (Py.Ok [])
               /\ collect (_vecs_gen byteorder fs') fuel
                    (snd (import_vectors path (Py.str k))) = Some (Py.Ok [])
               /\ collect (_ids_gen fs') fuel
                    (fst (import_metas path (Py.str k))) = Some (Py.Ok [])
               /\ collect (_metas_gen byteorder fs') fuel
                    (snd (import_metas path (Py.str k))) = Some (Py.Ok []))
    /\ shard_holds byteorder fs' path (shards - 1) (take (Z.to_nat size) data).
Proof.
  intros Hfresh Hz Hlt Hle Hfit.
  destruct (export_fresh_Ok byteorder path shards size fs data Hfresh
              ltac:(lia) ltac:(lia) Hfit)
    as (fs' & chunks & Hrun & Ec & Hall & _).
  exists fs'. split; [exact Hrun|].
  rewrite seqZ_snoc in Hall by lia.
  apply Forall2_app_inv_l in Hall as (c1 & c2 & H1 & H2 & ->).
  assert (forall (k : Z) (es : list entry),
             (0 <= k < shards - 1)%Z ->
             Py.len es = planned shards size k -> es = []) as Hnil.
  { intros k es Hk Hl. unfold planned in Hl.
    destruct (k =? shards - 1)%Z eqn:E; [lia|].
    rewrite Z.div_small in Hl by lia. unfold Py.len in Hl.
    destruct es; [reflexivity | cbn in Hl; lia]. }
  split.
  - intros k Hk.
    assert (seqZ 0 (shards - 1) !! Z.to_nat k = Some k) as Hlk.
    { apply lookup_seqZ. split; lia. }
    destruct (Forall2_lookup_l _ _ _ _ _ H1 Hlk) as (es & _ & Hl & _ & Hh).
    rewrite (Hnil k es Hk Hl) in Hh.
    pose proof Hh as (HD & HV & HM & HI). cbn in HV, HM, HI.
    repeat (split; [assumption|]).
    intros fuel Hfuel.
    apply (read_shard byteorder fs' path k [] fuel Hh); [constructor | exact Hfuel].
  - apply Forall2_cons_inv_l in H2 as (es & c3 & (_ & _ & Hh) & H3 & ->).
    apply Forall2_nil_inv_l in H3 as ->.
    assert (concat c1 = []) as Ec1.
    { apply concat_nils. clear -H1 Hnil.
      assert (forall k, k ∈ seqZ 0 (shards - 1) -> (0 <= k < shards - 1)%Z)
        as Hin by (intros k Hk%elem_of_seqZ; lia).
      induction H1 as [|k es ks c1 (Hl & _) _ IH]; constructor.
      - apply (Hnil k); [apply Hin; now left | exact Hl].
      - apply IH. intros k' Hk'. apply Hin. now right. }
    rewrite concat_app, Ec1 in Ec. cbn in Ec. rewrite app_nil_r in Ec.
    now rewrite Ec.
Qed.

(** Two entries on four shards: shards 0, 1 and 2 are empty, shard 3 holds
    both entries. *)
Lemma C5_zero_size_shards_witness :
  let e : entry := (Py.u "a", [Py.F64 x00 x00 x00 x00 x00 x00 xf0 x3f], [x61]) in
  let data := [e; e] in
  fresh ∅ "dump" /\ (0 <= 2)%Z /\ (2 < 4)%Z /\ (2 <= Py.len data)%Z
  /\ Forall writable (take (Z.to_nat 2) data)
  /\ exists fs',
       export_dump_streaming Py.little "dump" 4 2 (∅, data)
       = (Py.Ok tt, (fs', drop (Z.to_nat 2) data))
       /\ fs' !! ids_file "dump" 2 = Some (OS.File [])
       /\ collect (_vecs_gen Py.little fs') 1
            (snd (import_vectors "dump" (Py.str 2))) = Some (Py.Ok [])
       /\ shard_holds Py.little fs' "dump" (4 - 1) (take (Z.to_nat 2) data).
Proof.
  intros e data.
  assert (fresh ∅ "dump") as Hfresh by apply fresh_empty.
  assert (0 <= 2)%Z as Hz by lia.
  assert (2 < 4)%Z as Hlt by lia.
  assert (2 <= Py.len data)%Z as Hle by (vm_compute; discriminate).
  assert (Forall writable (take (Z.to_nat 2) data)) as Hfit
    by (repeat (constructor; [split; [split; reflexivity | scalar_ids]|]);
        constructor).
  repeat (split; [assumption|]).
  destruct (C5_zero_size_shards Py.little "dump" 4 2 ∅ data Hfresh Hz Hlt Hle Hfit)
    as (fs' & Hrun & Hempty & Hlast).
  exists fs'. split; [exact Hrun|].
  destruct (Hempty 2%Z ltac:(lia)) as (_ & HI & _ & _ & Hread).
  destruct (Hread 1 ltac:(lia)) as (_ & Hv & _).
  auto.
Defined.

(** ** Empty metadata (C9) *)

Lemma size_prefix_zero (byteorder : Py.byteorder) :
  size_prefix byteorder 0 = [x00; x00; x00; x00].
Proof. destruct byteorder; reflexivity. Qed.

(** C9, as stated, fails: when the entries at positions 0 and 1 of a shard
    both have empty metadata, the claim at position 1 promises exactly one
    payload, and the metadata sequence yields none. *)
Lemma C9_counterexample_earlier_empty_metadata :
  let v := [Py.F64 x00 x00 x00 x00 x00 x00 xf0 x3f] in
  let data : list entry := [(Py.u "a", v, []); (Py.u "b", v, [])] in
  let run := export_dump_streaming Py.little "dump" 1 2 (∅, data) in
  let fs' := fst (snd run) in
  fst run = Py.Ok tt
  /\ entry_meta <$> data !! 1 = Some []
  /\ collect (_metas_gen Py.little fs') 5 (snd (import_metas "dump" "0"))
     = Some (Py.Ok [])
  /\ length (entry_meta <$> take 1 data) = 1.
Proof. repeat split; vm_compute; reflexivity. Qed.

(** C9, amended: after an export that ends without an exception, for every
    shard and every position i of its entries such that the entry at i has
    zero-length metadata and no entry before i in the shard has, the metas
    file of the shard holds the frames of the first i entries, then four
    zero bytes, then the frames of the later entries, and the metadata
    sequence returned by [import_metas] for the shard ends without an
    exception after yielding exactly the metadata of the first i entries:
    the empty payload and the metadata of the later entries are never
    yielded. *)
Theorem C9_empty_metadata_ends_the_sequence (byteorder : Py.byteorder)
    (path : string) (shards size : Z) (fs fs' : OS.FS)
    (data data' : list entry) :
  export_dump_streaming byteorder path shards size (fs, data)
  = (Py.Ok tt, (fs', data')) ->
  exists chunks : list (list entry),
    data = concat chunks ++ data'
    /\ Forall2 (fun k es =>
         forall (i : nat) (e : entry),
           es !! i = Some e -> entry_meta e = [] ->
           Forall (fun e' => entry_meta e' <> []) (take i es) ->
           fs' !! metas_file path k
           = Some (OS.File (metas_image byteorder (take i es)
                            ++ [x00; x00; x00; x00]
                            ++ metas_image byteorder (drop (S i) es)))
           /\ forall fuel, i < fuel ->
                collect (_metas_gen byteorder fs') fuel
                  (snd (import_metas path (Py.str k)))
                = Some (Py.Ok (entry_meta <$> take i es)))
         (seqZ 0 shards) chunks.
Proof.
  intros H.
  destruct (export_Ok_holds byteorder _ _ _ _ _ _ H) as (chunks & Ec & Hall & _).
  exists chunks. split; [exact Ec|].
  eapply Forall2_impl; [exact Hall|]. cbn [fst snd].
  intros k es (_ & Hfit & _ & _ & HM & _) i e Hi He Hbefore.
  assert (metas_image byteorder es
          = metas_image byteorder (take i es)
            ++ [x00; x00; x00; x00]
            ++ metas_image byteorder (drop (S i) es)) as Eimg.
  { rewrite <- (take_drop_middle es i e Hi) at 1.
    unfold metas_image. rewrite flat_map_app. cbn [flat_map]. f_equal.
    destruct e as [[id_ vec] meta]. unfold entry_meta in He. cbn [snd] in He.
    subst meta. cbn [meta_frame]. change (Py.len []) with 0%Z.
    now rewrite size_prefix_zero. }
  rewrite Eimg in HM. split; [exact HM|].
  intros fuel Hfuel.
  cbn [import_metas snd].
  change (OS.join path (Py.str k)) with (shard_path path k).
  erewrite collect_same_first; [|apply metas_gen_unstarted; exact HM].
  assert (length (take i es) = i) as Hlen.
  { rewrite length_take. apply lookup_lt_Some in Hi. lia. }
  replace fuel with (length (take i es) + S (fuel - i - 1)) by lia.
  rewrite collect_metas_frames.
  - erewrite collect_stop; [now rewrite app_nil_r|].
    cbn [_metas_gen]. rewrite <- (size_prefix_zero byteorder).
    apply metas_loop_zero.
  - apply Forall_and. split; [exact Hbefore|]. apply Forall_take.
    eapply Forall_impl; [exact Hfit | now intros e' [? _]].
Qed.

(** One shard of three entries, the second of which has empty metadata. *)
Lemma C9_empty_metadata_ends_the_sequence_witness :
  let v := [Py.F64 x00 x00 x00 x00 x00 x00 xf0 x3f] in
  let data : list entry := [(Py.u "a", v, [x61]); (Py.u "b", v, []); (Py.u "c", v, [x63])] in
  let run := export_dump_streaming Py.little "dump" 1 3 (∅, data) in
  run = (Py.Ok tt, (fst (snd run), []))
  /\ exists chunks : list (list entry),
       data = concat chunks ++ []
       /\ Forall2 (fun k es =>
            forall (i : nat) (e : entry),
              es !! i = Some e -> entry_meta e = [] ->
              Forall (fun e' => entry_meta e' <> []) (take i es) ->
              fst (snd run) !! metas_file "dump" k
              = Some (OS.File (metas_image Py.little (take i es)
                               ++ [x00; x00; x00; x00]
                               ++ metas_image Py.little (drop (S i) es)))
              /\ forall fuel, i < fuel ->
                   collect (_metas_gen Py.little (fst (snd run))) fuel
                     (snd (import_metas "dump" (Py.str k)))
                   = Some (Py.Ok (entry_meta <$> take i es)))
            (seqZ 0 1) chunks.
Proof.
  intros v data run.
  assert (run = (Py.Ok tt, (fst (snd run), []))) as Hrun
    by (vm_compute; reflexivity).
  split; [exact Hrun|].
  exact (C9_empty_metadata_ends_the_sequence Py.little "dump" 1 3 ∅
           (fst (snd run)) data [] Hrun).
Defined.

(** ** The three files of a shard (C8) *)

(** The lines of the ids file of entries whose ids hold no line break: one
    line an entry. *)
Lemma readlines_ids (es : list entry) :
  Forall (fun e => no_line_break (entry_id e)) es ->
  forall fuel,
    length (flat_map id_line es) <= fuel ->
    OS.readlines_upto fuel (flat_map id_line es) = id_line <$> es.
Proof.
  induction 1 as [|[[id_ vec] meta] es (Hlf & _) Hes IH]; intros fuel Hfuel.
  - destruct fuel; reflexivity.
  - unfold entry_id in Hlf. cbn [fst] in Hlf.
    cbn [flat_map id_line] in *. rewrite <- app_assoc in *.
    cbn [app] in *. rewrite length_app in Hfuel. cbn [length] in Hfuel.
    destruct fuel as [|fuel]; [lia|].
    cbn [OS.readlines_upto]. rewrite readline_line by exact Hlf.
    rewrite IH by lia. cbn [fmap list_fmap id_line].
    destruct (id_ ++ Py.LF :: flat_map id_line es) eqn:E; [|reflexivity].
    destruct id_; discriminate.
Qed.

(** C8, as stated, fails: the single entry with the id "a", a line break,
    "b" is exported without an exception into an ids file of two lines next
    to a vectors file and a metas file of one frame each; the id sequence of
    the shard yields two ids, the vector and metadata sequences one element
    each. *)
Lemma C8_counterexample_id_with_line_break :
  let vec := [Py.F64 x00 x00 x00 x00 x00 x00 xf0 x3f] in
  let id_ := [97; 10; 98]%Z in
  let data : list entry := [(id_, vec, [x61])] in
  let run := export_dump_streaming Py.little "dump" 1 1 (∅, data) in
  let fs' := fst (snd run) in
  fst run = Py.Ok tt
  /\ OS.open_r fs' (ids_file "dump" 0) = Py.Ok [97; 10; 98; 10]%Z
  /\ length (OS.readlines [97; 10; 98; 10]%Z) = 2
  /\ fs' !! vectors_file "dump" 0
     = Some (OS.File (vec_frame Py.little (id_, vec, [x61])))
  /\ fs' !! metas_file "dump" 0
     = Some (OS.File (meta_frame Py.little (id_, vec, [x61])))
  /\ collect (_ids_gen fs') 5 (fst (import_vectors "dump" "0"))
     = Some (Py.Ok [Py.u "a"; Py.u "b"])
  /\ collect (_vecs_gen Py.little fs') 5 (snd (import_vectors "dump" "0"))
     = Some (Py.Ok [vec])
  /\ collect (_metas_gen Py.little fs') 5 (snd (import_metas "dump" "0"))
     = Some (Py.Ok [[x61]]).
Proof. repeat split; vm_compute; reflexivity. Qed.

(** C8, amended: after every export that ends without an exception, the
    entries pulled from the source are one chunk a shard, in the order of
    the shards, and for every shard the vectors file is the concatenation of
    the vector frames, the metas file of the metadata frames and the ids
    file of the encoded id lines of the entries of its chunk, in their
    order.  When no id of the chunk holds a line break and no vector and no
    metadata of the chunk is empty, the three files hold the same number of
    records, the number of entries of the chunk, and the records at the same
    position come from the same entry, the one pulled at that position for
    the shard: the lines of the ids file are the id lines of the entries,
    one an entry, and the frames that the vector and the metadata sequences
    read from the two other files are the vectors and the metadata of the
    entries, one an entry. *)
Theorem C8_parallel_files (byteorder : Py.byteorder) (path : string)
    (shards size : Z) (fs fs' : OS.FS) (data data' : list entry) :
  export_dump_streaming byteorder path shards size (fs, data)
  = (Py.Ok tt, (fs', data')) ->
  exists chunks : list (list entry),
    data = concat chunks ++ data'
    /\ Forall2 (fun k es =>
         Forall writable es
         /\ fs' !! vectors_file path k
            = Some (OS.File (concat (vec_frame byteorder <$> es)))
         /\ fs' !! metas_file path k
            = Some (OS.File (concat (meta_frame byteorder <$> es)))
         /\ fs' !! ids_file path k
            = Some (OS.File (concat ((fun e => encoded (id_line e)) <$> es)))
         /\ (Forall (fun e => no_line_break (entry_id e)
                              /\ entry_vec e <> [] /\ entry_meta e <> []) es ->
             (exists ids_fh,
                 OS.open_r fs' (ids_file path k) = Py.Ok ids_fh
                 /\ OS.readlines ids_fh = id_line <$> es
                 /\ length (OS.readlines ids_fh) = length es)
             /\ forall fuel, length es < fuel ->
                  exists vecs metas,
                    collect (_vecs_gen byteorder fs') fuel
                      (snd (import_vectors path (Py.str k)))
                    = Some (Py.Ok vecs)
                    /\ collect (_metas_gen byteorder fs') fuel
                         (snd (import_metas path (Py.str k)))
                       = Some (Py.Ok metas)
                    /\ vecs = entry_vec <$> es /\ metas = entry_meta <$> es
                    /\ length vecs = length es
                    /\ length metas = length es))
         (seqZ 0 shards) chunks.
Proof.
  intros H.
  destruct (export_Ok_holds byteorder _ _ _ _ _ _ H) as (chunks & Ec & Hall & _).
  exists chunks. split; [exact Ec|].
  eapply Forall2_impl; [exact Hall|]. cbn [fst snd].
  intros k es (_ & Hw & Hh). pose proof Hh as (_ & HV & HM & HI).
  split; [exact Hw|].
  unfold vectors_image, metas_image, ids_image in HV, HM, HI.
  rewrite !flat_map_concat_map in HV, HM, HI.
  repeat (split; [assumption|]).
  intros Hes. split.
  - unfold OS.open_r, OS.open_rb.
    destruct Hh as (_ & _ & _ & ->). rewrite decode_ids_image by exact Hw.
    assert (Forall (fun e => no_line_break (entry_id e)) es) as Hnl
      by (eapply Forall_impl; [exact Hes | now intros e (? & _)]).
    rewrite universal_newlines_plain by now apply ids_text_no_CR.
    eexists. split; [reflexivity|]. unfold OS.readlines.
    rewrite readlines_ids by (exact Hnl || lia).
    split; [reflexivity | apply length_fmap].
  - intros fuel Hfuel. exists (entry_vec <$> es), (entry_meta <$> es).
    destruct Hh as (_ & HV' & HM' & _).
    cbn [import_vectors import_metas snd].
    change (OS.join path (Py.str k)) with (shard_path path k).
    replace fuel with (length es + S (fuel - length es - 1)) by lia.
    rewrite !length_fmap. repeat split.
    + erewrite collect_same_first; [|apply vecs_gen_unstarted; exact HV'].
      rewrite <- (app_nil_r (vectors_image byteorder es)).
      rewrite collect_vecs_frames.
      * cbn [collect _vecs_gen]. rewrite vecs_loop_nil. now rewrite app_nil_r.
      * apply Forall_and. split.
        -- eapply Forall_impl; [exact Hes | now intros e (_ & ? & _)].
        -- eapply Forall_impl; [exact Hw | now intros e [? _]].
    + erewrite collect_same_first; [|apply metas_gen_unstarted; exact HM'].
      rewrite <- (app_nil_r (metas_image byteorder es)).
      rewrite collect_metas_frames.
      * cbn [collect _metas_gen]. rewrite metas_loop_nil. now rewrite app_nil_r.
      * apply Forall_and. split.
        -- eapply Forall_impl; [exact Hes | now intros e (_ & _ & ?)].
        -- eapply Forall_impl; [exact Hw | now intros e [? _]].
Qed.

(** Three entries on two shards. *)
Lemma C8_parallel_files_witness :
  let e1 : entry :=
    (Py.u "a", [Py.F64 x00 x00 x00 x00 x00 x00 xf0 x3f], [x61]) in
  let e2 : entry :=
    ([0xE9]%Z, [Py.F64 x00 x00 x00 x00 x00 x00 x00 x40], [x62; x63]) in
  let data := [e1; e2; e1] in
  let run := export_dump_streaming Py.little "dump" 2 3 (∅, data) in
  run = (Py.Ok tt, (fst (snd run), []))
  /\ exists chunks : list (list entry),
       data = concat chunks ++ []
       /\ Forall2 (fun k es =>
            Forall writable es
            /\ fst (snd run) !! vectors_file "dump" k
               = Some (OS.File (concat (vec_frame Py.little <$> es)))
            /\ fst (snd run) !! metas_file "dump" k
               = Some (OS.File (concat (meta_frame Py.little <$> es)))
            /\ fst (snd run) !! ids_file "dump" k
               = Some (OS.File
                    (concat ((fun e => encoded (id_line e)) <$> es)))
            /\ (Forall (fun e => no_line_break (entry_id e)
                                 /\ entry_vec e <> [] /\ entry_meta e <> [])
                  es ->
                (exists ids_fh,
                    OS.open_r (fst (snd run)) (ids_file "dump" k)
                    = Py.Ok ids_fh
                    /\ OS.readlines ids_fh = id_line <$> es
                    /\ length (OS.readlines ids_fh) = length es)
                /\ forall fuel, length es < fuel ->
                     exists vecs metas,
                       collect (_vecs_gen Py.little (fst (snd run))) fuel
                         (snd (import_vectors "dump" (Py.str k)))
                       = Some (Py.Ok vecs)
                       /\ collect (_metas_gen Py.little (fst (snd run))) fuel
                            (snd (import_metas "dump" (Py.str k)))
                          = Some (Py.Ok metas)
                       /\ vecs = entry_vec <$> es
                       /\ metas = entry_meta <$> es
                       /\ length vecs = length es
                       /\ length metas = length es))
            (seqZ 0 2) chunks.
Proof.
  intros e1 e2 data run.
  assert (run = (Py.Ok tt, (fst (snd run), []))) as Hrun
    by (vm_compute; reflexivity).
  split; [exact Hrun|].
  exact (C8_parallel_files Py.little "dump" 2 3 ∅ (fst (snd run)) data [] Hrun).
Defined.

(** ** Further properties of the export *)

(** With [shards = 0] and nothing at [path], the export raises
    [ZeroDivisionError] at the division by [shards], before it creates
    anything or pulls an entry. *)
Theorem export_zero_shards_raises (byteorder : Py.byteorder) (path : string)
    (size : Z) (fs : OS.FS) (data : list entry) :
  fs !! path = None ->
  export_dump_streaming byteorder path 0 size (fs, data)
  = (Py.Raise Py.ZeroDivisionError, (fs, data)).
Proof.
  intros E. unfold export_dump_streaming, path_exists, OS.exists_, floordiv.
  unfold_run. cbn [fst snd]. rewrite E.
  now rewrite bool_decide_eq_false_2 by (intros [? ?]; discriminate).
Qed.

Lemma export_zero_shards_raises_witness :
  (∅ : OS.FS) !! "dump" = None
  /\ export_dump_streaming Py.little "dump" 0 3 (∅, [])
     = (Py.Raise Py.ZeroDivisionError, (∅, [])).
Proof.
  assert ((∅ : OS.FS) !! "dump" = None) as E by apply lookup_empty.
  split; [exact E|].
  exact (export_zero_shards_raises Py.little "dump" 3 ∅ [] E).
Defined.

(** When the source holds fewer than [size] entries, the export does not
    end normally: it raises an exception. *)
Theorem export_source_underrun_raises (byteorder : Py.byteorder)
    (path : string) (shards size : Z) (fs : OS.FS) (data : list entry) :
  (1 <= shards)%Z -> (Py.len data < size)%Z ->
  exists e s',
    export_dump_streaming byteorder path shards size (fs, data)
    = (Py.Raise e, s').
Proof.
  intros Hs Hshort.
  destruct (export_dump_streaming byteorder path shards size (fs, data))
    as [[[]|e] s'] eqn:E; [exfalso | now exists e, s'].
  destruct (export_Ok_holds byteorder _ _ _ _ _ _ E) as (chunks & Ec & Hall & _).
  cbn [fst snd] in Ec, Hall.
  assert (length (concat chunks) = Z.to_nat size) as Hlen.
  { rewrite (length_concat_sizes
               (fun k => Z.to_nat (planned shards size k)) (seqZ 0 shards)).
    - apply sum_planned; [exact Hs|]. pose proof (len_range data). lia.
    - eapply Forall2_impl; [exact Hall|]. cbn. intros k es (Hl & _).
      now rewrite size_this_shard_planned in Hl. }
  apply (f_equal (@length _)) in Ec. rewrite length_app, Hlen in Ec.
  unfold Py.len in Hshort. lia.
Qed.

Lemma export_source_underrun_raises_witness :
  let data : list entry :=
    [(Py.u "a", [Py.F64 x00 x00 x00 x00 x00 x00 xf0 x3f], [x61])] in
  (1 <= 1)%Z /\ (Py.len data < 2)%Z
  /\ exists e s',
       export_dump_streaming Py.little "dump" 1 2 (∅, data) = (Py.Raise e, s').
Proof.
  intros data.
  assert (1 <= 1)%Z as Hs by lia.
  assert (Py.len data < 2)%Z as Hshort by (vm_compute; reflexivity).
  repeat (split; [assumption|]).
  exact (export_source_underrun_raises Py.little "dump" 1 2 ∅ data Hs Hshort).
Defined.

(** An export that ends without an exception keeps whatever existed
    outside the locations of its shards as it was. *)
Theorem export_keeps_other_locations (byteorder : Py.byteorder)
    (path : string) (shards size : Z) (fs fs' : OS.FS)
    (data data' : list entry) (key : string) (v : OS.node) :
  export_dump_streaming byteorder path shards size (fs, data)
  = (Py.Ok tt, (fs', data')) ->
  (forall k, (0 <= k < shards)%Z -> key ∉ shard_keys path k) ->
  fs !! key = Some v -> fs' !! key = Some v.
Proof.
  intros H Hkey Hv.
  destruct (export_Ok_holds byteorder _ _ _ _ _ _ H) as (_ & _ & _ & Hmono).
  apply Hmono; [|exact Hv]. intros k Hk%elem_of_seqZ. apply Hkey. lia.
Qed.

Lemma export_keeps_other_locations_witness :
  let fs : OS.FS := <["notes" := OS.File [x61]]> ∅ in
  let data : list entry :=
    [(Py.u "a", [Py.F64 x00 x00 x00 x00 x00 x00 xf0 x3f], [x61])] in
  let run := export_dump_streaming Py.little "dump" 1 1 (fs, data) in
  run = (Py.Ok tt, (fst (snd run), []))
  /\ fs !! "notes" = Some (OS.File [x61])
  /\ fst (snd run) !! "notes" = Some (OS.File [x61]).
Proof.
  intros fs data run.
  assert (run = (Py.Ok tt, (fst (snd run), []))) as Hrun
    by (vm_compute; reflexivity).
  assert (fs !! "notes" = Some (OS.File [x61])) as Hv by reflexivity.
  repeat (split; [assumption|]).
  apply (export_keeps_other_locations Py.little "dump" 1 1 fs (fst (snd run))
           data [] "notes" (OS.File [x61]) Hrun); [|exact Hv].
  intros k Hk. assert (k = 0%Z) as -> by lia.
  vm_compute. intros Hin.
  repeat (apply elem_of_cons in Hin as [Hin | Hin]; [discriminate|]).
  now apply elem_of_nil in Hin.
Defined.

(** ** Further edge cases of the export *)

(** With a negative [shards] and nothing at [path], the export returns
    without an exception and without any effect: the range of shards is
    empty, so that nothing is created, not even [path], and no entry is
    pulled. *)
Theorem export_negative_shards_does_nothing (byteorder : Py.byteorder)
    (path : string) (shards size : Z) (fs : OS.FS) (data : list entry) :
  (shards < 0)%Z -> fs !! path = None ->
  export_dump_streaming byteorder path shards size (fs, data)
  = (Py.Ok tt, (fs, data)).
Proof.
  intros Hs E. rewrite export_guard_passed by (cbn [fst]; (exact E || lia)).
  now rewrite seqZ_nil by lia.
Qed.

Lemma export_negative_shards_does_nothing_witness :
  let data : list entry :=
    [(Py.u "a", [Py.F64 x00 x00 x00 x00 x00 x00 xf0 x3f], [x61])] in
  (-2 < 0)%Z /\ (∅ : OS.FS) !! "dump" = None
  /\ export_dump_streaming Py.little "dump" (-2) 1 (∅, data)
     = (Py.Ok tt, (∅, data)).
Proof.
  intros data.
  assert (-2 < 0)%Z as Hs by lia.
  assert ((∅ : OS.FS) !! "dump" = None) as E by apply lookup_empty.
  repeat (split; [assumption|]).
  exact (export_negative_shards_does_nothing Py.little "dump" (-2) 1 ∅ data
           Hs E).
Defined.

Section Again.

Variable byteorder : Py.byteorder.

(** Where the directory of shard 0 exists, an export of zero or more shards
    raises before it changes anything: at the guard, at the division, or at
    [os.makedirs] for shard 0. *)
Lemma export_onto_shard_0 (path : string) (shards size : Z) (s : state) :
  is_Some (fst s !! shard_path path 0) -> (0 <= shards)%Z ->
  exists e,
    export_dump_streaming byteorder path shards size s = (Py.Raise e, s).
Proof.
  intros [v Hv] Hs.
  destruct (fst s !! path) as [w|] eqn:E.
  - eexists. unfold export_dump_streaming, path_exists, OS.exists_.
    unfold_run. cbn [fst snd]. rewrite E.
    rewrite bool_decide_eq_true_2 by (now exists w). reflexivity.
  - destruct (decide (shards = 0%Z)) as [-> | Hne].
    + exists Py.ZeroDivisionError.
      unfold export_dump_streaming, path_exists, OS.exists_, floordiv.
      unfold_run. cbn [fst snd]. rewrite E.
      now rewrite bool_decide_eq_false_2 by (intros [? ?]; discriminate).
    + exists Py.FileExistsError.
      rewrite export_guard_passed by assumption.
      rewrite seqZ_cons by lia. cbn [Run.for_each].
      change (Run.bind ?c ?f) with (c ≫= f).
      apply bind_Raise. unfold export_shard. apply bind_Raise.
      change (OS.join path (Py.str 0)) with (shard_path path 0).
      unfold lift_fs, OS.makedirs. now rewrite Hv.
Qed.

End Again.

(** After an export of at least one shard that ended without an exception,
    every further export of zero or more shards to the same path raises,
    whatever its size and its source, and it changes neither the file
    system nor the source. *)
Theorem export_again_raises (byteorder : Py.byteorder) (path : string)
    (shards size shards2 size2 : Z) (fs fs' : OS.FS)
    (data data' data2 : list entry) :
  export_dump_streaming byteorder path shards size (fs, data)
  = (Py.Ok tt, (fs', data')) ->
  (1 <= shards)%Z -> (0 <= shards2)%Z ->
  exists e,
    export_dump_streaming byteorder path shards2 size2 (fs', data2)
    = (Py.Raise e, (fs', data2)).
Proof.
  intros H Hs Hs2.
  destruct (export_Ok_holds byteorder _ _ _ _ _ _ H) as (chunks & _ & Hall & _).
  rewrite seqZ_cons in Hall by lia.
  apply Forall2_cons_inv_l in Hall as (es & chunks' & (_ & _ & HD & _) & _).
  cbn [fst] in HD.
  apply export_onto_shard_0; [|exact Hs2]. cbn [fst]. now rewrite HD.
Qed.

Lemma export_again_raises_witness :
  let data : list entry :=
    [(Py.u "a", [Py.F64 x00 x00 x00 x00 x00 x00 xf0 x3f], [x61])] in
  let run := export_dump_streaming Py.little "dump" 1 1 (∅, data) in
  run = (Py.Ok tt, (fst (snd run), []))
  /\ (1 <= 1)%Z /\ (0 <= 2)%Z
  /\ exists e,
       export_dump_streaming Py.little "dump" 2 1 (fst (snd run), data)
       = (Py.Raise e, (fst (snd run), data)).
Proof.
  intros data run.
  assert (run = (Py.Ok tt, (fst (snd run), []))) as Hrun
    by (vm_compute; reflexivity).
  assert (1 <= 1)%Z as Hs by lia.
  assert (0 <= 2)%Z as Hs2 by lia.
  repeat (split; [assumption|]).
  exact (export_again_raises Py.little "dump" 1 1 2 1 ∅ (fst (snd run))
           data [] data Hrun Hs Hs2).
Defined.

(** ** A path below a regular file *)

(** Where "notes" is a regular file, the export to "notes/dump" passes the
    guard, as nothing exists at that path, and raises at [os.makedirs] for
    shard 0, with nothing created and no entry pulled; an id with a
    surrogate makes the export raise at the write of the id, with the
    shard directory and its three files made, and the entry pulled. *)
Lemma export_below_a_file_raises :
  let fs : OS.FS := <["notes" := OS.File [x61]]> ∅ in
  let v := [Py.F64 x00 x00 x00 x00 x00 x00 xf0 x3f] in
  let data : list entry := [(Py.u "a", v, [x61])] in
  let bad : list entry := [([0xD800]%Z, v, [x61])] in
  export_dump_streaming Py.little "notes/dump" 1 1 (fs, data)
  = (Py.Raise Py.NotADirectoryError, (fs, data))
  /\ fst (export_dump_streaming Py.little "dump" 1 1 (∅, bad))
     = Py.Raise Py.UnicodeEncodeError
  /\ snd (snd (export_dump_streaming Py.little "dump" 1 1 (∅, bad))) = [].
Proof. repeat split; vm_compute; reflexivity. Qed.

(** ** A source that runs out *)

(** An export onto a fresh path above which no regular file stands, with at
    least one shard, from a source that holds fewer than [size] entries, all
    with lengths that fit the prefix and ids that have an encoding: the
    export raises the [StopIteration] of [next(data)], after it has pulled
    every entry of the source.  The shards before the one at which the
    source ran out are complete and hold a chunk of the planned size each.
    The shard at which the source ran out was to receive more entries than
    were left; its directory and its three files are there, and, as the
    handles of that shard are never closed, each of the files holds no more
    than a beginning of what was written for the entries that were left.
    The shards after it have not been made, and whatever existed before is
    as it was. *)
Theorem export_source_underrun_is_StopIteration (byteorder : Py.byteorder)
    (path : string) (shards size : Z) (fs : OS.FS) (data : list entry) :
  fresh fs path -> (1 <= shards)%Z -> Forall writable data ->
  (Py.len data < size)%Z ->
  exists (fs' : OS.FS) (done : list Z) (j : Z) (todo : list Z)
         (chunks : list (list entry)) (last : list entry),
    export_dump_streaming byteorder path shards size (fs, data)
    = (Py.Raise Py.StopIteration, (fs', []))
    /\ seqZ 0 shards = done ++ j :: todo
    /\ data = concat chunks ++ last
    /\ Forall2 (fun k es =>
                  Py.len es = planned shards size k
                  /\ shard_holds byteorder fs' path k es) done chunks
    /\ (Py.len last < planned shards size j)%Z
    /\ fs' !! shard_path path j = Some OS.Dir
    /\ (exists vectors metas ids : Py.bytes,
           fs' !! vectors_file path j = Some (OS.File vectors)
           /\ fs' !! metas_file path j = Some (OS.File metas)
           /\ fs' !! ids_file path j = Some (OS.File ids)
           /\ vectors `prefix_of` vectors_image byteorder last
           /\ metas `prefix_of` metas_image byteorder last
           /\ ids `prefix_of` ids_image last)
    /\ (forall k, k ∈ todo -> fs' !! shard_path path k = None)
    /\ (forall key v, fs !! key = Some v -> fs' !! key = Some v).
Proof.
  intros Hfresh Hs Hfit Hshort.
  pose proof (len_range data) as H0.
  rewrite export_guard_passed by (cbn [fst]; (apply Hfresh || lia)).
  destruct (for_each_shard_underrun byteorder path (seqZ 0 shards)
              (size / shards) (size mod shards) (seqZ 0 shards)
              (NoDup_seqZ 0 shards)
              ltac:(apply Forall_seqZ; intros; lia) fs data Hfit)
    as (fs' & done & j & todo & chunks & last & Hrun & Eks & Edata & Hall
        & Hlast & Hhj & Htodo & Hmono).
  - erewrite list_fmap_ext.
    + rewrite (sum_planned shards size) by lia. unfold Py.len in Hshort. lia.
    + intros. cbn beta. now rewrite size_this_shard_planned.
  - intros k x Hk Hx. apply elem_of_seqZ in Hk.
    apply (fresh_shard_keys fs path k x Hfresh); [lia | exact Hx].
  - intros k x Hk Hx. apply elem_of_seqZ in Hk.
    apply (fresh_no_file_above fs path k x Hfresh); [lia | exact Hx].
  - exists fs', done, j, todo, chunks, last.
    split; [exact Hrun|]. split; [exact Eks|]. split; [exact Edata|].
    destruct Hhj as (HD & HV & HM & HI).
    split; [|split; [|split; [|split; [|split]]]].
    + eapply Forall2_impl; [exact Hall|]. cbn. intros k es (Hl & Hh).
      rewrite size_this_shard_planned in Hl by exact Hs.
      split; [|exact Hh]. unfold Py.len. rewrite Hl.
      apply Z2Nat.id. apply planned_nonneg; lia.
    + rewrite size_this_shard_planned in Hlast by exact Hs.
      unfold Py.len. lia.
    + exact HD.
    + exists [], [], []. repeat (split; [assumption|]).
      repeat split; apply prefix_nil.
    + intros k Hk. apply (Htodo k); [exact Hk | in_shard_keys].
    + intros key v Hv. apply Hmono; [|exact Hv].
      intros k Hk Hkey. apply elem_of_seqZ in Hk.
      rewrite (fresh_shard_keys fs path k key Hfresh) in Hv;
        [discriminate | lia | exact Hkey].
Qed.

(** Three shards for seven entries, from a source that holds three: shard 0
    holds two entries, shard 1 was to receive two and the source held one,
    shard 2 is not made. *)
Lemma export_source_underrun_is_StopIteration_witness :
  let v := [Py.F64 x00 x00 x00 x00 x00 x00 xf0 x3f] in
  let data : list entry :=
    [(Py.u "a", v, [x61]); ([0xE9]%Z, v, [x62]); (Py.u "c", v, [x63])] in
  let fs : OS.FS := <["notes" := OS.File [x61]]> ∅ in
  fresh fs "dump" /\ (1 <= 3)%Z /\ Forall writable data
  /\ (Py.len data < 7)%Z
  /\ exists (fs' : OS.FS) (done : list Z) (j : Z) (todo : list Z)
            (chunks : list (list entry)) (last : list entry),
       export_dump_streaming Py.little "dump" 3 7 (fs, data)
       = (Py.Raise Py.StopIteration, (fs', []))
       /\ seqZ 0 3 = done ++ j :: todo
       /\ data = concat chunks ++ last
       /\ Forall2 (fun k es =>
                     Py.len es = planned 3 7 k
                     /\ shard_holds Py.little fs' "dump" k es) done chunks
       /\ (Py.len last < planned 3 7 j)%Z
       /\ fs' !! shard_path "dump" j = Some OS.Dir
       /\ (exists vectors metas ids : Py.bytes,
              fs' !! vectors_file "dump" j = Some (OS.File vectors)
              /\ fs' !! metas_file "dump" j = Some (OS.File metas)
              /\ fs' !! ids_file "dump" j = Some (OS.File ids)
              /\ vectors `prefix_of` vectors_image Py.little last
              /\ metas `prefix_of` metas_image Py.little last
              /\ ids `prefix_of` ids_image last)
       /\ (forall k, k ∈ todo -> fs' !! shard_path "dump" k = None)
       /\ (forall key v, fs !! key = Some v -> fs' !! key = Some v).
Proof.
  intros v data fs.
  assert (fresh fs "dump") as Hfresh.
  { split; [reflexivity|]. split.
    - intros rel Hrel. unfold fs. apply lookup_insert_None. split.
      + apply lookup_empty.
      + rewrite join_relative by exact Hrel. vm_compute. discriminate.
    - intros q Hq. vm_compute in Hq. now apply elem_of_nil in Hq. }
  assert (1 <= 3)%Z as Hs by lia.
  assert (Forall writable data) as Hfit
    by (repeat (constructor; [split; [split; reflexivity | scalar_ids]|]);
        constructor).
  assert (Py.len data < 7)%Z as Hshort by (vm_compute; reflexivity).
  repeat (split; [assumption|]).
  exact (export_source_underrun_is_StopIteration Py.little "dump" 3 7 fs data
           Hfresh Hs Hfit Hshort).
Defined.

(** ** What the export creates *)

(** After an export of at least one shard that ended without an exception,
    a location that is not one of the four locations of a shard is as
    follows: when it is a directory above the shard directories, it is as
    it was when it existed and it is a directory when it did not; any
    other location is as it was, be it absent.  The export creates nothing
    but the shards and the directories above them. *)
Theorem export_creates_only_the_shards (byteorder : Py.byteorder)
    (path : string) (shards size : Z) (fs fs' : OS.FS)
    (data data' : list entry) (key : string) :
  export_dump_streaming byteorder path shards size (fs, data)
  = (Py.Ok tt, (fs', data')) ->
  (1 <= shards)%Z ->
  (forall k, (0 <= k < shards)%Z -> key ∉ shard_keys path k) ->
  fs' !! key
  = if decide (key ∈ OS.parents (shard_path path 0))
    then Some (default OS.Dir (fs !! key)) else fs !! key.
Proof.
  intros H Hs Hkey. apply export_Ok_inv in H as (_ & _ & H).
  assert (Forall (fun k => 0 <= k)%Z (seqZ 0 shards)) as Hpos
    by (apply Forall_seqZ; intros; lia).
  destruct (for_each_shard_Ok_inv byteorder path _ _ _ (seqZ 0 shards)
              (NoDup_seqZ 0 shards) Hpos _ _ _ H)
    as (chunks & _ & _ & _ & Hframe & Hpar).
  cbn [fst] in Hframe, Hpar.
  destruct (decide (key ∈ OS.parents (shard_path path 0))) as [Hin | Hin].
  - destruct (Hpar 0%Z key) as [Hnf ->]; [apply elem_of_seqZ; lia | exact Hin|].
    now rewrite (not_a_file fs key Hnf).
  - apply Hframe.
    + intros k Hk%elem_of_seqZ. apply Hkey. lia.
    + intros k Hk%elem_of_seqZ.
      now rewrite (parents_shard_path path k 0) by lia.
Qed.

(** An export to "store/dump": "store" is made, "store/notes" stays, and
    nothing comes to be at "store/dump.log". *)
Lemma export_creates_only_the_shards_witness :
  let fs : OS.FS := <["store/notes" := OS.File [x61]]> ∅ in
  let data : list entry :=
    [(Py.u "a", [Py.F64 x00 x00 x00 x00 x00 x00 xf0 x3f], [x61])] in
  let run := export_dump_streaming Py.little "store/dump" 1 1 (fs, data) in
  run = (Py.Ok tt, (fst (snd run), []))
  /\ (1 <= 1)%Z
  /\ fst (snd run) !! "store" = Some OS.Dir
  /\ fst (snd run) !! "store/notes" = Some (OS.File [x61])
  /\ fst (snd run) !! "store/dump.log" = None.
Proof.
  intros fs data run.
  assert (run = (Py.Ok tt, (fst (snd run), []))) as Hrun
    by (vm_compute; reflexivity).
  assert (1 <= 1)%Z as Hs by lia.
  repeat (split; [assumption|]).
  assert (forall key,
             key ∉ shard_keys "store/dump" 0 ->
             forall k, (0 <= k < 1)%Z -> key ∉ shard_keys "store/dump" k)
    as Hkeys.
  { intros key Hn k Hk. now replace k with 0%Z by lia. }
  split; [|split].
  - rewrite (export_creates_only_the_shards Py.little "store/dump" 1 1 fs
               (fst (snd run)) data [] "store" Hrun Hs); [reflexivity|].
    apply Hkeys. vm_compute. intros Hin.
    repeat (apply elem_of_cons in Hin as [Hin | Hin]; [discriminate|]).
    now apply elem_of_nil in Hin.
  - rewrite (export_creates_only_the_shards Py.little "store/dump" 1 1 fs
               (fst (snd run)) data [] "store/notes" Hrun Hs); [reflexivity|].
    apply Hkeys. vm_compute. intros Hin.
    repeat (apply elem_of_cons in Hin as [Hin | Hin]; [discriminate|]).
    now apply elem_of_nil in Hin.
  - rewrite (export_creates_only_the_shards Py.little "store/dump" 1 1 fs
               (fst (snd run)) data [] "store/dump.log" Hrun Hs);
      [reflexivity|].
    apply Hkeys. vm_compute. intros Hin.
    repeat (apply elem_of_cons in Hin as [Hin | Hin]; [discriminate|]).
    now apply elem_of_nil in Hin.
Defined.

(** After an export of at least one shard that ended without an exception,
    onto a path that is not empty and does not end in a separator, [path]
    itself is a directory. *)
Theorem export_makes_the_dump_directory (byteorder : Py.byteorder)
    (path : string) (shards size : Z) (fs fs' : OS.FS)
    (data data' : list entry) :
  export_dump_streaming byteorder path shards size (fs, data)
  = (Py.Ok tt, (fs', data')) ->
  (1 <= shards)%Z -> path <> "" -> OS.endswith OS.sep path = false ->
  fs' !! path = Some OS.Dir.
Proof.
  intros H Hs Hne Hend. apply export_Ok_inv in H as (_ & _ & H).
  assert (Forall (fun k => 0 <= k)%Z (seqZ 0 shards)) as Hpos
    by (apply Forall_seqZ; intros; lia).
  destruct (for_each_shard_Ok_inv byteorder path _ _ _ (seqZ 0 shards)
              (NoDup_seqZ 0 shards) Hpos _ _ _ H)
    as (chunks & _ & _ & _ & _ & Hpar).
  cbn [fst] in Hpar.
  apply (Hpar 0%Z path); [apply elem_of_seqZ; lia|].
  apply path_in_parents; [lia | exact Hne | exact Hend].
Qed.

Lemma export_makes_the_dump_directory_witness :
  let data : list entry :=
    [(Py.u "a", [Py.F64 x00 x00 x00 x00 x00 x00 xf0 x3f], [x61])] in
  let run := export_dump_streaming Py.little "dump" 2 1 (∅, data) in
  run = (Py.Ok tt, (fst (snd run), []))
  /\ (1 <= 2)%Z /\ "dump" <> "" /\ OS.endswith OS.sep "dump" = false
  /\ fst (snd run) !! "dump" = Some OS.Dir.
Proof.
  intros data run.
  assert (run = (Py.Ok tt, (fst (snd run), []))) as Hrun
    by (vm_compute; reflexivity).
  assert (1 <= 2)%Z as Hs by lia.
  assert ("dump" <> "") as Hne by discriminate.
  assert (OS.endswith OS.sep "dump" = false) as Hend by reflexivity.
  repeat (split; [assumption|]).
  exact (export_makes_the_dump_directory Py.little "dump" 2 1 ∅
           (fst (snd run)) data [] Hrun Hs Hne Hend).
Defined.

(** ** The entries of a shard *)

(** Chunks of given sizes that make up the beginning of a list are slices
    of it. *)
Lemma chunk_slice {A : Type} (f : Z -> nat) (ks : list Z)
    (chunks : list (list A)) (rest : list A) :
  Forall2 (fun k es => length es = f k) ks chunks ->
  forall (i : nat) (k : Z) (es : list A),
    ks !! i = Some k -> chunks !! i = Some es ->
    es = take (f k) (drop (sum_list (f <$> take i ks)) (concat chunks ++ rest)).
Proof.
  induction 1 as [|k0 es0 ks chunks Hk0 Hall IH]; intros i k es Hk Hes.
  - discriminate.
  - destruct i as [|i].
    + cbn in Hk, Hes. injection Hk as Hk. injection Hes as Hes. subst k es.
      cbn [take fmap list_fmap sum_list_with drop concat].
      rewrite <- Hk0, <- app_assoc, drop_0. now rewrite take_app_length.
    + cbn [lookup list_lookup] in Hk, Hes.
      cbn [take fmap list_fmap sum_list_with id concat].
      rewrite <- Hk0, <- app_assoc, drop_app_add. now apply IH.
Qed.

Lemma take_seqZ (shards : Z) (i : nat) :
  (Z.of_nat i <= shards)%Z -> take i (seqZ 0 shards) = seqZ 0 (Z.of_nat i).
Proof.
  intros Hi. replace shards with (Z.of_nat i + (shards - Z.of_nat i))%Z by lia.
  rewrite seqZ_app by lia. apply take_app_length'.
  rewrite length_seqZ. lia.
Qed.

(** The entries planned for the shards before shard [k]. *)
Lemma sum_planned_before (shards size : Z) (i : nat) :
  (1 <= shards)%Z -> (0 <= size)%Z -> (Z.of_nat i < shards)%Z ->
  sum_list ((fun k => Z.to_nat (planned shards size k))
              <$> take i (seqZ 0 shards))
  = Z.to_nat (Z.of_nat i * (size / shards)).
Proof.
  intros Hs Hz Hi. rewrite take_seqZ by lia.
  pose proof (Z.div_pos size shards Hz ltac:(lia)) as Hq.
  rewrite (sum_list_fmap_same (Z.to_nat (size / shards))).
  - rewrite length_seqZ. rewrite Z2Nat.inj_mul by lia. lia.
  - apply Forall_seqZ. intros k Hk. unfold planned.
    destruct (k =? shards - 1)%Z eqn:E; [lia | reflexivity].
Qed.

Section Slices.

Variable byteorder : Py.byteorder.

(** An export of at least one shard that ends without an exception: the
    chunk of every shard is the slice of the source that begins after
    [k * (size // shards)] entries and has the planned length. *)
Lemma export_Ok_slices (path : string) (shards size : Z) (fs fs' : OS.FS)
    (data data' : list entry) :
  export_dump_streaming byteorder path shards size (fs, data)
  = (Py.Ok tt, (fs', data')) ->
  (1 <= shards)%Z -> (0 <= size)%Z ->
  exists chunks : list (list entry),
    data = concat chunks ++ data'
    /\ Forall2 (fun k es =>
                  es = take (Z.to_nat (planned shards size k))
                         (drop (Z.to_nat (k * (size / shards))) data)
                  /\ shard_holds byteorder fs' path k es)
         (seqZ 0 shards) chunks.
Proof.
  intros H Hs Hz.
  destruct (export_Ok_holds byteorder _ _ _ _ _ _ H) as (chunks & Ec & Hall & _).
  cbn [fst snd] in Ec, Hall.
  exists chunks. split; [exact Ec|].
  assert (Forall2 (fun k (es : list entry) =>
                     length es = Z.to_nat (planned shards size k))
            (seqZ 0 shards) chunks) as Hlen.
  { eapply Forall2_impl; [exact Hall|]. cbn. intros k es (Hl & _).
    now rewrite size_this_shard_planned in Hl. }
  apply Forall2_same_length_lookup. split; [now apply Forall2_length in Hall|].
  intros i k es Hk Hes. split.
  - rewrite Ec.
    rewrite (chunk_slice _ _ _ data' Hlen i k es Hk Hes).
    apply lookup_seqZ in Hk as [-> Hi].
    now rewrite sum_planned_before by lia.
  - now destruct (Forall2_lookup_lr _ _ _ _ _ _ Hall Hk Hes) as (_ & _ & Hh).
Qed.

End Slices.

(** After an export of at least one shard and of a size that is not
    negative that ended without an exception, shard [k] is on disk and
    holds a contiguous slice of the source: the entries from position
    [k * (size // shards)] on, as many as are planned for the shard. *)
Theorem export_shard_is_a_slice (byteorder : Py.byteorder) (path : string)
    (shards size k : Z) (fs fs' : OS.FS) (data data' : list entry) :
  export_dump_streaming byteorder path shards size (fs, data)
  = (Py.Ok tt, (fs', data')) ->
  (1 <= shards)%Z -> (0 <= size)%Z -> (0 <= k < shards)%Z ->
  shard_holds byteorder fs' path k
    (take (Z.to_nat (planned shards size k))
       (drop (Z.to_nat (k * (size / shards))) data)).
Proof.
  intros H Hs Hz Hk.
  destruct (export_Ok_slices byteorder _ _ _ _ _ _ _ H Hs Hz)
    as (chunks & _ & Hall).
  assert (seqZ 0 shards !! Z.to_nat k = Some k) as Hlook.
  { apply lookup_seqZ. lia. }
  destruct (Forall2_lookup_l _ _ _ _ _ Hall Hlook) as (es & _ & -> & Hh).
  exact Hh.
Qed.

(** Seven entries in three shards: shard 1 holds the entries at positions
    2 and 3, the first of which has the id e with an acute accent. *)
Lemma export_shard_is_a_slice_witness :
  let v := [Py.F64 x00 x00 x00 x00 x00 x00 xf0 x3f] in
  let data : list entry :=
    [(Py.u "a", v, [x61]); (Py.u "b", v, [x62]); ([0xE9]%Z, v, [x63]);
     (Py.u "d", v, [x64]); (Py.u "e", v, [x65]); (Py.u "f", v, [x66]);
     (Py.u "g", v, [x67])] in
  let run := export_dump_streaming Py.little "dump" 3 7 (∅, data) in
  run = (Py.Ok tt, (fst (snd run), []))
  /\ (1 <= 3)%Z /\ (0 <= 7)%Z /\ (0 <= 1 < 3)%Z
  /\ shard_holds Py.little (fst (snd run)) "dump" 1
       [([0xE9]%Z, v, [x63]); (Py.u "d", v, [x64])]
  /\ fst (snd run) !! ids_file "dump" 1
     = Some (OS.File [xc3; xa9; x0a; x64; x0a]).
Proof.
  intros v data run.
  assert (run = (Py.Ok tt, (fst (snd run), []))) as Hrun
    by (vm_compute; reflexivity).
  assert (1 <= 3)%Z as Hs by lia.
  assert (0 <= 7)%Z as Hz by lia.
  assert (0 <= 1 < 3)%Z as Hk by lia.
  repeat (split; [assumption|]).
  pose proof (export_shard_is_a_slice Py.little "dump" 3 7 1 ∅ (fst (snd run))
                data [] Hrun Hs Hz Hk) as Hh.
  split; [exact Hh | apply Hh].
Defined.

(** Every shard can be imported on its own.  After an export onto a fresh
    path, above which no regular file stands, of the first [size] entries of
    a source, all of them storable, in at least one shard, which then ends
    without an exception, the four sequences that [import_vectors] and
    [import_metas] return for shard [k] give, consumed to their end, the
    ids, the vectors and the metadata of the slice of the source that the
    shard received, in the order of the source. *)
Theorem import_shard_gives_its_slice (byteorder : Py.byteorder)
    (path : string) (shards size k : Z) (fs : OS.FS) (data : list entry)
    (fuel : nat) :
  fresh fs path -> (1 <= shards)%Z -> (0 <= size <= Py.len data)%Z ->
  Forall storable (take (Z.to_nat size) data) ->
  (0 <= k < shards)%Z -> (size < Z.of_nat fuel)%Z ->
  exists fs',
    export_dump_streaming byteorder path shards size (fs, data)
    = (Py.Ok tt, (fs', drop (Z.to_nat size) data))
    /\ let es := take (Z.to_nat (planned shards size k))
                   (drop (Z.to_nat (k * (size / shards))) data) in
       collect (_ids_gen fs') fuel (fst (import_vectors path (Py.str k)))
       = Some (Py.Ok (entry_id <$> es))
       /\ collect (_vecs_gen byteorder fs') fuel
            (snd (import_vectors path (Py.str k)))
          = Some (Py.Ok (entry_vec <$> es))
       /\ collect (_ids_gen fs') fuel (fst (import_metas path (Py.str k)))
          = Some (Py.Ok (entry_id <$> es))
       /\ collect (_metas_gen byteorder fs') fuel
            (snd (import_metas path (Py.str k)))
          = Some (Py.Ok (entry_meta <$> es)).
Proof.
  intros Hfresh Hs Hz Hst Hk Hfuel.
  destruct (export_fresh_Ok byteorder path shards size fs data Hfresh Hs Hz)
    as (fs' & chunks0 & Hrun & _).
  { eapply Forall_impl; [exact Hst | now intros e (_ & _ & _ & ?)]. }
  exists fs'. split; [exact Hrun|].
  destruct (export_Ok_slices byteorder _ _ _ _ _ _ _ Hrun Hs ltac:(lia))
    as (chunks & Ec & Hall).
  assert (seqZ 0 shards !! Z.to_nat k = Some k) as Hlook.
  { apply lookup_seqZ. lia. }
  destruct (Forall2_lookup_l _ _ _ _ _ Hall Hlook) as (es & Hes & E & Hh).
  cbn zeta. rewrite <- E.
  assert (concat chunks = take (Z.to_nat size) data) as Ec'.
  { rewrite <- (take_drop (Z.to_nat size) data) in Ec at 1.
    now apply app_inv_tail in Ec. }
  rewrite <- Ec' in Hst. apply Forall_concat_chunks in Hst.
  rewrite Forall_forall in Hst.
  destruct (Hst es) as [Hes_st Hlen].
  { apply list_elem_of_lookup. now exists (Z.to_nat k). }
  apply read_shard; [exact Hh | exact Hes_st |].
  rewrite Ec', length_take in Hlen. lia.
Qed.

(** Five storable entries in two shards: shard 1 gives back the entries at
    positions 2, 3 and 4. *)
Lemma import_shard_gives_its_slice_witness :
  let v := [Py.F64 x00 x00 x00 x00 x00 x00 xf0 x3f] in
  let w := [Py.F64 x00 x00 x00 x00 x00 x00 x00 x40] in
  let data : list entry :=
    [(Py.u "a", v, [x61]); (Py.u "b", w, [x62]); (Py.u "c", v, [x63]);
     ([100; 0x20AC]%Z, w, [x64]); (Py.u "e", v, [x65])] in
  fresh ∅ "dump" /\ (1 <= 2)%Z /\ (0 <= 5 <= Py.len data)%Z
  /\ Forall storable (take (Z.to_nat 5) data) /\ (0 <= 1 < 2)%Z
  /\ (5 < Z.of_nat 6)%Z
  /\ exists fs',
       export_dump_streaming Py.little "dump" 2 5 (∅, data)
       = (Py.Ok tt, (fs', []))
       /\ collect (_ids_gen fs') 6 (fst (import_vectors "dump" "1"))
          = Some (Py.Ok [Py.u "c"; [100; 0x20AC]%Z; Py.u "e"])
       /\ collect (_vecs_gen Py.little fs') 6 (snd (import_vectors "dump" "1"))
          = Some (Py.Ok [v; w; v])
       /\ collect (_ids_gen fs') 6 (fst (import_metas "dump" "1"))
          = Some (Py.Ok [Py.u "c"; [100; 0x20AC]%Z; Py.u "e"])
       /\ collect (_metas_gen Py.little fs') 6 (snd (import_metas "dump" "1"))
          = Some (Py.Ok [[x63]; [x64]; [x65]]).
Proof.
  intros v w data.
  assert (fresh ∅ "dump") as Hfresh by apply fresh_empty.
  assert (1 <= 2)%Z as Hs by lia.
  assert (0 <= 5 <= Py.len data)%Z as Hz by (vm_compute; split; discriminate).
  assert (Forall storable (take (Z.to_nat 5) data)) as Hst
    by (repeat (constructor; [storable_entry|]); constructor).
  assert (0 <= 1 < 2)%Z as Hk by lia.
  assert (5 < Z.of_nat 6)%Z as Hfuel by lia.
  repeat (split; [assumption|]).
  destruct (import_shard_gives_its_slice Py.little "dump" 2 5 1 ∅ data 6
              Hfresh Hs Hz Hst Hk Hfuel)
    as (fs' & Hrun & H).
  exists fs'. split; [exact Hrun | exact H].
Defined.

(** ** An empty vector *)

(** After an export that ends without an exception, for every shard and
    every position i of its entries such that the entry at i has an empty
    vector and no entry before i in the shard has, the vectors file of the
    shard holds the frames of the first i entries, then four zero bytes,
    then the frames of the later entries, and the vector sequence returned
    by [import_vectors] for the shard ends without an exception after
    yielding exactly the vectors of the first i entries: the empty vector
    and the vectors of the later entries are never yielded. *)
Theorem empty_vector_ends_the_sequence (byteorder : Py.byteorder)
    (path : string) (shards size : Z) (fs fs' : OS.FS)
    (data data' : list entry) :
  export_dump_streaming byteorder path shards size (fs, data)
  = (Py.Ok tt, (fs', data')) ->
  exists chunks : list (list entry),
    data = concat chunks ++ data'
    /\ Forall2 (fun k es =>
         forall (i : nat) (e : entry),
           es !! i = Some e -> entry_vec e = [] ->
           Forall (fun e' => entry_vec e' <> []) (take i es) ->
           fs' !! vectors_file path k
           = Some (OS.File (vectors_image byteorder (take i es)
                            ++ [x00; x00; x00; x00]
                            ++ vectors_image byteorder (drop (S i) es)))
           /\ forall fuel, i < fuel ->
                collect (_vecs_gen byteorder fs') fuel
                  (snd (import_vectors path (Py.str k)))
                = Some (Py.Ok (entry_vec <$> take i es)))
         (seqZ 0 shards) chunks.
Proof.
  intros H.
  destruct (export_Ok_holds byteorder _ _ _ _ _ _ H) as (chunks & Ec & Hall & _).
  exists chunks. split; [exact Ec|].
  eapply Forall2_impl; [exact Hall|]. cbn [fst snd].
  intros k es (_ & Hfit & _ & HV & _) i e Hi He Hbefore.
  assert (vectors_image byteorder es
          = vectors_image byteorder (take i es)
            ++ [x00; x00; x00; x00]
            ++ vectors_image byteorder (drop (S i) es)) as Eimg.
  { rewrite <- (take_drop_middle es i e Hi) at 1.
    unfold vectors_image. rewrite flat_map_app. cbn [flat_map]. f_equal.
    destruct e as [[id_ vec] meta]. unfold entry_vec in He.
    cbn [fst snd] in He. subst vec. cbn [vec_frame Py.tobytes flat_map].
    change (Py.len []) with 0%Z. now rewrite size_prefix_zero. }
  rewrite Eimg in HV. split; [exact HV|].
  intros fuel Hfuel.
  cbn [import_vectors snd].
  change (OS.join path (Py.str k)) with (shard_path path k).
  erewrite collect_same_first; [|apply vecs_gen_unstarted; exact HV].
  assert (length (take i es) = i) as Hlen.
  { rewrite length_take. apply lookup_lt_Some in Hi. lia. }
  replace fuel with (length (take i es) + S (fuel - i - 1)) by lia.
  rewrite collect_vecs_frames.
  - erewrite collect_stop; [now rewrite app_nil_r|].
    cbn [_vecs_gen]. rewrite <- (size_prefix_zero byteorder).
    apply vecs_loop_zero.
  - apply Forall_and. split; [exact Hbefore|]. apply Forall_take.
    eapply Forall_impl; [exact Hfit | now intros e' [? _]].
Qed.

(** One shard of three entries, the second of which has an empty vector. *)
Lemma empty_vector_ends_the_sequence_witness :
  let v := [Py.F64 x00 x00 x00 x00 x00 x00 xf0 x3f] in
  let data : list entry := [(Py.u "a", v, [x61]); (Py.u "b", [], [x62]); (Py.u "c", v, [x63])] in
  let run := export_dump_streaming Py.little "dump" 1 3 (∅, data) in
  run = (Py.Ok tt, (fst (snd run), []))
  /\ exists chunks : list (list entry),
       data = concat chunks ++ []
       /\ Forall2 (fun k es =>
            forall (i : nat) (e : entry),
              es !! i = Some e -> entry_vec e = [] ->
              Forall (fun e' => entry_vec e' <> []) (take i es) ->
              fst (snd run) !! vectors_file "dump" k
              = Some (OS.File (vectors_image Py.little (take i es)
                               ++ [x00; x00; x00; x00]
                               ++ vectors_image Py.little (drop (S i) es)))
              /\ forall fuel, i < fuel ->
                   collect (_vecs_gen Py.little (fst (snd run))) fuel
                     (snd (import_vectors "dump" (Py.str k)))
                   = Some (Py.Ok (entry_vec <$> take i es)))
            (seqZ 0 1) chunks.
Proof.
  intros v data run.
  assert (run = (Py.Ok tt, (fst (snd run), []))) as Hrun
    by (vm_compute; reflexivity).
  split; [exact Hrun|].
  exact (empty_vector_ends_the_sequence Py.little "dump" 1 3 ∅
           (fst (snd run)) data [] Hrun).
Defined.

(** ** The readers on any file *)

Lemma readline_length (c : Z) (fh : Py.text) :
  length (snd (OS.readline (c :: fh))) <= length fh.
Proof.
  revert c. induction fh as [|d fh IH]; intros c.
  - cbn. destruct (c =? Py.LF)%Z; cbn; lia.
  - cbn [OS.readline]. destruct (c =? Py.LF)%Z; [cbn; lia|].
    specialize (IH d). cbn [OS.readline] in IH.
    destruct (d =? Py.LF)%Z; cbn [snd] in *; [cbn; lia|].
    destruct (OS.readline fh) as [l rest]. cbn [snd length] in *. lia.
Qed.

(** Fuel beyond the number of characters left changes nothing. *)
Lemma readlines_upto_enough (fuel fuel' : nat) (fh : Py.text) :
  length fh <= fuel -> length fh <= fuel' ->
  OS.readlines_upto fuel fh = OS.readlines_upto fuel' fh.
Proof.
  revert fuel' fh. induction fuel as [|fuel IH]; intros fuel' fh H1 H2.
  - destruct fh; [|cbn in H1; lia]. now destruct fuel'.
  - destruct fh as [|c fh]; [now destruct fuel'|].
    destruct fuel' as [|fuel']; [cbn in H2; lia|].
    cbn [OS.readlines_upto]. pose proof (readline_length c fh) as Hl.
    destruct (OS.readline (c :: fh)) as [l rest]. cbn [snd] in Hl.
    cbn [length] in H1, H2. f_equal. apply IH; lia.
Qed.

Lemma collect_ids_any (fs : OS.FS) (fuel : nat) :
  forall text : Py.text,
    length text <= fuel ->
    collect (_ids_gen fs) (S fuel) (Suspended text)
    = Some (Py.Ok (Py.strip <$> OS.readlines_upto fuel text)).
Proof.
  induction fuel as [|fuel IH]; intros text Hf.
  - destruct text; [reflexivity | cbn in Hf; lia].
  - destruct text as [|c text]; [reflexivity|].
    pose proof (readline_length c text) as Hl.
    cbn [OS.readlines_upto].
    destruct (OS.readline (c :: text)) as [l rest] eqn:E. cbn [snd] in Hl.
    erewrite collect_Ok.
    2:{ cbn [_ids_gen ids_loop]. rewrite E. reflexivity. }
    rewrite IH by (cbn [length] in Hf; lia). reflexivity.
Qed.

(** An ids file that is not UTF-8, the single line of the byte e9: the
    first pull raises [UnicodeDecodeError]. *)
Lemma ids_not_utf8_raises :
  let fs : OS.FS := <["dump/0/ids" := OS.File [xe9; x0a]]> ∅ in
  _ids_gen fs (Unstarted "dump/0")
  = (Py.Raise Py.UnicodeDecodeError, Finished).
Proof. vm_compute. reflexivity. Qed.

Lemma from_bytes_nil (byteorder : Py.byteorder) : Py.from_bytes [] byteorder = 0%Z.
Proof. now destruct byteorder. Qed.

Section AnyFile.

Variable byteorder : Py.byteorder.
Variable fs : OS.FS.

(** One turn of the metadata loop: it stops, or it yields and leaves a
    shorter file. *)
Lemma metas_loop_cases (c : Py.bytes) :
  metas_loop byteorder c = (Py.Raise Py.StopIteration, Finished)
  \/ exists meta rest,
       metas_loop byteorder c = (Py.Ok meta, Suspended rest)
       /\ S (length meta + length rest) <= length c.
Proof.
  unfold metas_loop, OS.read. rewrite Nat2Z.id.
  change BYTE_PADDING with 4.
  destruct (Py.from_bytes (take 4 c) byteorder =? 0)%Z eqn:E0; [now left|].
  right. eexists _, _. split; [reflexivity|].
  assert (c <> []) as Hc.
  { intros ->. rewrite take_nil, from_bytes_nil in E0. discriminate. }
  rewrite length_take, !length_drop.
  destruct c; [congruence | cbn [length]; lia].
Qed.

Lemma vecs_loop_cases (c : Py.bytes) :
  vecs_loop byteorder c = (Py.Raise Py.StopIteration, Finished)
  \/ vecs_loop byteorder c = (Py.Raise Py.ValueError, Finished)
  \/ exists vec rest,
       vecs_loop byteorder c = (Py.Ok vec, Suspended rest)
       /\ S (8 * length vec + length rest) <= length c.
Proof.
  unfold vecs_loop, OS.read. rewrite Nat2Z.id.
  change BYTE_PADDING with 4.
  destruct (Py.from_bytes (take 4 c) byteorder =? 0)%Z eqn:E0; [now left|].
  right.
  assert (c <> []) as Hc.
  { intros ->. rewrite take_nil, from_bytes_nil in E0. discriminate. }
  set (n := Z.to_nat (Py.from_bytes (take 4 c) byteorder)).
  destruct (frombuffer_cases (take n (drop 4 c)))
    as [(v & -> & Hb & _) | (-> & _)]; [right | now left].
  exists v, (drop n (drop 4 c)). split; [reflexivity|].
  rewrite <- length_tobytes, Hb, length_take, !length_drop.
  destruct c; [congruence | cbn [length]; lia].
Qed.

Lemma collect_metas_any (n : nat) :
  forall (c : Py.bytes) (fuel : nat),
    length c <= n -> length c < fuel ->
    exists l, collect (_metas_gen byteorder fs) fuel (Suspended c)
              = Some (Py.Ok l)
              /\ length l + length (concat l) <= length c.
Proof.
  induction n as [|n IH]; intros c fuel Hn Hf;
    (destruct fuel as [|fuel]; [lia|]).
  - destruct c; [|cbn in Hn; lia]. exists []. split; [|cbn; lia].
    eapply collect_stop. cbn [_metas_gen]. apply metas_loop_nil.
  - destruct (metas_loop_cases c) as [E | (meta & rest & E & Hl)].
    + exists []. split; [|cbn; lia]. eapply collect_stop. exact E.
    + destruct (IH rest fuel) as (l & Hc & Hlen); [lia | lia |].
      exists (meta :: l). split.
      * erewrite collect_Ok by exact E. now rewrite Hc.
      * cbn [length concat]. rewrite length_app. lia.
Qed.

Lemma collect_vecs_any (n : nat) :
  forall (c : Py.bytes) (fuel : nat),
    length c <= n -> length c < fuel ->
    collect (_vecs_gen byteorder fs) fuel (Suspended c)
    = Some (Py.Raise Py.ValueError)
    \/ exists l, collect (_vecs_gen byteorder fs) fuel (Suspended c)
                 = Some (Py.Ok l)
                 /\ length l + 8 * length (concat l) <= length c.
Proof.
  induction n as [|n IH]; intros c fuel Hn Hf;
    (destruct fuel as [|fuel]; [lia|]).
  - destruct c; [|cbn in Hn; lia]. right. exists []. split; [|cbn; lia].
    eapply collect_stop. cbn [_vecs_gen]. apply vecs_loop_nil.
  - destruct (vecs_loop_cases c) as [E | [E | (vec & rest & E & Hl)]].
    + right. exists []. split; [|cbn; lia]. eapply collect_stop. exact E.
    + left. cbn [collect _vecs_gen]. now rewrite E.
    + destruct (IH rest fuel) as [Hc | (l & Hc & Hlen)]; [lia | lia | |].
      * left. erewrite collect_Ok by exact E. now rewrite Hc.
      * right. exists (vec :: l). split.
        -- erewrite collect_Ok by exact E. now rewrite Hc.
        -- cbn [length concat]. rewrite length_app. lia.
Qed.

End AnyFile.

(** The id sequence of a shard whose ids file is UTF-8, consumed to its
    end, is the list of the lines of the text that the file decodes to,
    each one stripped; one pull per character of the text and one more are
    enough to reach the end. *)
Theorem ids_sequence_is_the_stripped_lines (fs : OS.FS) (path : string)
    (g : generator Py.text) (text : Py.text) (fuel : nat) :
  g = Suspended text
  \/ (g = Unstarted path
      /\ exists (c : Py.bytes) (t : Py.text),
           fs !! OS.join path "ids" = Some (OS.File c)
           /\ Py.utf8_decode c = Py.Ok t
           /\ text = OS.universal_newlines t) ->
  length text < fuel ->
  collect (_ids_gen fs) fuel g
  = Some (Py.Ok (Py.strip <$> OS.readlines text)).
Proof.
  intros Hg Hf.
  assert (collect (_ids_gen fs) fuel g
          = collect (_ids_gen fs) fuel (Suspended text)) as ->.
  { destruct Hg as [-> | (-> & c & t & Hc & Ht & ->)]; [reflexivity|].
    apply collect_same_first. now apply (ids_gen_unstarted fs path c t). }
  destruct fuel as [|fuel]; [lia|].
  rewrite collect_ids_any by lia. unfold OS.readlines.
  f_equal. f_equal. f_equal. apply readlines_upto_enough; lia.
Qed.

(** The ids file with the lines " a", "b " ended by CR LF, where b has a
    grave accent, and an unfinished "c". *)
Lemma ids_sequence_is_the_stripped_lines_witness :
  let c := [x20; x61; x0a; xc3; xa8; x20; x0d; x0a; x63] in
  let t := [32; 97; 10; 0xE8; 32; 13; 10; 99]%Z in
  let fs : OS.FS := <["dump/0/ids" := OS.File c]> ∅ in
  Py.utf8_decode c = Py.Ok t
  /\ length (OS.universal_newlines t) < 8
  /\ collect (_ids_gen fs) 8 (Unstarted "dump/0")
     = Some (Py.Ok [Py.u "a"; [0xE8]%Z; Py.u "c"]).
Proof.
  intros c t fs.
  assert (Py.utf8_decode c = Py.Ok t) as Ht by (vm_compute; reflexivity).
  assert (length (OS.universal_newlines t) < 8) as Hf by (vm_compute; lia).
  split; [exact Ht|]. split; [exact Hf|].
  rewrite (ids_sequence_is_the_stripped_lines fs "dump/0" (Unstarted "dump/0")
             (OS.universal_newlines t) 8);
    [reflexivity | | exact Hf].
  right. split; [reflexivity|]. exists c, t.
  split; [reflexivity|]. split; [exact Ht | reflexivity].
Defined.

(** The metadata sequence, on any file whatever it holds, ends without an
    exception: at most one pull per byte of the file and one more reach the
    end, and the payloads yielded hold no more bytes than the file. *)
Theorem metas_sequence_ends (byteorder : Py.byteorder) (fs : OS.FS)
    (path : string) (g : generator Py.bytes) (c : Py.bytes) (fuel : nat) :
  g = Suspended c
  \/ (g = Unstarted path /\ fs !! OS.join path "metas" = Some (OS.File c)) ->
  length c < fuel ->
  exists l : list Py.bytes,
    collect (_metas_gen byteorder fs) fuel g = Some (Py.Ok l)
    /\ length l + length (concat l) <= length c.
Proof.
  intros Hg Hf.
  assert (collect (_metas_gen byteorder fs) fuel g
          = collect (_metas_gen byteorder fs) fuel (Suspended c)) as ->.
  { destruct Hg as [-> | (-> & Hc)]; [reflexivity|].
    apply collect_same_first. now apply metas_gen_unstarted. }
  now apply (collect_metas_any byteorder fs (length c)).
Qed.

(** A metas file cut in the middle of its second frame. *)
Lemma metas_sequence_ends_witness :
  let c := [x01; x00; x00; x00; x61; x05; x00; x00; x00; x62; x63] in
  let fs : OS.FS := <["dump/0/metas" := OS.File c]> ∅ in
  length c < 12
  /\ exists l : list Py.bytes,
       collect (_metas_gen Py.little fs) 12 (Unstarted "dump/0")
       = Some (Py.Ok l)
       /\ length l + length (concat l) <= length c.
Proof.
  intros c fs.
  assert (length c < 12) as Hf by (vm_compute; lia).
  split; [exact Hf|].
  apply (metas_sequence_ends Py.little fs "dump/0" (Unstarted "dump/0") c 12);
    [|exact Hf].
  right. split; reflexivity.
Defined.

(** The vector sequence, on any file whatever it holds, comes to an end
    within one pull per byte of the file and one more: it ends without an
    exception, having yielded arrays that hold no more bytes than the
    file, or it raises the [ValueError] of the float64 conversion; it
    raises nothing else. *)
Theorem vecs_sequence_ends (byteorder : Py.byteorder) (fs : OS.FS)
    (path : string) (g : generator Py.bytes) (c : Py.bytes) (fuel : nat) :
  g = Suspended c
  \/ (g = Unstarted path /\ fs !! OS.join path "vectors" = Some (OS.File c)) ->
  length c < fuel ->
  collect (_vecs_gen byteorder fs) fuel g = Some (Py.Raise Py.ValueError)
  \/ exists l : list Py.ndarray,
       collect (_vecs_gen byteorder fs) fuel g = Some (Py.Ok l)
       /\ length l + 8 * length (concat l) <= length c.
Proof.
  intros Hg Hf.
  assert (collect (_vecs_gen byteorder fs) fuel g
          = collect (_vecs_gen byteorder fs) fuel (Suspended c)) as ->.
  { destruct Hg as [-> | (-> & Hc)]; [reflexivity|].
    apply collect_same_first. now apply vecs_gen_unstarted. }
  now apply (collect_vecs_any byteorder fs (length c)).
Qed.

(** A vectors file whose only frame claims 8 bytes and holds 3. *)
Lemma vecs_sequence_ends_witness :
  let c := [x08; x00; x00; x00; x61; x62; x63] in
  let fs : OS.FS := <["dump/0/vectors" := OS.File c]> ∅ in
  length c < 8
  /\ (collect (_vecs_gen Py.little fs) 8 (Unstarted "dump/0")
      = Some (Py.Raise Py.ValueError)
      \/ exists l : list Py.ndarray,
           collect (_vecs_gen Py.little fs) 8 (Unstarted "dump/0")
           = Some (Py.Ok l)
           /\ length l + 8 * length (concat l) <= length c).
Proof.
  intros c fs.
  assert (length c < 8) as Hf by (vm_compute; lia).
  split; [exact Hf|].
  apply (vecs_sequence_ends Py.little fs "dump/0" (Unstarted "dump/0") c 8);
    [|exact Hf].
  right. split; reflexivity.
Defined.

